(** * DAXPY benchmark driver (MP2/main.c): shallow embedding and verification

    The C program is embedded as functions of a small state-and-error monad
    over a block-structured heap of [double] arrays.  Doubles are Rocq's
    primitive binary64 floats, so every arithmetic operation of the source
    ([*], [+], [-], [fabs], [>], [/]) is the IEEE 754 operation the compiled
    program performs ([A * x[i] + y[i]] is a multiplication followed by an
    addition, each rounded, as without contraction into a fused operation).
    What the program does to the outside world (calls of [printf], [clock],
    [malloc], [free]) and every entry into a DAXPY kernel is recorded in a
    trace of events. *)

From Stdlib Require Import ZArith Floats String List Lia.
From stdpp Require Import gmap list.

Set Warnings "-inexact-float".
Open Scope Z_scope.

(** ** Constants of the source *)

(** [#define RUNS 30] *)
Definition RUNS : Z := 30.

(** [#define EPS 1e-9] (the nearest binary64 value, as a C compiler reads it). *)
Definition EPS : float := 1e-9%float.

(** [size_t] is the 64-bit unsigned type of the x86-64 target; arithmetic on
    it wraps modulo [2^64]. *)
Definition size_wrap (z : Z) : Z := z mod 2 ^ 64.

(** [sizeof(double)] *)
Definition sizeof_double : Z := 8.

(** Conversion of an integer to [double] (exact below [2^53], otherwise
    rounded to nearest), for integers of magnitude below [2^63]. *)
Definition double_of_Z (z : Z) : float :=
  if z <? 0 then PrimFloat.opp (PrimFloat.of_uint63 (Uint63.of_Z (- z)))
  else PrimFloat.of_uint63 (Uint63.of_Z z).

(** ** Memory, events and the state of a run *)

(** A [double*] of the program is either [NULL] or the base address of an
    array object (a block); the source only ever indexes from the base. *)
Abbreviation block := nat (only parsing).

Inductive ptr :=
  | NULL
  | Ptr (b : block).

Definition is_null (p : ptr) : bool :=
  match p with NULL => true | Ptr _ => false end.

(** Arguments of a [printf] call. *)
Inductive arg :=
  | ArgZ (z : Z)
  | ArgF (d : float)
  | ArgS (s : string).

Inductive kernel :=
  | KernelC
  | KernelAsm.

Inductive event :=
  | Printf (fmt : string) (args : list arg)
  | Clock (t : Z)
  | Malloc (bytes : Z) (p : ptr)
  | Free (p : ptr)
  | Call (k : kernel) (z x y : ptr) (A : float) (n : Z).

Record state := mkState {
  heap : gmap block (list float);   (* live array objects *)
  trace : list event;               (* events so far, oldest first *)
  nclock : nat;                     (* calls of clock() so far *)
  nmalloc : nat                     (* calls of malloc() so far *)
}.

(** What the program cannot decide itself: the C library and the assembly
    kernel. *)
Record platform := mkPlatform {
  (** [CLOCKS_PER_SEC] of <time.h> *)
  CLOCKS_PER_SEC : Z;
  (** the value the k-th call of [clock()] returns *)
  clock_at : nat -> Z;
  (** whether the k-th call of [malloc], asking for that many bytes, succeeds *)
  malloc_ok : nat -> Z -> bool;
  (** the indeterminate initial contents of the k-th allocated block *)
  malloc_init : nat -> nat -> float;
  (** [(int)log2((double)n)] of <math.h>, as printed in the size header *)
  log2_int : Z -> Z;
  (** the value [daxpy_asm] stores in [z[i]], from the scalar and the
      contents of [x] and [y] *)
  asm_out : float -> list float -> list float -> nat -> float
}.

(** ** The monad: state passing, [None] is undefined behaviour
    (out-of-bounds or dangling access, invalid [free]). *)
Definition M (A : Type) : Type := state -> option (A * state).

Definition ret {A} (a : A) : M A := fun s => Some (a, s).

Definition bind {A B} (m : M A) (k : A -> M B) : M B :=
  fun s => match m s with
           | Some (a, s') => k a s'
           | None => None
           end.

Notation "'let*' x ':=' m 'in' k" := (bind m (fun x => k))
  (at level 10, x name, m at level 200, k at level 200, only parsing).
Notation "m1 >> m2" := (bind m1 (fun _ => m2))
  (at level 100, right associativity, only parsing).

Definition set_heap (h : gmap block (list float)) (s : state) : state :=
  mkState h (trace s) (nclock s) (nmalloc s).

Definition log (evs : list event) (s : state) : state :=
  mkState (heap s) (trace s ++ evs) (nclock s) (nmalloc s).

Definition emit (e : event) : M unit := fun s => Some (tt, log [e] s).

(** [p[i]] as an rvalue. *)
Definition load (p : ptr) (i : Z) : M float := fun s =>
  match p with
  | NULL => None
  | Ptr b =>
      match heap s !! b with
      | Some l =>
          match l !! Z.to_nat i with
          | Some v => Some (v, s)
          | None => None
          end
      | None => None
      end
  end.

(** [p[i] = v]. *)
Definition store (p : ptr) (i : Z) (v : float) : M unit := fun s =>
  match p with
  | NULL => None
  | Ptr b =>
      match heap s !! b with
      | Some l =>
          if decide (Z.to_nat i < length l)%nat
          then Some (tt, set_heap (<[b := <[Z.to_nat i := v]> l]> (heap s)) s)
          else None
      | None => None
      end
  end.

(** [printf(fmt, args...)] *)
Definition printf (fmt : string) (args : list arg) : M unit :=
  emit (Printf fmt args).

(** An array with automatic storage duration and the given initialiser; it
    is released by [end_scope] when the function returns. *)
Definition local_array (init : list float) : M ptr := fun s =>
  let b := fresh (dom (heap s)) in
  Some (Ptr b, set_heap (<[b := init]> (heap s)) s).

Definition end_scope (p : ptr) : M unit := fun s =>
  match p with
  | NULL => None
  | Ptr b => Some (tt, set_heap (delete b (heap s)) s)
  end.

(** [for (size_t i = i0; i < i0 + k; ++i) body(i)]: the body runs [k]
    times, on consecutive indices. *)
Fixpoint for_loop (k : nat) (i : Z) (body : Z -> M unit) : M unit :=
  match k with
  | O => ret tt
  | S k' => body i >> for_loop k' (i + 1) body
  end.

(** [for (int i = 0; i < k; i++) sum += timed();] *)
Fixpoint sum_runs (k : nat) (timed : M float) (sum : float) : M float :=
  match k with
  | O => ret sum
  | S k' => let* d := timed in sum_runs k' timed (sum + d)%float
  end.

Section Program.

Context (P : platform).

(** [clock()] *)
Definition clock : M Z := fun s =>
  let t := clock_at P (nclock s) in
  Some (t, mkState (heap s) (trace s ++ [Clock t]) (S (nclock s)) (nmalloc s)).

Definition fresh_cells (k : nat) (cells : nat) : list float :=
  malloc_init P k <$> seq 0 cells.

(** [malloc(bytes)]: on success a fresh block of [bytes / sizeof(double)]
    doubles of indeterminate content, otherwise [NULL]. *)
Definition malloc (bytes : Z) : M ptr := fun s =>
  let k := nmalloc s in
  if malloc_ok P k bytes then
    let b := fresh (dom (heap s)) in
    Some (Ptr b,
          mkState (<[b := fresh_cells k (Z.to_nat (bytes / sizeof_double))]> (heap s))
                  (trace s ++ [Malloc bytes (Ptr b)]) (nclock s) (S k))
  else
    Some (NULL, mkState (heap s) (trace s ++ [Malloc bytes NULL]) (nclock s) (S k)).

(** [free(p)]: nothing happens for [NULL]; the block is released otherwise. *)
Definition free (p : ptr) : M unit := fun s =>
  match p with
  | NULL => Some (tt, log [Free NULL] s)
  | Ptr b =>
      match heap s !! b with
      | Some _ => Some (tt, mkState (delete b (heap s)) (trace s ++ [Free p])
                                   (nclock s) (nmalloc s))
      | None => None
      end
  end.

(** *** main.c, lines 14-18
<<
void daxpy_c(double* z, const double* x, const double* y, double A, size_t n)
{
    for (size_t i = 0; i < n; ++i)
        z[i] = A * x[i] + y[i];
}
>> *)
Definition daxpy_c (z x y : ptr) (A : float) (n : Z) : M unit :=
  emit (Call KernelC z x y A n) >>
  for_loop (Z.to_nat n) 0 (fun i =>
    let* xi := load x i in
    let* yi := load y i in
    store z i (A * xi + yi)%float).

(** The first [n] elements of the array at [p]. *)
Definition read_array (p : ptr) (n : Z) : M (list float) := fun s =>
  match p with
  | NULL => None
  | Ptr b =>
      match heap s !! b with
      | Some l => if decide (Z.to_nat n <= length l)%nat
                  then Some (take (Z.to_nat n) l, s) else None
      | None => None
      end
  end.

(** Modelled from the spec: [daxpy_asm], the hand-written x86-64 kernel, is
    only declared in main.c (line 11); its body is not among the sources.
    Spec 4.2 and 6: it "accepts an output-buffer pointer, two input-buffer
    pointers, an address-of-scalar, and a length; writes results in place
    into the output buffer".  The model reads [x[0..n)] and [y[0..n)], then
    stores one value in each of [z[0..n)] and touches nothing else; which
    value is the platform's [asm_out].  The scalar, passed by address in the
    source, is passed here as the value stored at that address. *)
Definition daxpy_asm (z x y : ptr) (A : float) (n : Z) : M unit :=
  emit (Call KernelAsm z x y A n) >>
  let* xs := read_array x n in
  let* ys := read_array y n in
  for_loop (Z.to_nat n) 0 (fun i => store z i (asm_out P A xs ys (Z.to_nat i))).

(** *** main.c, lines 21-27
<<
static void init_data(double* x, double* y, size_t n)
{
    for (size_t i = 0; i < n; ++i) {
        x[i] = (double)(i % 1000) * 0.001;
        y[i] = (double)((i * 7) % 1000) * 0.002;
    }
}
>> *)
Definition init_x (i : Z) : float :=
  (double_of_Z (i mod 1000) * 0.001)%float.

Definition init_y (i : Z) : float :=
  (double_of_Z (size_wrap (i * 7) mod 1000) * 0.002)%float.

Definition init_data (x y : ptr) (n : Z) : M unit :=
  for_loop (Z.to_nat n) 0 (fun i =>
    store x i (init_x i) >>
    store y i (init_y i)).

(** *** main.c, lines 29-40
<<
static int check_correctness(const double* ref, const double* test, size_t n)
{
    for (size_t i = 0; i < n; ++i) {
        double diff = fabs(ref[i] - test[i]);
        if (diff > EPS) {
            printf("Mismatch at index %zu: ref=%.15f test=%.15f diff=%.3e\n",
                i, ref[i], test[i], diff);
            return 0;
        }
    }
    return 1;
}
>>
    [diff > EPS] is the IEEE comparison [EPS < diff]; [check_loop k i] is
    the loop with [k] iterations left, at index [i]. *)
Definition exceeds (r t : float) : bool :=
  (EPS <? abs (r - t))%float.

Fixpoint check_loop (k : nat) (i : Z) (ref test : ptr) : M Z :=
  match k with
  | O => ret 1
  | S k' =>
      let* r := load ref i in
      let* t := load test i in
      let diff := abs (r - t)%float in
      if (EPS <? diff)%float then
        let* r' := load ref i in
        let* t' := load test i in
        printf "Mismatch at index %zu: ref=%.15f test=%.15f diff=%.3e\n"
               [ArgZ i; ArgF r'; ArgF t'; ArgF diff] >>
        ret 0
      else check_loop k' (i + 1) ref test
  end.

Definition check_correctness (ref test : ptr) (n : Z) : M Z :=
  check_loop (Z.to_nat n) 0 ref test.

(** *** main.c, lines 42-47
<<
static void print_first_ten(const char* label, const double* z, size_t n)
{
    printf("%s (first 10):\n", label);
    for (size_t i = 0; i < 10 && i < n; ++i)
        printf("  Z[%2zu] = %.6f\n", i, z[i]);
}
>>
    The condition [i < 10 && i < n] holds for the first [min 10 n] indices. *)
Definition print_first_ten (label : string) (z : ptr) (n : Z) : M unit :=
  printf "%s (first 10):\n" [ArgS label] >>
  for_loop (Z.to_nat (Z.min 10 n)) 0 (fun i =>
    let* zi := load z i in
    printf "  Z[%2zu] = %.6f\n" [ArgZ i; ArgF zi]).

(** *** main.c, lines 49-61
<<
static double time_c(double* z, const double* x, const double* y, double A, size_t n)
{
    clock_t start = clock();
    daxpy_c(z, x, y, A, n);
    return (double)(clock() - start) / CLOCKS_PER_SEC;
}
>>
    and [time_asm], the same around [daxpy_asm(z, x, y, &A, n)].  The
    difference of the two [clock_t] readings is taken in [Z]. *)
Definition duration (start stop : Z) : float :=
  (double_of_Z (stop - start) / double_of_Z (CLOCKS_PER_SEC P))%float.

Definition time_c (z x y : ptr) (A : float) (n : Z) : M float :=
  let* start := clock in
  daxpy_c z x y A n >>
  let* stop := clock in
  ret (duration start stop).

Definition time_asm (z x y : ptr) (A : float) (n : Z) : M float :=
  let* start := clock in
  daxpy_asm z x y A n >>
  let* stop := clock in
  ret (duration start stop).

Definition rule : string := "\n=========================================\n".
Definition rule_end : string := "=========================================\n".

Definition verdict (ok : Z) (passed : string) : arg :=
  ArgS (if ok =? 0 then "FAILED"%string else passed).

(** *** main.c, lines 64-101: [verify_with_example] *)
Definition verify_with_example : M unit :=
  printf rule [] >>
  printf " PROCESS VERIFICATION\n" [] >>
  printf rule_end [] >>
  let A := 2%float in
  let n := 3 in
  let* x := local_array [1; 2; 3]%float in
  let* y := local_array [11; 12; 13]%float in
  let* zC := local_array [0; 0; 0]%float in
  let* zA := local_array [0; 0; 0]%float in
  printf "Input:\n" [] >>
  printf "  A --> %.1f\n" [ArgF A] >>
  let* x0 := load x 0 in let* x1 := load x 1 in let* x2 := load x 2 in
  printf "  x --> %.1f, %.1f, %.1f\n" [ArgF x0; ArgF x1; ArgF x2] >>
  let* y0 := load y 0 in let* y1 := load y 1 in let* y2 := load y 2 in
  printf "  y --> %.1f, %.1f, %.1f\n" [ArgF y0; ArgF y1; ArgF y2] >>
  printf "\nProcess (DAXPY: Z = A*X + Y):\n" [] >>
  for_loop (Z.to_nat n) 0 (fun i =>
    let* xi := load x i in
    let* yi := load y i in
    let expected := (A * xi + yi)%float in
    let* xi' := load x i in
    let* yi' := load y i in
    printf "  z[%zu] = %.1f * %.1f + %.1f = %.1f\n"
           [ArgZ i; ArgF A; ArgF xi'; ArgF yi'; ArgF expected]) >>
  daxpy_c zC x y A n >>
  daxpy_asm zA x y A n >>
  printf "\nOutput (C kernel):\n" [] >>
  let* c0 := load zC 0 in let* c1 := load zC 1 in let* c2 := load zC 2 in
  printf "  z --> %.1f, %.1f, %.1f\n" [ArgF c0; ArgF c1; ArgF c2] >>
  printf "\nOutput (x86-64 ASM kernel):\n" [] >>
  let* a0 := load zA 0 in let* a1 := load zA 1 in let* a2 := load zA 2 in
  printf "  z --> %.1f, %.1f, %.1f\n" [ArgF a0; ArgF a1; ArgF a2] >>
  let* ok := check_correctness zC zA n in
  printf "\nCorrectness: %s\n"
         [verdict ok "PASSED - ASM output matches C output"] >>
  end_scope zA >> end_scope zC >> end_scope y >> end_scope x.

(** *** main.c, lines 104-146: [run_test] *)
Definition run_test (n : Z) : M unit :=
  printf rule [] >>
  printf " Vector size n = %zu (2^%d)\n" [ArgZ n; ArgZ (log2_int P n)] >>
  printf rule_end [] >>
  let A := 2%float in
  let* x := malloc (size_wrap (n * sizeof_double)) in
  let* y := malloc (size_wrap (n * sizeof_double)) in
  let* zC := malloc (size_wrap (n * sizeof_double)) in
  let* zA := malloc (size_wrap (n * sizeof_double)) in
  if is_null x || is_null y || is_null zC || is_null zA then
    printf "Memory allocation failed.\n" [] >>
    free x >> free y >> free zC >> free zA
  else
    init_data x y n >>
    let* sumC := sum_runs (Z.to_nat RUNS) (time_c zC x y A n) 0 in
    let* sumA := sum_runs (Z.to_nat RUNS) (time_asm zA x y A n) 0 in
    let avgC := (sumC / double_of_Z RUNS)%float in
    let avgA := (sumA / double_of_Z RUNS)%float in
    let* ok := check_correctness zC zA n in
    printf "Correctness check: %s\n"
           [verdict ok "PASSED - x86-64 kernel output is correct"] >>
    print_first_ten "C version result" zC n >>
    print_first_ten "x86-64 ASM version result" zA n >>
    printf "\nAverage kernel execution time (%d runs):\n" [ArgZ RUNS] >>
    printf "  C kernel       : %.6f sec\n" [ArgF avgC] >>
    printf "  x86-64 kernel  : %.6f sec\n" [ArgF avgA] >>
    free x >> free y >> free zC >> free zA.

(** *** main.c, lines 149-168: [main]; the result is the exit status. *)
Definition main : M Z :=
  verify_with_example >>
  let n1 := size_wrap (Z.shiftl 1 20) in
  let n2 := size_wrap (Z.shiftl 1 24) in
  let n3 := size_wrap (Z.shiftl 1 28) in
  run_test n1 >>
  run_test n2 >>
  run_test n3 >>
  printf rule [] >>
  printf " All tests completed!\n" [] >>
  printf rule_end [] >>
  ret 0.

End Program.

(** The DAXPY contract of spec 4.1 and 4.2, element by element. *)
Definition daxpy_elem (A : float) (xs ys : list float) (i : nat) : float :=
  (A * nth i xs 0 + nth i ys 0)%float.


(** ** Closed forms used in the statements *)

(** The array [z] after [j] iterations of the kernel loop: [j] computed
    elements, then the old content. *)
Definition daxpy_block (A : float) (xs ys zs : list float) (j : nat) : list float :=
  take j (zip_with (fun xi yi => (A * xi + yi)%float) xs ys) ++ drop j zs.

(** An array whose first [j] elements have been overwritten with [g 0],
    ..., [g (j - 1)]. *)
Definition filled (g : nat -> float) (zs : list float) (j : nat) : list float :=
  (g <$> seq 0 j) ++ drop j zs.

(** The heap of the literal example of [verify_with_example], with the four
    arrays in blocks 0 to 3. *)
Definition example_heap : gmap block (list float) :=
  <[3%nat := [0; 0; 0]%float]> (<[2%nat := [0; 0; 0]%float]>
    (<[1%nat := [11; 12; 13]%float]> (<[0%nat := [1; 2; 3]%float]> ∅))).

(** [|r - t| <= EPS], the IEEE comparison. *)
Definition within_eps (r t : float) : bool :=
  (abs (r - t) <=? EPS)%float.

(** [fabs(r - t)] is a NaN. *)
Definition diff_is_nan (r t : float) : bool :=
  is_nan (abs (r - t)).

(** The first index in [i, i + k) at which the difference exceeds [EPS]. *)
Fixpoint find_exceed (k i : nat) (rs ts : list float) : option nat :=
  match k with
  | O => None
  | S k' => if exceeds (nth i rs 0%float) (nth i ts 0%float) then Some i
            else find_exceed k' (S i) rs ts
  end.

(** The line [check_correctness] prints for a mismatch at index [i]. *)
Definition mismatch_line (i : nat) (r t : float) : event :=
  Printf "Mismatch at index %zu: ref=%.15f test=%.15f diff=%.3e\n"
         [ArgZ (Z.of_nat i); ArgF r; ArgF t; ArgF (abs (r - t))].

(** A reference array holding a NaN, and a test array without. *)
Definition nan_heap : gmap block (list float) :=
  <[1%nat := [0; 1]%float]> (<[0%nat := [nan; 1]%float]> ∅).

(** The lines [print_first_ten] prints for an array holding [zs]. *)
Definition first_ten_lines (label : string) (zs : list float) (n : Z) : list event :=
  Printf "%s (first 10):\n" [ArgS label] ::
  ((fun i => Printf "  Z[%2zu] = %.6f\n" [ArgZ (Z.of_nat i); ArgF (nth i zs 0%float)])
     <$> seq 0 (Z.to_nat (Z.min 10 n))).

(** [k] timed kernel invocations in a row, the first starting at the [c]-th
    call of [clock()]: each is one entry [ev] into the kernel between two
    readings of the clock. *)
Fixpoint timed_runs (P : platform) (ev : event) (c k : nat) : list event :=
  match k with
  | O => []
  | S k' => Clock (clock_at P c) :: ev :: Clock (clock_at P (S c))
            :: timed_runs P ev (S (S c)) k'
  end.

(** The durations measured for those [k] invocations. *)
Fixpoint durations (P : platform) (c k : nat) : list float :=
  match k with
  | O => []
  | S k' => duration P (clock_at P c) (clock_at P (S c)) :: durations P (S (S c)) k'
  end.

(** The sum of the durations, added up in order from 0, divided by [RUNS]. *)
Definition mean_of_runs (ds : list float) : float :=
  (fold_left PrimFloat.add ds 0 / double_of_Z RUNS)%float.

#[global] Instance ptr_eq_dec : EqDecision ptr.
Proof. solve_decision. Defined.

(** The heap once [p] has been released. *)
Definition release (p : ptr) (h : gmap block (list float)) : gmap block (list float) :=
  match p with
  | NULL => h
  | Ptr b => delete b h
  end.

(** [H] is [h] together with the buffers [ps]: every non-null pointer of
    [ps] is a block of [N] doubles that was free in [h], no block is
    listed twice, and [H] agrees with [h] on every other block. *)
Definition buffers_of (h H : gmap block (list float)) (N : nat) (ps : list ptr) : Prop :=
  (forall b, Ptr b ∈ ps -> h !! b = None /\ exists l, H !! b = Some l /\ length l = N)
  /\ (forall b, Ptr b ∉ ps -> H !! b = h !! b)
  /\ (forall i j b, ps !! i = Some (Ptr b) -> ps !! j = Some (Ptr b) -> i = j).

(** *** The report of one benchmark size *)

Definition size_header (P : platform) (n : Z) : list event :=
  [Printf rule [];
   Printf " Vector size n = %zu (2^%d)\n" [ArgZ n; ArgZ (log2_int P n)];
   Printf rule_end []].

(** What [run_test] does when an allocation failed: the four [malloc]
    calls, the message, the four [free] calls. *)
Definition fail_report (P : platform) (n : Z) (p1 p2 p3 p4 : ptr) : list event :=
  size_header P n ++
  [Malloc (size_wrap (n * sizeof_double)) p1; Malloc (size_wrap (n * sizeof_double)) p2;
   Malloc (size_wrap (n * sizeof_double)) p3; Malloc (size_wrap (n * sizeof_double)) p4;
   Printf "Memory allocation failed.\n" [];
   Free p1; Free p2; Free p3; Free p4].

(** The inputs [init_data] produces and the two outputs computed from them. *)
Definition init_xs (n : Z) : list float :=
  (fun i => init_x (Z.of_nat i)) <$> seq 0 (Z.to_nat n).

Definition init_ys (n : Z) : list float :=
  (fun i => init_y (Z.of_nat i)) <$> seq 0 (Z.to_nat n).

Definition c_result (n : Z) : list float :=
  zip_with (fun xi yi => (2 * xi + yi)%float) (init_xs n) (init_ys n).

Definition asm_result (P : platform) (n : Z) : list float :=
  asm_out P 2 (init_xs n) (init_ys n) <$> seq 0 (Z.to_nat n).

(** What [check_correctness] prints and returns for arrays holding [rs], [ts]. *)
Definition check_lines (rs ts : list float) (n : Z) : list event :=
  match find_exceed (Z.to_nat n) 0 rs ts with
  | Some j => [mismatch_line j (nth j rs 0%float) (nth j ts 0%float)]
  | None => []
  end.

Definition check_value (rs ts : list float) (n : Z) : Z :=
  match find_exceed (Z.to_nat n) 0 rs ts with
  | Some _ => 0
  | None => 1
  end.

(** What [run_test] does when the four allocations succeeded, the clock
    having been read [c] times before. *)
Definition ok_report (P : platform) (n : Z) (x y zC zA : ptr) (c : nat) : list event :=
  size_header P n ++
  [Malloc (size_wrap (n * sizeof_double)) x; Malloc (size_wrap (n * sizeof_double)) y;
   Malloc (size_wrap (n * sizeof_double)) zC; Malloc (size_wrap (n * sizeof_double)) zA] ++
  timed_runs P (Call KernelC zC x y 2 n) c (Z.to_nat RUNS) ++
  timed_runs P (Call KernelAsm zA x y 2 n) (c + 2 * Z.to_nat RUNS) (Z.to_nat RUNS) ++
  check_lines (c_result n) (asm_result P n) n ++
  [Printf "Correctness check: %s\n"
          [verdict (check_value (c_result n) (asm_result P n) n)
                   "PASSED - x86-64 kernel output is correct"]] ++
  first_ten_lines "C version result" (c_result n) n ++
  first_ten_lines "x86-64 ASM version result" (asm_result P n) n ++
  [Printf "\nAverage kernel execution time (%d runs):\n" [ArgZ RUNS];
   Printf "  C kernel       : %.6f sec\n"
          [ArgF (mean_of_runs (durations P c (Z.to_nat RUNS)))];
   Printf "  x86-64 kernel  : %.6f sec\n"
          [ArgF (mean_of_runs (durations P (c + 2 * Z.to_nat RUNS) (Z.to_nat RUNS)))]] ++
  [Free x; Free y; Free zC; Free zA].

(** Whether one of the four [malloc] calls of [run_test n], the first being
    the [m]-th of the run, fails. *)
Definition alloc_fails (P : platform) (m : nat) (n : Z) : bool :=
  negb (malloc_ok P m (size_wrap (n * sizeof_double))
        && malloc_ok P (S m) (size_wrap (n * sizeof_double))
        && malloc_ok P (S (S m)) (size_wrap (n * sizeof_double))
        && malloc_ok P (S (S (S m))) (size_wrap (n * sizeof_double))).

(** The events [evs] of [run_test n] and the number [c'] of clock readings
    after it, when it starts after [c] clock readings and [m] allocations. *)
Definition bench_outcome (P : platform) (n : Z) (c m : nat)
    (evs : list event) (c' : nat) : Prop :=
  if alloc_fails P m n then
    exists p1 p2 p3 p4, evs = fail_report P n p1 p2 p3 p4 /\ c' = c
  else
    exists x y zC zA,
      evs = ok_report P n (Ptr x) (Ptr y) (Ptr zC) (Ptr zA) c
      /\ c' = (c + 4 * Z.to_nat RUNS)%nat.

(** *** The report of the verification example *)

Definition example_xs : list float := [1; 2; 3]%float.
Definition example_ys : list float := [11; 12; 13]%float.

(** What the assembly kernel stores for the example. *)
Definition example_asm (P : platform) : list float :=
  [asm_out P 2 example_xs example_ys 0; asm_out P 2 example_xs example_ys 1;
   asm_out P 2 example_xs example_ys 2].

Definition verify_report (P : platform) (x y zC zA : ptr) : list event :=
  [Printf rule []; Printf " PROCESS VERIFICATION\n" []; Printf rule_end [];
   Printf "Input:\n" [];
   Printf "  A --> %.1f\n" [ArgF 2];
   Printf "  x --> %.1f, %.1f, %.1f\n" [ArgF 1; ArgF 2; ArgF 3];
   Printf "  y --> %.1f, %.1f, %.1f\n" [ArgF 11; ArgF 12; ArgF 13];
   Printf "\nProcess (DAXPY: Z = A*X + Y):\n" [];
   Printf "  z[%zu] = %.1f * %.1f + %.1f = %.1f\n"
          [ArgZ 0; ArgF 2; ArgF 1; ArgF 11; ArgF 13];
   Printf "  z[%zu] = %.1f * %.1f + %.1f = %.1f\n"
          [ArgZ 1; ArgF 2; ArgF 2; ArgF 12; ArgF 16];
   Printf "  z[%zu] = %.1f * %.1f + %.1f = %.1f\n"
          [ArgZ 2; ArgF 2; ArgF 3; ArgF 13; ArgF 19];
   Call KernelC zC x y 2 3;
   Call KernelAsm zA x y 2 3;
   Printf "\nOutput (C kernel):\n" [];
   Printf "  z --> %.1f, %.1f, %.1f\n" [ArgF 13; ArgF 16; ArgF 19];
   Printf "\nOutput (x86-64 ASM kernel):\n" [];
   Printf "  z --> %.1f, %.1f, %.1f\n"
          [ArgF (asm_out P 2 example_xs example_ys 0);
           ArgF (asm_out P 2 example_xs example_ys 1);
           ArgF (asm_out P 2 example_xs example_ys 2)]] ++
  check_lines [13; 16; 19]%float (example_asm P) 3 ++
  [Printf "\nCorrectness: %s\n"
          [verdict (check_value [13; 16; 19]%float (example_asm P) 3)
                   "PASSED - ASM output matches C output"]].

(** *** The whole run *)

Definition closing : list event :=
  [Printf rule []; Printf " All tests completed!\n" []; Printf rule_end []].

(** The vector sizes of [main], in the order of the calls of [run_test]. *)
Definition bench_sizes : list Z := [2 ^ 20; 2 ^ 24; 2 ^ 28].

(** What an observer of the trace sees of the phases: the banner of the
    verification, the header of a benchmark size, an entry into a kernel. *)
Inductive phase_event :=
  | PVerify
  | PBench (n : Z)
  | PKernel (k : kernel) (n : Z).

Definition observe (e : event) : option phase_event :=
  match e with
  | Printf fmt args =>
      if String.eqb fmt " PROCESS VERIFICATION\n" then Some PVerify
      else if String.eqb fmt " Vector size n = %zu (2^%d)\n" then
        match args with
        | ArgZ n :: _ => Some (PBench n)
        | _ => None
        end
      else None
  | Call k _ _ _ _ n => Some (PKernel k n)
  | _ => None
  end.

Definition phase_log (evs : list event) : list phase_event := omap observe evs.

(** The sizes whose header appears among the events. *)
Definition sizes_started (evs : list event) : list Z :=
  omap (fun p => match p with PBench n => Some n | _ => None end) (phase_log evs).

(** The phase events of one benchmark size: the header, then, if the
    buffers could be allocated, the runs of the two kernels. *)
Definition bench_log (n : Z) (ran : bool) : list phase_event :=
  PBench n ::
  (if ran then replicate (Z.to_nat RUNS) (PKernel KernelC n)
               ++ replicate (Z.to_nat RUNS) (PKernel KernelAsm n)
   else []).

(** Readings of the clock and entries into a kernel. *)
Definition is_timing (e : event) : bool :=
  match e with
  | Clock _ | Call _ _ _ _ _ _ => true
  | _ => false
  end.

Definition no_timing (evs : list event) : Prop :=
  Forall (fun e => is_timing e = false) evs.

(** The platform [P] with an assembly kernel that meets the DAXPY contract. *)
Definition contract_platform (P : platform) : platform :=
  mkPlatform (CLOCKS_PER_SEC P) (clock_at P) (malloc_ok P) (malloc_init P)
             (log2_int P) daxpy_elem.

(** *** Concrete platforms and heaps for the examples *)

(** A platform whose clock advances by 5 ticks per reading, whose
    allocations all succeed and whose assembly kernel meets the contract. *)
Definition steady_platform : platform :=
  mkPlatform 1000 (fun k => Z.of_nat (5 * k)) (fun _ _ => true) (fun _ _ => 0%float)
             Z.log2 daxpy_elem.

(** The same, but the third allocation of the run fails. *)
Definition short_platform : platform :=
  mkPlatform 1000 (fun k => Z.of_nat (5 * k)) (fun k _ => negb (k =? 2)%nat)
             (fun _ _ => 0%float) Z.log2 daxpy_elem.

(** The same as [steady_platform], with an assembly kernel that stores 0. *)
Definition broken_platform : platform :=
  mkPlatform 1000 (fun k => Z.of_nat (5 * k)) (fun _ _ => true) (fun _ _ => 0%float)
             Z.log2 (fun _ _ _ _ => 0%float).

(** Two arrays of seven doubles that differ at the indices 5 and 6. *)
Definition deviation_heap : gmap block (list float) :=
  <[1%nat := [0; 0; 0; 0; 0; 0.001; 4]%float]>
    (<[0%nat := [0; 0; 0; 0; 0; 0; 0]%float]> ∅).

(** *** Allocation events *)

(** The pointers returned by the [malloc] calls among the events, and the
    pointers handed to [free], each in order. *)
Definition allocated (evs : list event) : list ptr :=
  omap (fun e => match e with Malloc _ p => Some p | _ => None end) evs.

Definition freed (evs : list event) : list ptr :=
  omap (fun e => match e with Free p => Some p | _ => None end) evs.

(** Two arrays of two doubles that differ at index 1. *)
Definition short_heap : gmap block (list float) :=
  <[1%nat := [0; 3]%float]> (<[0%nat := [nan; 1]%float]> ∅).

(** [malloc] and [free] events. *)
Definition is_alloc (e : event) : bool :=
  match e with
  | Malloc _ _ | Free _ => true
  | _ => false
  end.

(** The number of clock readings of [run_test n] when its first [malloc]
    is the [m]-th of the run: two for each of the [2 * RUNS] timed runs, or
    none when an allocation fails. *)
Definition clock_reads (P : platform) (m : nat) (n : Z) : nat :=
  if alloc_fails P m n then 0%nat else (4 * Z.to_nat RUNS)%nat.

(** *** The range of the generated data *)

(** An input pair [x], [y] and the reference result [2 * x + y] computed
    from it lie in [0, 1), [0, 2) and [0, 4). *)
Definition in_range (x y : float) : bool :=
  ((0 <=? x) && (x <? 1) && (0 <=? y) && (y <? 2)
   && (0 <=? 2 * x + y) && (2 * x + y <? 4))%float.

Definition all_in_range (xs ys : list float) : bool :=
  forallb (fun x => forallb (in_range x) ys) xs.

(** The residue [r] as a [double], times the factor [f]. *)
Definition scaled (f : float) (r : nat) : float :=
  (double_of_Z (Z.of_nat r) * f)%float.

(** A platform whose clock does not advance. *)
Definition stalled_platform : platform :=
  mkPlatform 1000 (fun _ => 7) (fun _ _ => true) (fun _ _ => 0%float)
             Z.log2 daxpy_elem.

(** * Proofs *)

Lemma bind_run {A B} (m : M A) (k : A -> M B) s a s' :
  m s = Some (a, s') -> bind m k s = k a s'.
Proof. intros H. unfold bind. now rewrite H. Qed.

Lemma for_loop_inv (body : Z -> M unit) :
  forall k (I : nat -> state -> Prop) i0 s,
  I 0%nat s ->
  (forall j s1, (j < k)%nat -> I j s1 ->
     exists s2, body (i0 + Z.of_nat j) s1 = Some (tt, s2) /\ I (S j) s2) ->
  exists s', for_loop k i0 body s = Some (tt, s') /\ I k s'.
Proof.
  induction k as [|k IH]; intros I i0 s H0 Hstep.
  - exists s. split; [reflexivity | assumption].
  - destruct (Hstep 0%nat s) as (s2 & Hb & H1); [lia | assumption |].
    rewrite Z.add_0_r in Hb.
    destruct (IH (fun j => I (S j)) (i0 + 1) s2 H1) as (s' & Hl & Hk).
    + intros j s1 Hj Hs1. destruct (Hstep (S j) s1) as (s3 & Hb3 & H3); [lia | assumption |].
      exists s3. split; [| assumption].
      replace (i0 + 1 + Z.of_nat j) with (i0 + Z.of_nat (S j)) by lia. assumption.
    + exists s'. split; [| assumption].
      cbn [for_loop]. rewrite (bind_run _ _ _ _ _ Hb). assumption.
Qed.

Lemma heap_insert_comm (h : gmap block (list float)) i j x y :
  i <> j -> <[i := x]> (<[j := y]> h) = <[j := y]> (<[i := x]> h).
Proof. apply insert_insert_ne. Qed.

Lemma load_run h tr c m b l i v :
  h !! b = Some l -> l !! Z.to_nat i = Some v ->
  load (Ptr b) i (mkState h tr c m) = Some (v, mkState h tr c m).
Proof. intros Hb Hi. unfold load. cbn. now rewrite Hb, Hi. Qed.

Lemma store_run h tr c m b l i v :
  h !! b = Some l -> (Z.to_nat i < length l)%nat ->
  store (Ptr b) i v (mkState h tr c m)
  = Some (tt, mkState (<[b := <[Z.to_nat i := v]> l]> h) tr c m).
Proof.
  intros Hb Hi. unfold store. cbn. rewrite Hb.
  destruct (decide (Z.to_nat i < length l)%nat); [reflexivity | contradiction].
Qed.

Section DaxpyBlock.

Context (A : float) (xs ys zs : list float).

Lemma daxpy_block_0 : daxpy_block A xs ys zs 0 = zs.
Proof. reflexivity. Qed.

Lemma daxpy_block_length j :
  (j <= length xs)%nat -> (j <= length ys)%nat -> (j <= length zs)%nat ->
  length (daxpy_block A xs ys zs j) = length zs.
Proof.
  intros. unfold daxpy_block.
  rewrite length_app, length_take, length_zip_with, length_drop. lia.
Qed.

Lemma daxpy_block_lookup_lt j i xi yi :
  (i < j)%nat -> xs !! i = Some xi -> ys !! i = Some yi ->
  daxpy_block A xs ys zs j !! i = Some (A * xi + yi)%float.
Proof.
  intros Hi Hx Hy. unfold daxpy_block.
  rewrite lookup_app_l.
  - rewrite lookup_take_lt by assumption.
    rewrite lookup_zip_with, Hx, Hy. reflexivity.
  - rewrite length_take, length_zip_with.
    apply lookup_lt_Some in Hx. apply lookup_lt_Some in Hy. lia.
Qed.

Lemma daxpy_block_lookup_ge j i :
  (j <= i)%nat -> (j <= length xs)%nat -> (j <= length ys)%nat ->
  daxpy_block A xs ys zs j !! i = zs !! i.
Proof.
  intros Hi Hx Hy. unfold daxpy_block.
  assert (Hl : length (take j (zip_with (fun xi yi => (A * xi + yi)%float) xs ys)) = j)
    by (rewrite length_take, length_zip_with; lia).
  rewrite lookup_app_r by lia. rewrite Hl, lookup_drop. f_equal. lia.
Qed.

Lemma daxpy_block_step j xj yj :
  xs !! j = Some xj -> ys !! j = Some yj -> (j < length zs)%nat ->
  <[j := (A * xj + yj)%float]> (daxpy_block A xs ys zs j)
  = daxpy_block A xs ys zs (S j).
Proof.
  intros Hx Hy Hz. unfold daxpy_block.
  assert (Hv : zip_with (fun xi yi => (A * xi + yi)%float) xs ys !! j
               = Some (A * xj + yj)%float)
    by (rewrite lookup_zip_with, Hx, Hy; reflexivity).
  assert (Hl : length (take j (zip_with (fun xi yi => (A * xi + yi)%float) xs ys)) = j).
  { rewrite length_take. apply lookup_lt_Some in Hv. lia. }
  rewrite insert_app_r_alt by lia. rewrite Hl, Nat.sub_diag.
  rewrite (take_S_r _ _ _ Hv), <- app_assoc.
  destruct (lookup_lt_is_Some_2 zs j Hz) as [zj Hzj].
  rewrite (drop_S _ _ _ Hzj). reflexivity.
Qed.

End DaxpyBlock.

Lemma daxpy_c_run h tr c m bz bx by_ zs xs ys A n :
  h !! bz = Some zs -> h !! bx = Some xs -> h !! by_ = Some ys ->
  (Z.to_nat n <= length zs)%nat -> (Z.to_nat n <= length xs)%nat ->
  (Z.to_nat n <= length ys)%nat ->
  daxpy_c (Ptr bz) (Ptr bx) (Ptr by_) A n (mkState h tr c m)
  = Some (tt, mkState (<[bz := daxpy_block A xs ys zs (Z.to_nat n)]> h)
                      (tr ++ [Call KernelC (Ptr bz) (Ptr bx) (Ptr by_) A n]) c m).
Proof.
  intros Hz Hx Hy Lz Lx Ly. unfold daxpy_c.
  rewrite (bind_run _ _ _ tt (mkState h (tr ++ [Call KernelC (Ptr bz) (Ptr bx) (Ptr by_) A n]) c m))
    by reflexivity.
  set (tr' := tr ++ _).
  destruct (for_loop_inv
    (fun i => let* xi := load (Ptr bx) i in
              let* yi := load (Ptr by_) i in
              store (Ptr bz) i (A * xi + yi)%float)
    (Z.to_nat n)
    (fun j s => s = mkState (<[bz := daxpy_block A xs ys zs j]> h) tr' c m)
    0 (mkState h tr' c m)) as (s' & Hrun & ->).
  - rewrite daxpy_block_0, insert_id by assumption. reflexivity.
  - intros j s1 Hj ->. rewrite Z.add_0_l.
    destruct (lookup_lt_is_Some_2 xs j ltac:(lia)) as [xj Hxj].
    destruct (lookup_lt_is_Some_2 ys j ltac:(lia)) as [yj Hyj].
    eexists. split; [| reflexivity].
    assert (Hin : forall b l, h !! b = Some l -> (b = bz -> l = zs) ->
              exists l', (<[bz := daxpy_block A xs ys zs j]> h) !! b = Some l'
                         /\ l' !! j = l !! j).
    { intros b l Hb Heq. destruct (decide (b = bz)) as [->|Hne].
      - rewrite lookup_insert_eq. eexists. split; [reflexivity |].
        rewrite (Heq eq_refl). apply daxpy_block_lookup_ge; lia.
      - rewrite lookup_insert_ne by congruence. eauto. }
    destruct (Hin bx xs Hx) as (lx & Hlx & Hlxj); [intros ->; congruence |].
    destruct (Hin by_ ys Hy) as (ly & Hly & Hlyj); [intros ->; congruence |].
    rewrite (bind_run _ _ _ xj (mkState (<[bz := daxpy_block A xs ys zs j]> h) tr' c m)).
    2:{ apply load_run with lx; [assumption |]. rewrite Nat2Z.id. congruence. }
    rewrite (bind_run _ _ _ yj (mkState (<[bz := daxpy_block A xs ys zs j]> h) tr' c m)).
    2:{ apply load_run with ly; [assumption |]. rewrite Nat2Z.id. congruence. }
    rewrite (store_run _ _ _ _ bz (daxpy_block A xs ys zs j)).
    + rewrite Nat2Z.id, insert_insert_eq, (daxpy_block_step A xs ys zs j xj yj) by (assumption || lia).
      reflexivity.
    + apply lookup_insert_eq.
    + rewrite Nat2Z.id, daxpy_block_length by lia. lia.
  - assumption.
Qed.

(** C1. For every length [n], scalar [A] and arrays [x], [y] of [n]
    elements, [daxpy_c] stores [A * x[i] + y[i]] in [z[i]] for every
    [i < n] and writes nothing else: the rest of [z] and every other
    block are as before, and the only event is the entry into the kernel. *)
Theorem daxpy_c_computes_axpy h tr c m bz bx by_ zs xs ys A n :
  h !! bz = Some zs -> h !! bx = Some xs -> h !! by_ = Some ys ->
  length xs = Z.to_nat n -> length ys = Z.to_nat n ->
  (Z.to_nat n <= length zs)%nat ->
  exists zs',
    daxpy_c (Ptr bz) (Ptr bx) (Ptr by_) A n (mkState h tr c m)
    = Some (tt, mkState (<[bz := zs']> h)
                        (tr ++ [Call KernelC (Ptr bz) (Ptr bx) (Ptr by_) A n]) c m)
    /\ length zs' = length zs
    /\ (forall (i : nat) xi yi, Z.of_nat i < n ->
          xs !! i = Some xi -> ys !! i = Some yi ->
          zs' !! i = Some (A * xi + yi)%float)
    /\ (forall i : nat, n <= Z.of_nat i -> zs' !! i = zs !! i).
Proof.
  intros Hz Hx Hy Lx Ly Lz.
  exists (daxpy_block A xs ys zs (Z.to_nat n)). repeat split.
  - apply daxpy_c_run; (assumption || lia).
  - apply daxpy_block_length; lia.
  - intros i xi yi Hi Hxi Hyi. apply daxpy_block_lookup_lt; (assumption || lia).
  - intros i Hi. apply daxpy_block_lookup_ge; lia.
Qed.

Lemma daxpy_c_computes_axpy_witness :
  exists zs',
    daxpy_c (Ptr 2%nat) (Ptr 0%nat) (Ptr 1%nat) 2 3 (mkState example_heap [] 0 0)
    = Some (tt, mkState (<[2%nat := zs']> example_heap)
                        ([] ++ [Call KernelC (Ptr 2%nat) (Ptr 0%nat) (Ptr 1%nat) 2 3]) 0 0)
    /\ length zs' = length [0; 0; 0]%float
    /\ (forall (i : nat) xi yi, Z.of_nat i < 3 ->
          [1; 2; 3]%float !! i = Some xi -> [11; 12; 13]%float !! i = Some yi ->
          zs' !! i = Some (2 * xi + yi)%float)
    /\ (forall i : nat, 3 <= Z.of_nat i -> zs' !! i = [0; 0; 0]%float !! i).
Proof.
  apply (daxpy_c_computes_axpy example_heap [] 0%nat 0%nat 2%nat 0%nat 1%nat
           [0; 0; 0]%float [1; 2; 3]%float [11; 12; 13]%float 2%float 3);
    try reflexivity; simpl; lia.
Defined.

Section Filled.

Context (g : nat -> float) (zs : list float).

Lemma filled_0 : filled g zs 0 = zs.
Proof. reflexivity. Qed.

Lemma filled_length j : (j <= length zs)%nat -> length (filled g zs j) = length zs.
Proof.
  intros. unfold filled.
  rewrite length_app, length_fmap, length_seq, length_drop. lia.
Qed.

Lemma filled_lookup_lt j i : (i < j)%nat -> filled g zs j !! i = Some (g i).
Proof.
  intros Hi. unfold filled.
  rewrite lookup_app_l by (rewrite length_fmap, length_seq; lia).
  rewrite list_lookup_fmap.
  assert (H : seq 0 j !! i = Some i) by (apply lookup_seq; lia).
  rewrite H. reflexivity.
Qed.

Lemma filled_lookup_ge j i : (j <= i)%nat -> filled g zs j !! i = zs !! i.
Proof.
  intros Hi. unfold filled.
  rewrite lookup_app_r by (rewrite length_fmap, length_seq; lia).
  rewrite length_fmap, length_seq, lookup_drop. f_equal. lia.
Qed.

Lemma filled_step j :
  (j < length zs)%nat -> <[j := g j]> (filled g zs j) = filled g zs (S j).
Proof.
  intros Hz. unfold filled.
  rewrite insert_app_r_alt by (rewrite length_fmap, length_seq; lia).
  rewrite length_fmap, length_seq, Nat.sub_diag.
  rewrite seq_S, fmap_app, <- app_assoc.
  destruct (lookup_lt_is_Some_2 zs j Hz) as [zj Hzj].
  rewrite (drop_S _ _ _ Hzj). reflexivity.
Qed.

Lemma filled_all j : length zs = j -> filled g zs j = g <$> seq 0 j.
Proof.
  intros <-. unfold filled. rewrite drop_ge by lia. apply app_nil_r.
Qed.

End Filled.

Lemma fill_loop_run h tr c m bz zs (g : nat -> float) k :
  h !! bz = Some zs -> (k <= length zs)%nat ->
  for_loop k 0 (fun i => store (Ptr bz) i (g (Z.to_nat i))) (mkState h tr c m)
  = Some (tt, mkState (<[bz := filled g zs k]> h) tr c m).
Proof.
  intros Hz Lz.
  destruct (for_loop_inv
    (fun i => store (Ptr bz) i (g (Z.to_nat i))) k
    (fun j s => s = mkState (<[bz := filled g zs j]> h) tr c m)
    0 (mkState h tr c m)) as (s' & Hrun & ->).
  - rewrite filled_0, insert_id by assumption. reflexivity.
  - intros j s1 Hj ->. rewrite Z.add_0_l. eexists. split; [| reflexivity].
    rewrite (store_run _ _ _ _ bz (filled g zs j)).
    + rewrite Nat2Z.id, insert_insert_eq, filled_step by lia. reflexivity.
    + apply lookup_insert_eq.
    + rewrite Nat2Z.id, filled_length by lia. lia.
  - assumption.
Qed.

Lemma read_array_run h tr c m b l n :
  h !! b = Some l -> (Z.to_nat n <= length l)%nat ->
  read_array (Ptr b) n (mkState h tr c m)
  = Some (take (Z.to_nat n) l, mkState h tr c m).
Proof.
  intros Hb Hl. unfold read_array. cbn. rewrite Hb.
  destruct (decide (Z.to_nat n <= length l)%nat); [reflexivity | contradiction].
Qed.

Lemma daxpy_asm_run P h tr c m bz bx by_ zs xs ys A n :
  h !! bz = Some zs -> h !! bx = Some xs -> h !! by_ = Some ys ->
  (Z.to_nat n <= length zs)%nat -> (Z.to_nat n <= length xs)%nat ->
  (Z.to_nat n <= length ys)%nat ->
  daxpy_asm P (Ptr bz) (Ptr bx) (Ptr by_) A n (mkState h tr c m)
  = Some (tt, mkState
      (<[bz := filled (asm_out P A (take (Z.to_nat n) xs) (take (Z.to_nat n) ys))
                      zs (Z.to_nat n)]> h)
      (tr ++ [Call KernelAsm (Ptr bz) (Ptr bx) (Ptr by_) A n]) c m).
Proof.
  intros Hz Hx Hy Lz Lx Ly. unfold daxpy_asm.
  rewrite (bind_run _ _ _ tt (mkState h (tr ++ [Call KernelAsm (Ptr bz) (Ptr bx) (Ptr by_) A n]) c m))
    by reflexivity.
  rewrite (bind_run _ _ _ _ _ (read_array_run _ _ _ _ bx xs n Hx Lx)).
  rewrite (bind_run _ _ _ _ _ (read_array_run _ _ _ _ by_ ys n Hy Ly)).
  apply fill_loop_run; assumption.
Qed.

Lemma init_data_run h tr c m bx by_ xs ys n :
  bx <> by_ -> h !! bx = Some xs -> h !! by_ = Some ys ->
  (Z.to_nat n <= length xs)%nat -> (Z.to_nat n <= length ys)%nat ->
  init_data (Ptr bx) (Ptr by_) n (mkState h tr c m)
  = Some (tt, mkState
      (<[by_ := filled (fun i => init_y (Z.of_nat i)) ys (Z.to_nat n)]>
         (<[bx := filled (fun i => init_x (Z.of_nat i)) xs (Z.to_nat n)]> h))
      tr c m).
Proof.
  intros Hne Hx Hy Lx Ly. unfold init_data.
  set (gx := fun i => init_x (Z.of_nat i)). set (gy := fun i => init_y (Z.of_nat i)).
  destruct (for_loop_inv
    (fun i => store (Ptr bx) i (init_x i) >> store (Ptr by_) i (init_y i))
    (Z.to_nat n)
    (fun j s => s = mkState (<[by_ := filled gy ys j]> (<[bx := filled gx xs j]> h)) tr c m)
    0 (mkState h tr c m)) as (s' & Hrun & ->).
  - rewrite !filled_0, !insert_id; [reflexivity | assumption |].
    rewrite insert_id; assumption.
  - intros j s1 Hj ->. rewrite Z.add_0_l. eexists. split; [| reflexivity].
    erewrite bind_run.
    2:{ apply store_run with (l := filled gx xs j).
        - rewrite lookup_insert_ne, lookup_insert_eq by congruence. reflexivity.
        - rewrite Nat2Z.id, filled_length by lia. lia. }
    erewrite store_run.
    2:{ rewrite lookup_insert_ne, lookup_insert_eq by congruence. reflexivity. }
    2:{ rewrite Nat2Z.id, filled_length by lia. lia. }
    rewrite Nat2Z.id.
    rewrite (heap_insert_comm _ bx by_) by congruence.
    rewrite !insert_insert_eq.
    change (init_x (Z.of_nat j)) with (gx j). change (init_y (Z.of_nat j)) with (gy j).
    rewrite !filled_step by lia. reflexivity.
  - assumption.
Qed.

(** C3. [init_data] stores [(i mod 1000) * 0.001] in [x[i]] and
    [((i * 7) mod 1000) * 0.002] in [y[i]] for every [i < n], whatever the
    arrays held before; two calls with the same [n], on any two pairs of
    arrays of [n] doubles, leave identical [x] and identical [y]. *)
Theorem init_data_deterministic h1 tr1 c1 m1 h2 tr2 c2 m2
    bx1 by1 bx2 by2 xs1 ys1 xs2 ys2 n :
  bx1 <> by1 -> bx2 <> by2 ->
  h1 !! bx1 = Some xs1 -> h1 !! by1 = Some ys1 ->
  h2 !! bx2 = Some xs2 -> h2 !! by2 = Some ys2 ->
  length xs1 = Z.to_nat n -> length ys1 = Z.to_nat n ->
  length xs2 = Z.to_nat n -> length ys2 = Z.to_nat n ->
  n * sizeof_double <= 2 ^ 64 ->
  exists X Y,
    init_data (Ptr bx1) (Ptr by1) n (mkState h1 tr1 c1 m1)
    = Some (tt, mkState (<[by1 := Y]> (<[bx1 := X]> h1)) tr1 c1 m1)
    /\ init_data (Ptr bx2) (Ptr by2) n (mkState h2 tr2 c2 m2)
      = Some (tt, mkState (<[by2 := Y]> (<[bx2 := X]> h2)) tr2 c2 m2)
    /\ length X = Z.to_nat n /\ length Y = Z.to_nat n
    /\ forall i : nat, Z.of_nat i < n ->
         X !! i = Some (double_of_Z (Z.of_nat i mod 1000) * 0.001)%float
         /\ Y !! i = Some (double_of_Z ((Z.of_nat i * 7) mod 1000) * 0.002)%float.
Proof.
  intros Hne1 Hne2 Hx1 Hy1 Hx2 Hy2 Lx1 Ly1 Lx2 Ly2 Hn.
  exists ((fun i => init_x (Z.of_nat i)) <$> seq 0 (Z.to_nat n)),
         ((fun i => init_y (Z.of_nat i)) <$> seq 0 (Z.to_nat n)).
  split; [| split; [| split; [| split]]].
  - rewrite <- (filled_all (fun i => init_x (Z.of_nat i)) xs1) by assumption.
    rewrite <- (filled_all (fun i => init_y (Z.of_nat i)) ys1) by assumption.
    apply init_data_run; (assumption || lia).
  - rewrite <- (filled_all (fun i => init_x (Z.of_nat i)) xs2) by assumption.
    rewrite <- (filled_all (fun i => init_y (Z.of_nat i)) ys2) by assumption.
    apply init_data_run; (assumption || lia).
  - now rewrite length_fmap, length_seq.
  - now rewrite length_fmap, length_seq.
  - intros i Hi.
    assert (Hs : seq 0 (Z.to_nat n) !! i = Some i) by (apply lookup_seq; lia).
    rewrite !list_lookup_fmap, Hs. cbn [fmap option_fmap option_map].
    split; [reflexivity |].
    unfold init_y, size_wrap. unfold sizeof_double in Hn.
    rewrite (Z.mod_small (Z.of_nat i * 7) (2 ^ 64)) by lia. reflexivity.
Qed.

Lemma init_data_deterministic_witness :
  exists X Y,
    init_data (Ptr 0%nat) (Ptr 1%nat) 3 (mkState example_heap [] 0 0)
    = Some (tt, mkState (<[1%nat := Y]> (<[0%nat := X]> example_heap)) [] 0%nat 0%nat)
    /\ init_data (Ptr 3%nat) (Ptr 2%nat) 3 (mkState example_heap [] 5 7)
      = Some (tt, mkState (<[2%nat := Y]> (<[3%nat := X]> example_heap)) [] 5%nat 7%nat)
    /\ length X = Z.to_nat 3 /\ length Y = Z.to_nat 3
    /\ forall i : nat, Z.of_nat i < 3 ->
         X !! i = Some (double_of_Z (Z.of_nat i mod 1000) * 0.001)%float
         /\ Y !! i = Some (double_of_Z ((Z.of_nat i * 7) mod 1000) * 0.002)%float.
Proof.
  apply (init_data_deterministic example_heap [] 0%nat 0%nat example_heap [] 5%nat 7%nat
           0%nat 1%nat 3%nat 2%nat
           [1; 2; 3]%float [11; 12; 13]%float [0; 0; 0]%float [0; 0; 0]%float 3);
    try reflexivity; try (simpl; lia); discriminate.
Defined.

(** ** IEEE facts about the comparison with [EPS] *)

Lemma is_nan_SF x : is_nan x = true -> Prim2SF x = S754_nan.
Proof.
  unfold is_nan. rewrite FloatAxioms.eqb_spec. unfold SFeqb.
  destruct (Prim2SF x) as [s | s | | s m e]; cbn; try discriminate; try reflexivity.
  - destruct s; discriminate.
  - destruct s; rewrite Z.compare_refl, Pos.compare_cont_refl; cbn; discriminate.
Qed.

Lemma exceeds_nan r t :
  is_nan r = true \/ is_nan t = true ->
  diff_is_nan r t = true /\ exceeds r t = false.
Proof.
  intros H.
  assert (Hd : Prim2SF (abs (r - t)) = S754_nan).
  { rewrite FloatAxioms.abs_spec, FloatAxioms.sub_spec.
    destruct H as [H | H]; rewrite (is_nan_SF _ H).
    - reflexivity.
    - destruct (Prim2SF r); reflexivity. }
  split.
  - unfold diff_is_nan, is_nan. rewrite FloatAxioms.eqb_spec, Hd. reflexivity.
  - unfold exceeds. rewrite FloatAxioms.ltb_spec, Hd.
    destruct (Prim2SF EPS); reflexivity.
Qed.


Lemma pos_compare_cont_antisym p q :
  Pos.compare_cont Eq q p = CompOpp (Pos.compare_cont Eq p q).
Proof. apply (Pos.compare_antisym p q). Qed.

(** Not exceeding [EPS] is being at most [EPS] or being a NaN. *)
Lemma exceeds_false_iff r t :
  exceeds r t = false <-> within_eps r t = true \/ diff_is_nan r t = true.
Proof.
  unfold exceeds, within_eps, diff_is_nan, is_nan.
  rewrite FloatAxioms.ltb_spec, FloatAxioms.leb_spec, FloatAxioms.eqb_spec.
  assert (HE : Prim2SF EPS = S754_finite false 4835703278458517%positive (-82))
    by (vm_compute; reflexivity).
  rewrite HE. unfold SFltb, SFleb, SFeqb.
  destruct (Prim2SF (abs (r - t))) as [s | s | | s m e]; unfold SFcompare.
  - destruct s; intuition congruence.
  - destruct s; cbn; intuition congruence.
  - intuition congruence.
  - destruct s.
    + intuition congruence.
    + rewrite Z.compare_refl, Pos.compare_cont_refl.
      rewrite (Z.compare_antisym (-82) e).
      destruct (-82 ?= e) eqn:He; cbn [CompOpp negb]; try (intuition congruence).
      rewrite (pos_compare_cont_antisym 4835703278458517 m).
      destruct (Pos.compare_cont Eq 4835703278458517 m); cbn [CompOpp];
        intuition congruence.
Qed.

(** ** [check_correctness] *)

Lemma find_exceed_None k : forall i rs ts,
  find_exceed k i rs ts = None <->
  forall j, (i <= j < i + k)%nat -> exceeds (nth j rs 0%float) (nth j ts 0%float) = false.
Proof.
  induction k as [|k IH]; intros i rs ts; cbn [find_exceed].
  - split; [intros _ j Hj; lia | reflexivity].
  - destruct (exceeds (nth i rs 0%float) (nth i ts 0%float)) eqn:E.
    + split; [discriminate |]. intros H. rewrite H in E by lia. discriminate.
    + rewrite IH. split; intros H j Hj.
      * destruct (decide (j = i)) as [->|]; [assumption | apply H; lia].
      * apply H; lia.
Qed.

Lemma find_exceed_Some k : forall i rs ts j,
  find_exceed k i rs ts = Some j ->
  (i <= j < i + k)%nat
  /\ exceeds (nth j rs 0%float) (nth j ts 0%float) = true
  /\ forall j', (i <= j' < j)%nat ->
       exceeds (nth j' rs 0%float) (nth j' ts 0%float) = false.
Proof.
  induction k as [|k IH]; intros i rs ts j; cbn [find_exceed]; [discriminate |].
  destruct (exceeds (nth i rs 0%float) (nth i ts 0%float)) eqn:E.
  - intros [= <-]. repeat split; [lia | lia | assumption | intros; lia].
  - intros H. destruct (IH _ _ _ _ H) as (Hj & Hex & Hmin).
    repeat split; [lia | lia | assumption |].
    intros j' Hj'. destruct (decide (j' = i)) as [->|]; [assumption | apply Hmin; lia].
Qed.

Lemma check_loop_run h tr c m br bt rs ts :
  h !! br = Some rs -> h !! bt = Some ts ->
  forall k i, (i + k <= length rs)%nat -> (i + k <= length ts)%nat ->
  check_loop k (Z.of_nat i) (Ptr br) (Ptr bt) (mkState h tr c m)
  = Some (match find_exceed k i rs ts with
          | None => (1, mkState h tr c m)
          | Some j => (0, mkState h (tr ++ [mismatch_line j (nth j rs 0%float)
                                                             (nth j ts 0%float)]) c m)
          end).
Proof.
  intros Hr Ht. induction k as [|k IH]; intros i Lr Lt; [reflexivity |].
  cbn [check_loop find_exceed].
  destruct (lookup_lt_is_Some_2 rs i ltac:(lia)) as [r Hri].
  destruct (lookup_lt_is_Some_2 ts i ltac:(lia)) as [t Hti].
  rewrite (bind_run _ _ _ r (mkState h tr c m))
    by (apply load_run with rs; [assumption | now rewrite Nat2Z.id]).
  rewrite (bind_run _ _ _ t (mkState h tr c m))
    by (apply load_run with ts; [assumption | now rewrite Nat2Z.id]).
  rewrite (nth_lookup_Some _ _ 0%float _ Hri), (nth_lookup_Some _ _ 0%float _ Hti).
  change (EPS <? abs (r - t))%float with (exceeds r t).
  destruct (exceeds r t).
  - rewrite (bind_run _ _ _ r (mkState h tr c m))
      by (apply load_run with rs; [assumption | now rewrite Nat2Z.id]).
    rewrite (bind_run _ _ _ t (mkState h tr c m))
      by (apply load_run with ts; [assumption | now rewrite Nat2Z.id]).
    rewrite (nth_lookup_Some _ _ 0%float _ Hri), (nth_lookup_Some _ _ 0%float _ Hti).
    reflexivity.
  - replace (Z.of_nat i + 1) with (Z.of_nat (S i)) by lia. apply IH; lia.
Qed.

Lemma check_correctness_run h tr c m br bt rs ts n :
  h !! br = Some rs -> h !! bt = Some ts ->
  (Z.to_nat n <= length rs)%nat -> (Z.to_nat n <= length ts)%nat ->
  check_correctness (Ptr br) (Ptr bt) n (mkState h tr c m)
  = Some (match find_exceed (Z.to_nat n) 0 rs ts with
          | None => (1, mkState h tr c m)
          | Some j => (0, mkState h (tr ++ [mismatch_line j (nth j rs 0%float)
                                                             (nth j ts 0%float)]) c m)
          end).
Proof.
  intros Hr Ht Lr Lt. unfold check_correctness.
  apply (check_loop_run h tr c m br bt rs ts Hr Ht (Z.to_nat n) 0%nat); lia.
Qed.

(** C2, as stated, fails when a difference is a NaN: on the arrays of
    [nan_heap] (reference [nan; 1], test [0; 1]) [check_correctness] returns
    1 although the difference at index 0 is not at most [EPS]. *)
Lemma check_correctness_at_most_eps_counterexample :
  ~ (fst <$> check_correctness (Ptr 0%nat) (Ptr 1%nat) 2 (mkState nan_heap [] 0 0)
       = Some 1
     <-> forall (i : nat) r t,
           [nan; 1]%float !! i = Some r -> [0; 1]%float !! i = Some t ->
           within_eps r t = true).
Proof.
  intros [H _].
  assert (Hrun : fst <$> check_correctness (Ptr 0%nat) (Ptr 1%nat) 2
                           (mkState nan_heap [] 0 0) = Some 1)
    by (vm_compute; reflexivity).
  specialize (H Hrun 0%nat nan 0%float eq_refl eq_refl).
  vm_compute in H. discriminate.
Qed.

(** C2, amended. On arrays of [n] doubles [check_correctness] returns 1
    exactly when no difference [|ref[i] - test[i]|] exceeds [EPS], that is
    when every difference is at most [EPS] or is a NaN; it then prints
    nothing.  Otherwise it returns 0 and prints one line, for the least
    index whose difference exceeds [EPS], with the two values and the
    difference. *)
Theorem check_correctness_first_mismatch h tr c m br bt rs ts n :
  h !! br = Some rs -> h !! bt = Some ts ->
  length rs = Z.to_nat n -> length ts = Z.to_nat n ->
  exists ok s',
    check_correctness (Ptr br) (Ptr bt) n (mkState h tr c m) = Some (ok, s')
    /\ (ok = 1 <->
        forall (i : nat) r t, rs !! i = Some r -> ts !! i = Some t ->
          within_eps r t = true \/ diff_is_nan r t = true)
    /\ (ok = 1 -> s' = mkState h tr c m)
    /\ (ok <> 1 ->
        ok = 0 /\
        exists (i : nat) r t,
          rs !! i = Some r /\ ts !! i = Some t /\ exceeds r t = true
          /\ (forall (j : nat) r' t', (j < i)%nat ->
                rs !! j = Some r' -> ts !! j = Some t' -> exceeds r' t' = false)
          /\ s' = mkState h (tr ++ [mismatch_line i r t]) c m).
Proof.
  intros Hr Ht Lr Lt.
  pose proof (check_correctness_run h tr c m br bt rs ts n Hr Ht
                ltac:(lia) ltac:(lia)) as Hrun.
  destruct (find_exceed (Z.to_nat n) 0 rs ts) as [j|] eqn:E.
  - destruct (find_exceed_Some _ _ _ _ _ E) as (Hj & Hex & Hmin).
    destruct (lookup_lt_is_Some_2 rs j ltac:(lia)) as [r Hrj].
    destruct (lookup_lt_is_Some_2 ts j ltac:(lia)) as [t Htj].
    rewrite (nth_lookup_Some _ _ 0%float _ Hrj), (nth_lookup_Some _ _ 0%float _ Htj) in *.
    eexists _, _. split; [exact Hrun |]. split; [| split].
    + split; [discriminate |]. intros H.
      specialize (H j r t Hrj Htj). apply exceeds_false_iff in H. congruence.
    + discriminate.
    + intros _. split; [reflexivity |]. exists j, r, t.
      repeat split; try assumption.
      intros j' r' t' Hj' Hr' Ht'.
      rewrite <- (nth_lookup_Some _ _ 0%float _ Hr'), <- (nth_lookup_Some _ _ 0%float _ Ht').
      apply Hmin. lia.
  - eexists _, _. split; [exact Hrun |]. split; [| split].
    + split; [| reflexivity]. intros _ i r t Hri Hti.
      apply exceeds_false_iff.
      rewrite <- (nth_lookup_Some _ _ 0%float _ Hri), <- (nth_lookup_Some _ _ 0%float _ Hti).
      apply (proj1 (find_exceed_None _ _ _ _) E).
      apply lookup_lt_Some in Hri. lia.
    + reflexivity.
    + congruence.
Qed.

Lemma check_correctness_first_mismatch_witness :
  exists ok s',
    check_correctness (Ptr 2%nat) (Ptr 0%nat) 3 (mkState example_heap [] 0 0)
    = Some (ok, s')
    /\ (ok = 1 <->
        forall (i : nat) r t,
          [0; 0; 0]%float !! i = Some r -> [1; 2; 3]%float !! i = Some t ->
          within_eps r t = true \/ diff_is_nan r t = true)
    /\ (ok = 1 -> s' = mkState example_heap [] 0 0)
    /\ (ok <> 1 ->
        ok = 0 /\
        exists (i : nat) r t,
          [0; 0; 0]%float !! i = Some r /\ [1; 2; 3]%float !! i = Some t
          /\ exceeds r t = true
          /\ (forall (j : nat) r' t', (j < i)%nat ->
                [0; 0; 0]%float !! j = Some r' -> [1; 2; 3]%float !! j = Some t' ->
                exceeds r' t' = false)
          /\ s' = mkState example_heap ([] ++ [mismatch_line i r t]) 0 0).
Proof.
  apply (check_correctness_first_mismatch example_heap [] 0%nat 0%nat 2%nat 0%nat
           [0; 0; 0]%float [1; 2; 3]%float 3); reflexivity.
Defined.

(** C9. An index at which [ref[i]] or [test[i]] is a NaN has a NaN
    difference and is not a mismatch ([diff > EPS] is false); a pair of
    arrays that deviate only at such indices makes [check_correctness]
    return 1 and print nothing. *)
Theorem check_correctness_ignores_nan h tr c m br bt rs ts n :
  h !! br = Some rs -> h !! bt = Some ts ->
  length rs = Z.to_nat n -> length ts = Z.to_nat n ->
  (forall (i : nat) r t, rs !! i = Some r -> ts !! i = Some t ->
     is_nan r = true \/ is_nan t = true \/ within_eps r t = true) ->
  check_correctness (Ptr br) (Ptr bt) n (mkState h tr c m)
  = Some (1, mkState h tr c m)
  /\ forall (i : nat) r t, rs !! i = Some r -> ts !! i = Some t ->
       is_nan r = true \/ is_nan t = true ->
       diff_is_nan r t = true /\ exceeds r t = false.
Proof.
  intros Hr Ht Lr Lt Hdev. split.
  - rewrite (check_correctness_run h tr c m br bt rs ts n) by (assumption || lia).
    destruct (find_exceed (Z.to_nat n) 0 rs ts) as [j|] eqn:E; [| reflexivity].
    destruct (find_exceed_Some _ _ _ _ _ E) as (Hj & Hex & _).
    destruct (lookup_lt_is_Some_2 rs j ltac:(lia)) as [r Hrj].
    destruct (lookup_lt_is_Some_2 ts j ltac:(lia)) as [t Htj].
    rewrite (nth_lookup_Some _ _ 0%float _ Hrj), (nth_lookup_Some _ _ 0%float _ Htj) in Hex.
    assert (exceeds r t = false); [| congruence].
    destruct (Hdev j r t Hrj Htj) as [H | [H | H]].
    + apply exceeds_nan. now left.
    + apply exceeds_nan. now right.
    + apply exceeds_false_iff. now left.
  - intros i r t _ _ H. now apply exceeds_nan.
Qed.

Lemma check_correctness_ignores_nan_witness :
  check_correctness (Ptr 0%nat) (Ptr 1%nat) 2 (mkState nan_heap [] 0 0)
  = Some (1, mkState nan_heap [] 0%nat 0%nat)
  /\ forall (i : nat) r t,
       [nan; 1]%float !! i = Some r -> [0; 1]%float !! i = Some t ->
       is_nan r = true \/ is_nan t = true ->
       diff_is_nan r t = true /\ exceeds r t = false.
Proof.
  apply (check_correctness_ignores_nan nan_heap [] 0%nat 0%nat 0%nat 1%nat
           [nan; 1]%float [0; 1]%float 2); try reflexivity.
  intros [|[|i]] r t Hr Ht; try discriminate;
    injection Hr as <-; injection Ht as <-.
  - left. reflexivity.
  - right. right. vm_compute. reflexivity.
Defined.

(** ** Printing, timing and repeated runs *)

Lemma print_first_ten_run label h tr c m bz zs n :
  h !! bz = Some zs -> (Z.to_nat (Z.min 10 n) <= length zs)%nat ->
  print_first_ten label (Ptr bz) n (mkState h tr c m)
  = Some (tt, mkState h (tr ++ first_ten_lines label zs n) c m).
Proof.
  intros Hz Lz. unfold print_first_ten, first_ten_lines.
  rewrite (bind_run _ _ _ tt (mkState h (tr ++ [Printf "%s (first 10):\n" [ArgS label]]) c m))
    by reflexivity.
  set (line := fun i : nat => Printf "  Z[%2zu] = %.6f\n"
                               [ArgZ (Z.of_nat i); ArgF (nth i zs 0%float)]).
  set (hd := Printf "%s (first 10):\n" [ArgS label]).
  destruct (for_loop_inv
    (fun i => let* zi := load (Ptr bz) i in
              printf "  Z[%2zu] = %.6f\n" [ArgZ i; ArgF zi])
    (Z.to_nat (Z.min 10 n))
    (fun j s => s = mkState h (tr ++ hd :: (line <$> seq 0 j)) c m)
    0 (mkState h (tr ++ [hd]) c m)) as (s' & Hrun & ->).
  - reflexivity.
  - intros j s1 Hj ->. rewrite Z.add_0_l. eexists. split; [| reflexivity].
    destruct (lookup_lt_is_Some_2 zs j ltac:(lia)) as [zj Hzj].
    rewrite (bind_run _ _ _ zj (mkState h (tr ++ hd :: (line <$> seq 0 j)) c m))
      by (apply load_run with zs; [assumption | now rewrite Nat2Z.id]).
    unfold printf, emit, log. cbn [heap trace nclock nmalloc].
    rewrite seq_S, fmap_app, <- app_assoc. cbn [app fmap list_fmap Nat.add].
    unfold line at 3. rewrite (nth_lookup_Some _ _ 0%float _ Hzj). reflexivity.
  - assumption.
Qed.

Lemma daxpy_block_idem A xs ys zs j :
  (j <= length xs)%nat -> (j <= length ys)%nat ->
  daxpy_block A xs ys (daxpy_block A xs ys zs j) j = daxpy_block A xs ys zs j.
Proof.
  intros Hx Hy. unfold daxpy_block at 1 3. f_equal.
  unfold daxpy_block. rewrite drop_app_length'; [reflexivity |].
  rewrite length_take, length_zip_with. lia.
Qed.

Lemma filled_idem g zs j : filled g (filled g zs j) j = filled g zs j.
Proof.
  unfold filled at 1 3. f_equal.
  unfold filled. rewrite drop_app_length'; [reflexivity |].
  now rewrite length_fmap, length_seq.
Qed.

Lemma time_c_run P h tr c m bz bx by_ zs xs ys A n :
  h !! bz = Some zs -> h !! bx = Some xs -> h !! by_ = Some ys ->
  (Z.to_nat n <= length zs)%nat -> (Z.to_nat n <= length xs)%nat ->
  (Z.to_nat n <= length ys)%nat ->
  time_c P (Ptr bz) (Ptr bx) (Ptr by_) A n (mkState h tr c m)
  = Some (duration P (clock_at P c) (clock_at P (S c)),
          mkState (<[bz := daxpy_block A xs ys zs (Z.to_nat n)]> h)
                  (tr ++ [Clock (clock_at P c);
                          Call KernelC (Ptr bz) (Ptr bx) (Ptr by_) A n;
                          Clock (clock_at P (S c))]) (S (S c)) m).
Proof.
  intros Hz Hx Hy Lz Lx Ly. unfold time_c.
  rewrite (bind_run _ _ _ (clock_at P c) (mkState h (tr ++ [Clock (clock_at P c)]) (S c) m))
    by reflexivity.
  rewrite (bind_run _ _ _ _ _ (daxpy_c_run _ _ _ _ bz bx by_ zs xs ys A n Hz Hx Hy Lz Lx Ly)).
  unfold bind, clock, ret. cbn [heap trace nclock nmalloc].
  rewrite <- !app_assoc. reflexivity.
Qed.

Lemma time_asm_run P h tr c m bz bx by_ zs xs ys A n :
  h !! bz = Some zs -> h !! bx = Some xs -> h !! by_ = Some ys ->
  (Z.to_nat n <= length zs)%nat -> (Z.to_nat n <= length xs)%nat ->
  (Z.to_nat n <= length ys)%nat ->
  time_asm P (Ptr bz) (Ptr bx) (Ptr by_) A n (mkState h tr c m)
  = Some (duration P (clock_at P c) (clock_at P (S c)),
          mkState (<[bz := filled (asm_out P A (take (Z.to_nat n) xs) (take (Z.to_nat n) ys))
                                  zs (Z.to_nat n)]> h)
                  (tr ++ [Clock (clock_at P c);
                          Call KernelAsm (Ptr bz) (Ptr bx) (Ptr by_) A n;
                          Clock (clock_at P (S c))]) (S (S c)) m).
Proof.
  intros Hz Hx Hy Lz Lx Ly. unfold time_asm.
  rewrite (bind_run _ _ _ (clock_at P c) (mkState h (tr ++ [Clock (clock_at P c)]) (S c) m))
    by reflexivity.
  rewrite (bind_run _ _ _ _ _ (daxpy_asm_run P _ _ _ _ bz bx by_ zs xs ys A n Hz Hx Hy Lz Lx Ly)).
  unfold bind, clock, ret. cbn [heap trace nclock nmalloc].
  rewrite <- !app_assoc. reflexivity.
Qed.

(** [k] runs of a timed kernel that maps the heaps [h0] and [h1] to [h1]. *)
Lemma sum_runs_run P (timed : M float) (ev : event) (h0 h1 : gmap block (list float)) :
  (forall h tr c m, h = h0 \/ h = h1 ->
     timed (mkState h tr c m)
     = Some (duration P (clock_at P c) (clock_at P (S c)),
             mkState h1 (tr ++ [Clock (clock_at P c); ev; Clock (clock_at P (S c))])
                     (S (S c)) m)) ->
  forall k h tr c m sum, h = h0 \/ h = h1 ->
    sum_runs k timed sum (mkState h tr c m)
    = Some (fold_left PrimFloat.add (durations P c k) sum,
            mkState (match k with O => h | S _ => h1 end)
                    (tr ++ timed_runs P ev c k) (c + 2 * k) m).
Proof.
  intros Htimed. induction k as [|k IH]; intros h tr c m sum Hh.
  - cbn. rewrite app_nil_r, Nat.add_0_r. reflexivity.
  - cbn [sum_runs]. rewrite (bind_run _ _ _ _ _ (Htimed h tr c m Hh)).
    rewrite IH by (now right).
    cbn [durations timed_runs fold_left]. rewrite <- app_assoc. cbn [app].
    replace (S (S c) + 2 * k)%nat with (c + 2 * S k)%nat by lia.
    destruct k; reflexivity.
Qed.

(** ** Buffers: allocation, update and release *)

Lemma buffers_nil h N : buffers_of h h N [].
Proof.
  split; [| split].
  - intros b Hb. inversion Hb.
  - reflexivity.
  - intros i j b Hi. rewrite lookup_nil in Hi. discriminate.
Qed.

Lemma buffers_cons_null h H N ps : buffers_of h H N ps -> buffers_of h H N (NULL :: ps).
Proof.
  intros (Hin & Hout & Hinj). split; [| split].
  - intros b Hb. apply elem_of_cons in Hb as [Hb | Hb]; [discriminate |].
    apply Hin, Hb.
  - intros b Hb. apply Hout. intros Hb'. apply Hb. now right.
  - intros [|i] [|j] b Hi Hj; try discriminate; cbn in Hi, Hj.
    f_equal. eapply Hinj; eassumption.
Qed.

Lemma buffers_cons_fresh h H N ps b l :
  buffers_of h H N ps -> H !! b = None -> length l = N ->
  buffers_of h (<[b := l]> H) N (Ptr b :: ps).
Proof.
  intros (Hin & Hout & Hinj) Hb Hl.
  assert (Hnotin : Ptr b ∉ ps).
  { intros Hb'. destruct (Hin b Hb') as (_ & l' & Hl' & _). congruence. }
  split; [| split].
  - intros b' Hb'. apply elem_of_cons in Hb' as [[= ->] | Hb'].
    + split; [rewrite <- (Hout b Hnotin); assumption |].
      exists l. split; [apply lookup_insert_eq | assumption].
    + destruct (Hin b' Hb') as (Hnone & l' & Hl' & Hlen).
      split; [assumption |]. exists l'. split; [| assumption].
      rewrite lookup_insert_ne; [assumption |]. intros ->. congruence.
  - intros b' Hb'. rewrite lookup_insert_ne.
    + apply Hout. intros Hb''. apply Hb'. now right.
    + intros ->. apply Hb'. now left.
  - intros [|i] [|j] b' Hi Hj; cbn in Hi, Hj.
    + reflexivity.
    + injection Hi as ->. exfalso. apply Hnotin.
      apply list_elem_of_lookup. eauto.
    + injection Hj as ->. exfalso. apply Hnotin.
      apply list_elem_of_lookup. eauto.
    + f_equal. eapply Hinj; eassumption.
Qed.

Lemma buffers_insert h H N ps b l :
  buffers_of h H N ps -> Ptr b ∈ ps -> length l = N ->
  buffers_of h (<[b := l]> H) N ps.
Proof.
  intros (Hin & Hout & Hinj) Hb Hl. split; [| split].
  - intros b' Hb'. split; [apply Hin, Hb' |].
    destruct (decide (b' = b)) as [->|Hne].
    + exists l. split; [apply lookup_insert_eq | assumption].
    + rewrite lookup_insert_ne by congruence. apply Hin, Hb'.
  - intros b' Hb'. rewrite lookup_insert_ne; [apply Hout, Hb' |].
    intros ->. contradiction.
  - assumption.
Qed.

Lemma lookup_release p (H : gmap block (list float)) k :
  release p H !! k = if decide (p = Ptr k) then None else H !! k.
Proof.
  destruct p as [|b]; cbn.
  - destruct (decide (NULL = Ptr k)); [discriminate | reflexivity].
  - rewrite lookup_delete. destruct (decide (b = k)) as [->|Hne].
    + destruct (decide (Ptr k = Ptr k)); [reflexivity | contradiction].
    + destruct (decide (Ptr b = Ptr k)) as [[= ->]|]; [contradiction | reflexivity].
Qed.

(** Releasing the four buffers, in either order, gives back the heap they
    were added to. *)
Lemma release_all h H N p1 p2 p3 p4 :
  buffers_of h H N [p4; p3; p2; p1] ->
  release p4 (release p3 (release p2 (release p1 H))) = h
  /\ release p1 (release p2 (release p3 (release p4 H))) = h.
Proof.
  intros (Hin & Hout & _).
  assert (Hk : forall k, (p1 = Ptr k \/ p2 = Ptr k \/ p3 = Ptr k \/ p4 = Ptr k) ->
                         h !! k = None).
  { intros k Hk. apply Hin. rewrite !elem_of_cons. intuition. }
  assert (Hk' : forall k, p1 <> Ptr k -> p2 <> Ptr k -> p3 <> Ptr k -> p4 <> Ptr k ->
                          H !! k = h !! k).
  { intros k H1 H2 H3 H4. apply Hout. rewrite !elem_of_cons, elem_of_nil.
    intuition congruence. }
  split; apply map_eq; intros k; rewrite !lookup_release;
    repeat (destruct (decide _) as [->|]; [symmetry; apply Hk; tauto |]);
    now apply Hk'.
Qed.

Lemma free_run h tr c m p :
  match p with NULL => True | Ptr b => is_Some (h !! b) end ->
  free p (mkState h tr c m) = Some (tt, mkState (release p h) (tr ++ [Free p]) c m).
Proof.
  destruct p as [|b]; cbn; [reflexivity |].
  intros [l Hl]. unfold free. cbn. now rewrite Hl.
Qed.

Lemma buffers_live h H N ps p :
  buffers_of h H N ps -> p ∈ ps ->
  match p with NULL => True | Ptr b => is_Some (H !! b) end.
Proof.
  intros (Hin & _) Hp. destruct p as [|b]; [exact I |].
  destruct (Hin b Hp) as (_ & l & Hl & _). eauto.
Qed.

Lemma buffers_distinct h H N ps i j p q :
  buffers_of h H N ps -> ps !! i = Some p -> ps !! j = Some q -> i <> j ->
  match q with NULL => True | Ptr b => p <> Ptr b end.
Proof.
  intros (_ & _ & Hinj) Hi Hj Hne. destruct q as [|b]; [exact I |].
  intros ->. apply Hne. eapply Hinj; eassumption.
Qed.

(** The four calls of [free] at the end of [run_test]. *)
Lemma free_four h H N tr c m p1 p2 p3 p4 :
  buffers_of h H N [p4; p3; p2; p1] ->
  (free p1 >> free p2 >> free p3 >> free p4) (mkState H tr c m)
  = Some (tt, mkState h (tr ++ [Free p1; Free p2; Free p3; Free p4]) c m).
Proof.
  intros HB.
  assert (Hlive : forall p, p ∈ [p4; p3; p2; p1] ->
            match p with NULL => True | Ptr b => is_Some (H !! b) end)
    by (intros p; apply (buffers_live _ _ _ _ _ HB)).
  assert (Hd : forall i j p q, [p4; p3; p2; p1] !! i = Some p ->
            [p4; p3; p2; p1] !! j = Some q -> i <> j ->
            match q with NULL => True | Ptr b => p <> Ptr b end)
    by (intros i j p q; apply (buffers_distinct _ _ _ _ _ _ _ _ HB)).
  rewrite (bind_run _ _ _ _ _ (free_run H tr c m p1 (Hlive p1 ltac:(set_solver)))).
  rewrite (bind_run _ _ _ tt (mkState (release p2 (release p1 H))
                                      ((tr ++ [Free p1]) ++ [Free p2]) c m)).
  2:{ apply free_run. pose proof (Hlive p2 ltac:(set_solver)) as L.
      pose proof (Hd 3%nat 2%nat p1 p2 eq_refl eq_refl ltac:(lia)) as D1.
      destruct p2 as [|b]; [exact I |].
      rewrite lookup_release. destruct (decide (p1 = Ptr b)); [contradiction | assumption]. }
  rewrite (bind_run _ _ _ tt (mkState (release p3 (release p2 (release p1 H)))
                                      (((tr ++ [Free p1]) ++ [Free p2]) ++ [Free p3]) c m)).
  2:{ apply free_run. pose proof (Hlive p3 ltac:(set_solver)) as L.
      pose proof (Hd 3%nat 1%nat p1 p3 eq_refl eq_refl ltac:(lia)) as D1.
      pose proof (Hd 2%nat 1%nat p2 p3 eq_refl eq_refl ltac:(lia)) as D2.
      destruct p3 as [|b]; [exact I |].
      rewrite !lookup_release.
      destruct (decide (p2 = Ptr b)); [contradiction |].
      destruct (decide (p1 = Ptr b)); [contradiction | assumption]. }
  rewrite free_run.
  2:{ pose proof (Hlive p4 ltac:(set_solver)) as L.
      pose proof (Hd 3%nat 0%nat p1 p4 eq_refl eq_refl ltac:(lia)) as D1.
      pose proof (Hd 2%nat 0%nat p2 p4 eq_refl eq_refl ltac:(lia)) as D2.
      pose proof (Hd 1%nat 0%nat p3 p4 eq_refl eq_refl ltac:(lia)) as D3.
      destruct p4 as [|b]; [exact I |].
      rewrite !lookup_release.
      destruct (decide (p3 = Ptr b)); [contradiction |].
      destruct (decide (p2 = Ptr b)); [contradiction |].
      destruct (decide (p1 = Ptr b)); [contradiction | assumption]. }
  rewrite (proj1 (release_all _ _ _ _ _ _ _ HB)).
  rewrite <- !app_assoc. reflexivity.
Qed.

Lemma malloc_run P h H N ps bytes tr c m :
  buffers_of h H N ps -> Z.to_nat (bytes / sizeof_double) = N ->
  exists p H',
    malloc P bytes (mkState H tr c m)
    = Some (p, mkState H' (tr ++ [Malloc bytes p]) c (S m))
    /\ buffers_of h H' N (p :: ps)
    /\ is_null p = negb (malloc_ok P m bytes).
Proof.
  intros HB HN. unfold malloc. cbn [nmalloc heap trace nclock].
  destruct (malloc_ok P m bytes).
  - eexists _, _. split; [reflexivity |]. split; [| reflexivity].
    apply buffers_cons_fresh; [assumption | |].
    + apply not_elem_of_dom, is_fresh.
    + unfold fresh_cells. now rewrite length_fmap, length_seq.
  - eexists _, _. split; [reflexivity |]. split; [| reflexivity].
    now apply buffers_cons_null.
Qed.

(** ** Repeated timed runs of the two kernels *)

Lemma time_c_runs P h tr c m bz bx by_ zs xs ys A n k sum :
  h !! bz = Some zs -> h !! bx = Some xs -> h !! by_ = Some ys ->
  bz <> bx -> bz <> by_ ->
  (Z.to_nat n <= length zs)%nat -> (Z.to_nat n <= length xs)%nat ->
  (Z.to_nat n <= length ys)%nat ->
  sum_runs k (time_c P (Ptr bz) (Ptr bx) (Ptr by_) A n) sum (mkState h tr c m)
  = Some (fold_left PrimFloat.add (durations P c k) sum,
          mkState (match k with
                   | O => h
                   | S _ => <[bz := daxpy_block A xs ys zs (Z.to_nat n)]> h
                   end)
                  (tr ++ timed_runs P (Call KernelC (Ptr bz) (Ptr bx) (Ptr by_) A n) c k)
                  (c + 2 * k) m).
Proof.
  intros Hz Hx Hy Hzx Hzy Lz Lx Ly.
  apply (sum_runs_run P _ _ h); [| now left].
  intros h' tr' c' m' [-> | ->].
  - now apply time_c_run.
  - rewrite (time_c_run P _ _ _ _ bz bx by_ (daxpy_block A xs ys zs (Z.to_nat n)) xs ys).
    + now rewrite insert_insert_eq, daxpy_block_idem.
    + apply lookup_insert_eq.
    + now rewrite lookup_insert_ne.
    + now rewrite lookup_insert_ne.
    + rewrite daxpy_block_length; lia.
    + assumption.
    + assumption.
Qed.

Lemma time_asm_runs P h tr c m bz bx by_ zs xs ys A n k sum :
  h !! bz = Some zs -> h !! bx = Some xs -> h !! by_ = Some ys ->
  bz <> bx -> bz <> by_ ->
  (Z.to_nat n <= length zs)%nat -> (Z.to_nat n <= length xs)%nat ->
  (Z.to_nat n <= length ys)%nat ->
  sum_runs k (time_asm P (Ptr bz) (Ptr bx) (Ptr by_) A n) sum (mkState h tr c m)
  = Some (fold_left PrimFloat.add (durations P c k) sum,
          mkState (match k with
                   | O => h
                   | S _ => <[bz := filled (asm_out P A (take (Z.to_nat n) xs)
                                                    (take (Z.to_nat n) ys))
                                           zs (Z.to_nat n)]> h
                   end)
                  (tr ++ timed_runs P (Call KernelAsm (Ptr bz) (Ptr bx) (Ptr by_) A n) c k)
                  (c + 2 * k) m).
Proof.
  intros Hz Hx Hy Hzx Hzy Lz Lx Ly.
  apply (sum_runs_run P _ _ h); [| now left].
  intros h' tr' c' m' [-> | ->].
  - now apply time_asm_run.
  - rewrite (time_asm_run P _ _ _ _ bz bx by_
               (filled (asm_out P A (take (Z.to_nat n) xs) (take (Z.to_nat n) ys))
                       zs (Z.to_nat n)) xs ys).
    + now rewrite insert_insert_eq, filled_idem.
    + apply lookup_insert_eq.
    + now rewrite lookup_insert_ne.
    + now rewrite lookup_insert_ne.
    + rewrite filled_length; lia.
    + assumption.
    + assumption.
Qed.

(** C10. [daxpy_c] changes nothing but the block of [z]: for every input
    all other blocks hold after the call what they held before, and the
    scalar is a by-value parameter.  So when [x] and [y] are arrays other
    than [z], both are unchanged, and any number [k + 1] of timed
    invocations in a row on the same buffers leaves the heap exactly as one
    single call leaves it: every run is an entry with the same arguments
    and [z] holds the same values after every run. *)
Theorem daxpy_c_frame P h tr c m bz bx by_ zs xs ys A n k sum :
  h !! bz = Some zs -> h !! bx = Some xs -> h !! by_ = Some ys ->
  (Z.to_nat n <= length zs)%nat -> (Z.to_nat n <= length xs)%nat ->
  (Z.to_nat n <= length ys)%nat ->
  exists zs',
    daxpy_c (Ptr bz) (Ptr bx) (Ptr by_) A n (mkState h tr c m)
    = Some (tt, mkState (<[bz := zs']> h)
                        (tr ++ [Call KernelC (Ptr bz) (Ptr bx) (Ptr by_) A n]) c m)
    /\ (forall b, b <> bz -> (<[bz := zs']> h) !! b = h !! b)
    /\ (bx <> bz -> by_ <> bz ->
        (<[bz := zs']> h) !! bx = Some xs
        /\ (<[bz := zs']> h) !! by_ = Some ys
        /\ exists d,
            sum_runs (S k) (time_c P (Ptr bz) (Ptr bx) (Ptr by_) A n) sum
                     (mkState h tr c m)
            = Some (d, mkState (<[bz := zs']> h)
                         (tr ++ timed_runs P (Call KernelC (Ptr bz) (Ptr bx) (Ptr by_) A n)
                                           c (S k))
                         (c + 2 * S k) m)).
Proof.
  intros Hz Hx Hy Lz Lx Ly.
  exists (daxpy_block A xs ys zs (Z.to_nat n)).
  split; [now apply daxpy_c_run |].
  split; [intros b Hb; now rewrite lookup_insert_ne |].
  intros Hzx Hzy.
  split; [now rewrite lookup_insert_ne |].
  split; [now rewrite lookup_insert_ne |].
  eexists.
  rewrite (time_c_runs P h tr c m bz bx by_ zs xs ys A n (S k) sum)
    by (assumption || congruence).
  reflexivity.
Qed.

Lemma daxpy_c_frame_witness :
  exists zs',
    daxpy_c (Ptr 2%nat) (Ptr 0%nat) (Ptr 1%nat) 2 3 (mkState example_heap [] 0 0)
    = Some (tt, mkState (<[2%nat := zs']> example_heap)
                        ([] ++ [Call KernelC (Ptr 2%nat) (Ptr 0%nat) (Ptr 1%nat) 2 3]) 0 0)
    /\ (forall b, b <> 2%nat -> (<[2%nat := zs']> example_heap) !! b = example_heap !! b)
    /\ (0%nat <> 2%nat -> 1%nat <> 2%nat ->
        (<[2%nat := zs']> example_heap) !! 0%nat = Some [1; 2; 3]%float
        /\ (<[2%nat := zs']> example_heap) !! 1%nat = Some [11; 12; 13]%float
        /\ exists d,
            sum_runs 30 (time_c steady_platform (Ptr 2%nat) (Ptr 0%nat) (Ptr 1%nat) 2 3) 0
                     (mkState example_heap [] 0 0)
            = Some (d, mkState (<[2%nat := zs']> example_heap)
                         ([] ++ timed_runs steady_platform
                                  (Call KernelC (Ptr 2%nat) (Ptr 0%nat) (Ptr 1%nat) 2 3) 0 30)
                         (0 + 2 * 30) 0)).
Proof.
  apply (daxpy_c_frame steady_platform example_heap [] 0%nat 0%nat 2%nat 0%nat 1%nat
           [0; 0; 0]%float [1; 2; 3]%float [11; 12; 13]%float 2%float 3 29%nat 0%float);
    try reflexivity; simpl; lia.
Defined.

(** ** [run_test] *)

Lemma daxpy_block_all A xs ys zs j :
  length xs = j -> length ys = j -> length zs = j ->
  daxpy_block A xs ys zs j = zip_with (fun xi yi => (A * xi + yi)%float) xs ys.
Proof.
  intros Lx Ly Lz. unfold daxpy_block.
  rewrite take_ge by (rewrite length_zip_with; lia).
  rewrite drop_ge by lia. apply app_nil_r.
Qed.

Lemma check_correctness_run' h tr c m br bt rs ts n :
  h !! br = Some rs -> h !! bt = Some ts ->
  (Z.to_nat n <= length rs)%nat -> (Z.to_nat n <= length ts)%nat ->
  check_correctness (Ptr br) (Ptr bt) n (mkState h tr c m)
  = Some (check_value rs ts n, mkState h (tr ++ check_lines rs ts n) c m).
Proof.
  intros Hr Ht Lr Lt.
  rewrite (check_correctness_run h tr c m br bt rs ts n) by assumption.
  unfold check_value, check_lines.
  destruct (find_exceed (Z.to_nat n) 0 rs ts); [reflexivity |].
  now rewrite app_nil_r.
Qed.

Lemma length_init_xs n : length (init_xs n) = Z.to_nat n.
Proof. unfold init_xs. now rewrite length_fmap, length_seq. Qed.

Lemma length_init_ys n : length (init_ys n) = Z.to_nat n.
Proof. unfold init_ys. now rewrite length_fmap, length_seq. Qed.

Lemma length_c_result n : length (c_result n) = Z.to_nat n.
Proof.
  unfold c_result. rewrite length_zip_with, length_init_xs, length_init_ys. lia.
Qed.

Lemma length_asm_result P n : length (asm_result P n) = Z.to_nat n.
Proof. unfold asm_result. now rewrite length_fmap, length_seq. Qed.

Lemma is_null_false p : is_null p = false -> exists b, p = Ptr b.
Proof. destruct p; [discriminate | eauto]. Qed.

(** One [printf] followed by the rest of the function. *)
Ltac step_printf :=
  match goal with
  | |- context [bind (printf ?f ?a)] =>
      rewrite (bind_run (printf f a) _ _ tt (log [Printf f a] _)) by reflexivity;
      unfold log at 1; cbn [heap trace nclock nmalloc]
  end.

Lemma run_test_run P n h tr c m :
  0 <= n < 2 ^ 61 ->
  exists evs c',
    run_test P n (mkState h tr c m) = Some (tt, mkState h (tr ++ evs) c' (m + 4))
    /\ bench_outcome P n c m evs c'.
Proof.
  intros Hn. unfold run_test.
  set (bytes := size_wrap (n * sizeof_double)).
  set (N := Z.to_nat (bytes / sizeof_double)).
  do 3 step_printf.
  rewrite <- ?app_assoc. cbn [app]. fold (size_header P n).
  destruct (malloc_run P h h N [] bytes (tr ++ size_header P n) c m
              (buffers_nil h N) eq_refl) as (p1 & H1 & E1 & B1 & N1).
  rewrite (bind_run _ _ _ _ _ E1).
  destruct (malloc_run P h H1 N [p1] bytes
              ((tr ++ size_header P n) ++ [Malloc bytes p1]) c (S m) B1 eq_refl)
    as (p2 & H2 & E2 & B2 & N2).
  rewrite (bind_run _ _ _ _ _ E2).
  destruct (malloc_run P h H2 N [p2; p1] bytes
              (((tr ++ size_header P n) ++ [Malloc bytes p1]) ++ [Malloc bytes p2])
              c (S (S m)) B2 eq_refl)
    as (p3 & H3 & E3 & B3 & N3).
  rewrite (bind_run _ _ _ _ _ E3).
  destruct (malloc_run P h H3 N [p3; p2; p1] bytes
              ((((tr ++ size_header P n) ++ [Malloc bytes p1]) ++ [Malloc bytes p2])
                 ++ [Malloc bytes p3])
              c (S (S (S m))) B3 eq_refl)
    as (p4 & H4 & E4 & B4 & N4).
  rewrite (bind_run _ _ _ _ _ E4).
  clear E1 E2 E3 E4 B1 B2 B3.
  rewrite <- ?app_assoc. cbn [app].
  replace (m + 4)%nat with (S (S (S (S m)))) by lia.
  assert (Hfails : alloc_fails P m n
                   = is_null p1 || is_null p2 || is_null p3 || is_null p4).
  { unfold alloc_fails. fold bytes. rewrite N1, N2, N3, N4.
    destruct (malloc_ok P m bytes), (malloc_ok P (S m) bytes),
      (malloc_ok P (S (S m)) bytes), (malloc_ok P (S (S (S m))) bytes); reflexivity. }
  unfold bench_outcome. rewrite Hfails.
  destruct (is_null p1 || is_null p2 || is_null p3 || is_null p4) eqn:Enull.
  - (* an allocation failed *)
    step_printf.
    rewrite (free_four h H4 N _ c _ p1 p2 p3 p4 B4).
    eexists _, c. split.
    + rewrite <- ?app_assoc. reflexivity.
    + exists p1, p2, p3, p4. split; reflexivity.
  - (* the four buffers exist *)
    apply orb_false_elim in Enull as [Enull Hn4].
    apply orb_false_elim in Enull as [Enull Hn3].
    apply orb_false_elim in Enull as [Hn1 Hn2].
    destruct (is_null_false _ Hn1) as [b1 ->]. destruct (is_null_false _ Hn2) as [b2 ->].
    destruct (is_null_false _ Hn3) as [b3 ->]. destruct (is_null_false _ Hn4) as [b4 ->].
    clear Hn1 Hn2 Hn3 Hn4 N1 N2 N3 N4 Hfails.
    assert (HN : N = Z.to_nat n).
    { unfold N, bytes, size_wrap, sizeof_double.
      rewrite Z.mod_small by lia. now rewrite Z.div_mul. }
    pose proof (buffers_distinct _ _ _ _ 3%nat 2%nat _ _ B4 eq_refl eq_refl ltac:(lia)) as D12.
    pose proof (buffers_distinct _ _ _ _ 3%nat 1%nat _ _ B4 eq_refl eq_refl ltac:(lia)) as D13.
    pose proof (buffers_distinct _ _ _ _ 3%nat 0%nat _ _ B4 eq_refl eq_refl ltac:(lia)) as D14.
    pose proof (buffers_distinct _ _ _ _ 2%nat 1%nat _ _ B4 eq_refl eq_refl ltac:(lia)) as D23.
    pose proof (buffers_distinct _ _ _ _ 2%nat 0%nat _ _ B4 eq_refl eq_refl ltac:(lia)) as D24.
    pose proof (buffers_distinct _ _ _ _ 1%nat 0%nat _ _ B4 eq_refl eq_refl ltac:(lia)) as D34.
    cbn in D12, D13, D14, D23, D24, D34.
    destruct (proj1 B4 b1 ltac:(rewrite !elem_of_cons; tauto)) as (_ & l1 & L1 & Len1).
    destruct (proj1 B4 b2 ltac:(rewrite !elem_of_cons; tauto)) as (_ & l2 & L2 & Len2).
    destruct (proj1 B4 b3 ltac:(rewrite !elem_of_cons; tauto)) as (_ & l3 & L3 & Len3).
    destruct (proj1 B4 b4 ltac:(rewrite !elem_of_cons; tauto)) as (_ & l4 & L4 & Len4).
    rewrite HN in *. cbn [is_null orb].
    (* init_data *)
    rewrite (bind_run _ _ _ _ _
      (init_data_run H4 _ c _ b1 b2 l1 l2 n ltac:(congruence) L1 L2 ltac:(lia) ltac:(lia))).
    rewrite (filled_all _ l1 _ Len1), (filled_all _ l2 _ Len2).
    fold (init_xs n). fold (init_ys n).
    set (H5 := <[b2 := init_ys n]> (<[b1 := init_xs n]> H4)).
    assert (L51 : H5 !! b1 = Some (init_xs n))
      by (unfold H5; rewrite lookup_insert_ne, lookup_insert_eq by congruence; reflexivity).
    assert (L52 : H5 !! b2 = Some (init_ys n)) by (unfold H5; apply lookup_insert_eq).
    assert (L53 : H5 !! b3 = Some l3)
      by (unfold H5; rewrite !lookup_insert_ne by congruence; assumption).
    assert (L54 : H5 !! b4 = Some l4)
      by (unfold H5; rewrite !lookup_insert_ne by congruence; assumption).
    pose proof (length_init_xs n) as LX. pose proof (length_init_ys n) as LY.
    (* the timed runs of the C kernel *)
    change (Z.to_nat RUNS) with 30%nat.
    rewrite (bind_run _ _ _ _ _
      (time_c_runs P H5 _ c _ b3 b1 b2 l3 (init_xs n) (init_ys n) 2 n 30 0
         L53 L51 L52 ltac:(congruence) ltac:(congruence) ltac:(lia) ltac:(lia) ltac:(lia))).
    cbv iota.
    rewrite (daxpy_block_all 2 (init_xs n) (init_ys n) l3 (Z.to_nat n) LX LY Len3).
    fold (c_result n).
    set (H6 := <[b3 := c_result n]> H5).
    assert (L61 : H6 !! b1 = Some (init_xs n))
      by (unfold H6; rewrite lookup_insert_ne by congruence; assumption).
    assert (L62 : H6 !! b2 = Some (init_ys n))
      by (unfold H6; rewrite lookup_insert_ne by congruence; assumption).
    assert (L64 : H6 !! b4 = Some l4)
      by (unfold H6; rewrite lookup_insert_ne by congruence; assumption).
    (* the timed runs of the assembly kernel *)
    rewrite (bind_run _ _ _ _ _
      (time_asm_runs P H6 _ (c + 2 * 30) _ b4 b1 b2 l4 (init_xs n) (init_ys n) 2 n 30 0
         L64 L61 L62 ltac:(congruence) ltac:(congruence) ltac:(lia) ltac:(lia) ltac:(lia))).
    cbv iota.
    rewrite (take_ge (init_xs n)), (take_ge (init_ys n)) by lia.
    rewrite (filled_all _ l4 _ Len4). fold (asm_result P n).
    set (H7 := <[b4 := asm_result P n]> H6).
    assert (L73 : H7 !! b3 = Some (c_result n))
      by (unfold H7, H6; rewrite lookup_insert_ne, lookup_insert_eq by congruence; reflexivity).
    assert (L74 : H7 !! b4 = Some (asm_result P n)) by (unfold H7; apply lookup_insert_eq).
    pose proof (length_c_result n) as LC. pose proof (length_asm_result P n) as LA.
    (* the check and the printing *)
    rewrite (bind_run _ _ _ _ _
      (check_correctness_run' H7 _ _ _ b3 b4 _ _ n L73 L74 ltac:(lia) ltac:(lia))).
    step_printf.
    rewrite (bind_run _ _ _ _ _
      (print_first_ten_run "C version result" H7 _ _ _ b3 _ n L73 ltac:(lia))).
    rewrite (bind_run _ _ _ _ _
      (print_first_ten_run "x86-64 ASM version result" H7 _ _ _ b4 _ n L74 ltac:(lia))).
    do 3 step_printf.
    assert (B7 : buffers_of h H7 (Z.to_nat n) [Ptr b4; Ptr b3; Ptr b2; Ptr b1]).
    { unfold H7, H6, H5.
      apply buffers_insert; [| rewrite !elem_of_cons; tauto | assumption].
      apply buffers_insert; [| rewrite !elem_of_cons; tauto | assumption].
      apply buffers_insert; [| rewrite !elem_of_cons; tauto | assumption].
      apply buffers_insert; [| rewrite !elem_of_cons; tauto | assumption].
      assumption. }
    rewrite (free_four h H7 _ _ _ _ _ _ _ _ B7).
    eexists _, (c + 4 * 30)%nat. split.
    + f_equal. f_equal. f_equal; [| lia].
      rewrite <- ?app_assoc. cbn [app]. reflexivity.
    + exists b1, b2, b3, b4. split; [| reflexivity].
      unfold ok_report. fold bytes. unfold mean_of_runs.
      rewrite <- ?app_assoc. cbn [app]. reflexivity.
Qed.

(** ** [verify_with_example] *)

Lemma bind_assoc {A B C} (m : M A) (f : A -> M B) (g : B -> M C) s :
  bind (bind m f) g s = bind m (fun a => bind (f a) g) s.
Proof. unfold bind. destruct (m s) as [[a s']|]; reflexivity. Qed.

Lemma bind_ret {A B} (a : A) (k : A -> M B) s : bind (ret a) k s = k a s.
Proof. reflexivity. Qed.

Lemma local_array_run h H N ps init tr c m :
  buffers_of h H N ps -> length init = N ->
  exists b,
    local_array init (mkState H tr c m) = Some (Ptr b, mkState (<[b := init]> H) tr c m)
    /\ buffers_of h (<[b := init]> H) N (Ptr b :: ps).
Proof.
  intros HB HN. eexists. split; [reflexivity |].
  apply buffers_cons_fresh; [assumption | | assumption].
  apply not_elem_of_dom, is_fresh.
Qed.

(** One array read followed by the rest of the function, the content of the
    array being among the hypotheses. *)
Lemma bind_load_run {B} h tr c m b l i v (k : float -> M B) :
  h !! b = Some l -> l !! Z.to_nat i = Some v ->
  bind (load (Ptr b) i) k (mkState h tr c m) = k v (mkState h tr c m).
Proof. intros Hb Hi. apply bind_run. now apply load_run with l. Qed.

Ltac step_load :=
  match goal with
  | L : ?h !! ?b = Some ?l
    |- context [bind (load (Ptr ?b) ?i) ?k (mkState ?h ?tr ?c ?m)] =>
      let r := eval cbv - [asm_out example_xs example_ys] in (l !! Z.to_nat i) in
      match r with
      | Some ?v => rewrite (bind_load_run h tr c m b l i v k L eq_refl)
      end
  end.

Lemma verify_run P h tr c m :
  exists x y zC zA,
    verify_with_example P (mkState h tr c m)
    = Some (tt, mkState h (tr ++ verify_report P (Ptr x) (Ptr y) (Ptr zC) (Ptr zA)) c m).
Proof.
  unfold verify_with_example. cbv zeta. do 3 step_printf.
  destruct (local_array_run h h 3 [] [1; 2; 3]%float
              (((tr ++ [Printf rule []]) ++ [Printf " PROCESS VERIFICATION\n" []])
                 ++ [Printf rule_end []]) c m (buffers_nil h 3) eq_refl)
    as (b1 & E1 & B1).
  rewrite (bind_run _ _ _ _ _ E1).
  destruct (local_array_run h _ 3 _ [11; 12; 13]%float
              (((tr ++ [Printf rule []]) ++ [Printf " PROCESS VERIFICATION\n" []])
                 ++ [Printf rule_end []]) c m B1 eq_refl)
    as (b2 & E2 & B2).
  rewrite (bind_run _ _ _ _ _ E2).
  destruct (local_array_run h _ 3 _ [0; 0; 0]%float
              (((tr ++ [Printf rule []]) ++ [Printf " PROCESS VERIFICATION\n" []])
                 ++ [Printf rule_end []]) c m B2 eq_refl)
    as (b3 & E3 & B3).
  rewrite (bind_run _ _ _ _ _ E3).
  destruct (local_array_run h _ 3 _ [0; 0; 0]%float
              (((tr ++ [Printf rule []]) ++ [Printf " PROCESS VERIFICATION\n" []])
                 ++ [Printf rule_end []]) c m B3 eq_refl)
    as (b4 & E4 & B4).
  rewrite (bind_run _ _ _ _ _ E4).
  clear E1 E2 E3 E4 B1 B2 B3.
  pose proof (buffers_distinct _ _ _ _ 3%nat 2%nat _ _ B4 eq_refl eq_refl ltac:(lia)) as D12.
  pose proof (buffers_distinct _ _ _ _ 3%nat 1%nat _ _ B4 eq_refl eq_refl ltac:(lia)) as D13.
  pose proof (buffers_distinct _ _ _ _ 3%nat 0%nat _ _ B4 eq_refl eq_refl ltac:(lia)) as D14.
  pose proof (buffers_distinct _ _ _ _ 2%nat 1%nat _ _ B4 eq_refl eq_refl ltac:(lia)) as D23.
  pose proof (buffers_distinct _ _ _ _ 2%nat 0%nat _ _ B4 eq_refl eq_refl ltac:(lia)) as D24.
  pose proof (buffers_distinct _ _ _ _ 1%nat 0%nat _ _ B4 eq_refl eq_refl ltac:(lia)) as D34.
  cbn in D12, D13, D14, D23, D24, D34.
  set (H4 := <[b4 := [0; 0; 0]%float]> (<[b3 := [0; 0; 0]%float]>
               (<[b2 := [11; 12; 13]%float]> (<[b1 := [1; 2; 3]%float]> h)))) in *.
  assert (L1 : H4 !! b1 = Some [1; 2; 3]%float)
    by (unfold H4; rewrite !lookup_insert_ne by congruence; apply lookup_insert_eq).
  assert (L2 : H4 !! b2 = Some [11; 12; 13]%float)
    by (unfold H4; rewrite !lookup_insert_ne by congruence; apply lookup_insert_eq).
  assert (L3 : H4 !! b3 = Some [0; 0; 0]%float)
    by (unfold H4; rewrite !lookup_insert_ne by congruence; apply lookup_insert_eq).
  assert (L4 : H4 !! b4 = Some [0; 0; 0]%float) by (unfold H4; apply lookup_insert_eq).
  do 2 step_printf. do 3 step_load. step_printf. do 3 step_load. do 2 step_printf.
  (* the loop that prints the expected values *)
  change (Z.to_nat 3) with 3%nat. cbn [for_loop].
  do 3 (rewrite !bind_assoc; step_load; rewrite !bind_assoc; step_load;
        rewrite ?bind_assoc; step_load; rewrite ?bind_assoc; step_load;
        rewrite ?bind_assoc; step_printf).
  rewrite bind_ret.
  (* the two kernels *)
  rewrite (bind_run _ _ _ _ _
    (daxpy_c_run H4 _ c m b3 b1 b2 _ _ _ 2 3 L3 L1 L2
       ltac:(cbn; lia) ltac:(cbn; lia) ltac:(cbn; lia))).
  change (daxpy_block 2 [1; 2; 3]%float [11; 12; 13]%float [0; 0; 0]%float (Z.to_nat 3))
    with [13; 16; 19]%float.
  set (H5 := <[b3 := [13; 16; 19]%float]> H4).
  assert (L51 : H5 !! b1 = Some [1; 2; 3]%float)
    by (unfold H5; rewrite lookup_insert_ne by congruence; assumption).
  assert (L52 : H5 !! b2 = Some [11; 12; 13]%float)
    by (unfold H5; rewrite lookup_insert_ne by congruence; assumption).
  assert (L54 : H5 !! b4 = Some [0; 0; 0]%float)
    by (unfold H5; rewrite lookup_insert_ne by congruence; assumption).
  rewrite (bind_run _ _ _ _ _
    (daxpy_asm_run P H5 _ c m b4 b1 b2 _ _ _ 2 3 L54 L51 L52
       ltac:(cbn; lia) ltac:(cbn; lia) ltac:(cbn; lia))).
  change (filled _ [0; 0; 0]%float (Z.to_nat 3)) with (example_asm P).
  set (H6 := <[b4 := example_asm P]> H5).
  assert (L63 : H6 !! b3 = Some [13; 16; 19]%float)
    by (unfold H6, H5; rewrite lookup_insert_ne by congruence; apply lookup_insert_eq).
  assert (L64 : H6 !! b4 = Some (example_asm P)) by (unfold H6; apply lookup_insert_eq).
  step_printf. do 3 step_load. do 2 step_printf. do 3 step_load. step_printf.
  rewrite (bind_run _ _ _ _ _
    (check_correctness_run' H6 _ c m b3 b4 _ _ 3 L63 L64 ltac:(cbn; lia) ltac:(cbn; lia))).
  step_printf.
  assert (B6 : buffers_of h H6 3 [Ptr b4; Ptr b3; Ptr b2; Ptr b1]).
  { unfold H6, H5.
    apply buffers_insert; [| rewrite !elem_of_cons; tauto | reflexivity].
    apply buffers_insert; [| rewrite !elem_of_cons; tauto | reflexivity].
    exact B4. }
  exists b1, b2, b3, b4.
  unfold bind, end_scope, set_heap. cbn [heap trace nclock nmalloc].
  change (delete b1 (delete b2 (delete b3 (delete b4 H6))))
    with (release (Ptr b1) (release (Ptr b2) (release (Ptr b3) (release (Ptr b4) H6)))).
  rewrite (proj2 (release_all _ _ _ _ _ _ _ B6)).
  unfold verify_report. rewrite <- ?app_assoc. reflexivity.
Qed.

(** ** [main] *)

Lemma main_run P h tr c m :
  exists x y zC zA e1 c1 e2 c2 e3 c3,
    main P (mkState h tr c m)
    = Some (0, mkState h (tr ++ verify_report P (Ptr x) (Ptr y) (Ptr zC) (Ptr zA)
                             ++ e1 ++ e2 ++ e3 ++ closing) c3 (m + 12))
    /\ bench_outcome P (2 ^ 20) c m e1 c1
    /\ bench_outcome P (2 ^ 24) c1 (m + 4) e2 c2
    /\ bench_outcome P (2 ^ 28) c2 (m + 8) e3 c3.
Proof.
  unfold main. cbv zeta.
  change (size_wrap (Z.shiftl 1 20)) with 1048576.
  change (size_wrap (Z.shiftl 1 24)) with 16777216.
  change (size_wrap (Z.shiftl 1 28)) with 268435456.
  change (2 ^ 20) with 1048576. change (2 ^ 24) with 16777216.
  change (2 ^ 28) with 268435456.
  destruct (verify_run P h tr c m) as (x & y & zC & zA & EV).
  rewrite (bind_run _ _ _ _ _ EV).
  destruct (run_test_run P 1048576 h (tr ++ verify_report P (Ptr x) (Ptr y) (Ptr zC) (Ptr zA))
              c m ltac:(lia)) as (e1 & c1 & E1 & O1).
  rewrite (bind_run _ _ _ _ _ E1).
  destruct (run_test_run P 16777216 h
              ((tr ++ verify_report P (Ptr x) (Ptr y) (Ptr zC) (Ptr zA)) ++ e1)
              c1 (m + 4) ltac:(lia)) as (e2 & c2 & E2 & O2).
  rewrite (bind_run _ _ _ _ _ E2).
  destruct (run_test_run P 268435456 h
              (((tr ++ verify_report P (Ptr x) (Ptr y) (Ptr zC) (Ptr zA)) ++ e1) ++ e2)
              c2 (m + 4 + 4) ltac:(lia)) as (e3 & c3 & E3 & O3).
  rewrite (bind_run _ _ _ _ _ E3).
  do 3 step_printf. unfold ret.
  exists x, y, zC, zA, e1, c1, e2, c2, e3, c3.
  replace (m + 8)%nat with (m + 4 + 4)%nat by lia.
  split; [| auto].
  f_equal. f_equal. f_equal; [| lia].
  unfold closing. rewrite <- ?app_assoc. reflexivity.
Qed.

(** ** What the trace shows of the phases *)

Lemma phase_log_app a b : phase_log (a ++ b) = phase_log a ++ phase_log b.
Proof. apply omap_app. Qed.

Lemma phase_log_timed_runs P k z x y A n j : forall c,
  phase_log (timed_runs P (Call k z x y A n) c j) = replicate j (PKernel k n).
Proof.
  induction j as [|j IH]; intros c; [reflexivity |].
  cbn [timed_runs replicate].
  change (phase_log (Clock ?a :: Call k z x y A n :: Clock ?b :: ?l))
    with (PKernel k n :: phase_log l).
  now rewrite IH.
Qed.

Lemma phase_log_fmap_none {X} (f : X -> event) l :
  (forall x, observe (f x) = None) -> phase_log (f <$> l) = [].
Proof.
  intros Hf. induction l as [|x l IH]; [reflexivity |].
  cbn [fmap list_fmap]. unfold phase_log. cbn [omap list_omap].
  rewrite Hf. exact IH.
Qed.

Lemma phase_log_first_ten label zs n : phase_log (first_ten_lines label zs n) = [].
Proof.
  unfold first_ten_lines.
  change (phase_log (?e :: ?l)) with (phase_log l).
  apply phase_log_fmap_none. reflexivity.
Qed.

Lemma phase_log_check_lines rs ts n : phase_log (check_lines rs ts n) = [].
Proof. unfold check_lines. destruct (find_exceed _ _ _ _); reflexivity. Qed.

Lemma phase_log_fail_report P n p1 p2 p3 p4 :
  phase_log (fail_report P n p1 p2 p3 p4) = bench_log n false.
Proof. reflexivity. Qed.

Lemma phase_log_ok_report P n x y zC zA c :
  phase_log (ok_report P n x y zC zA c) = bench_log n true.
Proof.
  unfold ok_report. rewrite !phase_log_app, !phase_log_timed_runs,
    !phase_log_first_ten, phase_log_check_lines.
  reflexivity.
Qed.

Lemma phase_log_verify_report P x y zC zA :
  phase_log (verify_report P x y zC zA)
  = [PVerify; PKernel KernelC 3; PKernel KernelAsm 3].
Proof.
  unfold verify_report. rewrite !phase_log_app, phase_log_check_lines. reflexivity.
Qed.

Lemma phase_log_bench P n c m evs c' :
  bench_outcome P n c m evs c' ->
  phase_log evs = bench_log n (negb (alloc_fails P m n)).
Proof.
  unfold bench_outcome. destruct (alloc_fails P m n).
  - intros (p1 & p2 & p3 & p4 & -> & _). apply phase_log_fail_report.
  - intros (x & y & zC & zA & -> & _). apply phase_log_ok_report.
Qed.

Lemma sizes_started_app a b : sizes_started (a ++ b) = sizes_started a ++ sizes_started b.
Proof. unfold sizes_started. now rewrite phase_log_app, omap_app. Qed.

Lemma sizes_started_bench P n c m evs c' :
  bench_outcome P n c m evs c' -> sizes_started evs = [n].
Proof.
  intros H. unfold sizes_started. rewrite (phase_log_bench _ _ _ _ _ _ H).
  unfold bench_log. destruct (negb (alloc_fails P m n)); reflexivity.
Qed.

Lemma sizes_started_verify_report P x y zC zA :
  sizes_started (verify_report P x y zC zA) = [].
Proof. unfold sizes_started. now rewrite phase_log_verify_report. Qed.

(** C8. Whatever the platform does (any allocation may fail, the assembly
    kernel may store anything, so that the check may report a mismatch),
    [main] runs to its end and returns 0; no run returns another status. *)
Theorem main_returns_zero P s :
  (exists s', main P s = Some (0, s'))
  /\ (forall r s', main P s = Some (r, s') -> r = 0).
Proof.
  destruct s as [h tr c m].
  destruct (main_run P h tr c m)
    as (x & y & zC & zA & e1 & c1 & e2 & c2 & e3 & c3 & E & _).
  split; [eauto |].
  intros r s' E'. rewrite E in E'. now injection E' as <- _.
Qed.

(** C7. Every run of [main] goes through the phases in one order: the
    banner of the verification, with its two kernel calls on 3 elements,
    comes first and once; then the header of size [2^20], of size [2^24]
    and of size [2^28], in that order, each followed by the 30 + 30 kernel
    runs of that size when its buffers could be allocated.  Nothing of a
    benchmark precedes the verification and the verification banner does
    not come back. *)
Theorem main_phases P h tr c m :
  exists s' evs,
    main P (mkState h tr c m) = Some (0, s')
    /\ trace s' = tr ++ evs
    /\ phase_log evs
       = [PVerify; PKernel KernelC 3; PKernel KernelAsm 3]
         ++ bench_log (2 ^ 20) (negb (alloc_fails P m (2 ^ 20)))
         ++ bench_log (2 ^ 24) (negb (alloc_fails P (m + 4) (2 ^ 24)))
         ++ bench_log (2 ^ 28) (negb (alloc_fails P (m + 8) (2 ^ 28)))
    /\ sizes_started evs = bench_sizes.
Proof.
  destruct (main_run P h tr c m)
    as (x & y & zC & zA & e1 & c1 & e2 & c2 & e3 & c3 & E & O1 & O2 & O3).
  eexists _, _. split; [exact E |]. split; [reflexivity |]. split.
  - rewrite !phase_log_app, phase_log_verify_report.
    rewrite (phase_log_bench _ _ _ _ _ _ O1), (phase_log_bench _ _ _ _ _ _ O2),
      (phase_log_bench _ _ _ _ _ _ O3).
    change (phase_log closing) with (@nil phase_event). now rewrite app_nil_r.
  - rewrite !sizes_started_app, sizes_started_verify_report.
    rewrite (sizes_started_bench _ _ _ _ _ _ O1), (sizes_started_bench _ _ _ _ _ _ O2),
      (sizes_started_bench _ _ _ _ _ _ O3).
    reflexivity.
Qed.

(** C4. When one of the four allocations for the [j]-th size fails,
    [run_test] for that size, from any state, prints the header and the
    failure message, calls [free] on the four pointers [malloc] returned
    (which does nothing for a null one) and returns with the heap it was
    entered with, so every buffer that was obtained has been released.
    [main] still returns 0: the sizes before the failing one have been run
    and the sizes after it are still run. *)
Theorem alloc_failure_is_local P h tr c m (j : nat) n :
  bench_sizes !! j = Some n ->
  alloc_fails P (m + 4 * j) n = true ->
  (forall H t c0, exists q1 q2 q3 q4,
     run_test P n (mkState H t c0 (m + 4 * j))
     = Some (tt, mkState H (t ++ fail_report P n q1 q2 q3 q4) c0 (m + 4 * j + 4)))
  /\ exists s' pre post p1 p2 p3 p4,
       main P (mkState h tr c m) = Some (0, s')
       /\ heap s' = h
       /\ trace s' = tr ++ pre ++ fail_report P n p1 p2 p3 p4 ++ post
       /\ sizes_started pre = take j bench_sizes
       /\ sizes_started post = drop (S j) bench_sizes.
Proof.
  intros Hj Hfail. split.
  { intros H t c0.
    assert (Hn : 0 <= n < 2 ^ 61).
    { destruct j as [|[|[|j]]]; cbn in Hj; try discriminate; injection Hj as <-; lia. }
    destruct (run_test_run P n H t c0 (m + 4 * j) Hn) as (evs & c' & E & O).
    unfold bench_outcome in O. rewrite Hfail in O.
    destruct O as (q1 & q2 & q3 & q4 & -> & ->). eauto. }
  destruct (main_run P h tr c m)
    as (x & y & zC & zA & e1 & c1 & e2 & c2 & e3 & c3 & E & O1 & O2 & O3).
  pose proof (sizes_started_bench _ _ _ _ _ _ O1) as S1.
  pose proof (sizes_started_bench _ _ _ _ _ _ O2) as S2.
  pose proof (sizes_started_bench _ _ _ _ _ _ O3) as S3.
  pose proof (sizes_started_verify_report P (Ptr x) (Ptr y) (Ptr zC) (Ptr zA)) as SV.
  destruct j as [|[|[|j]]]; cbn in Hj; try discriminate; injection Hj as <-.
  - replace (m + 4 * 0)%nat with m in Hfail by lia.
    unfold bench_outcome in O1. rewrite Hfail in O1.
    destruct O1 as (p1 & p2 & p3 & p4 & -> & _).
    exists (mkState h (tr ++ verify_report P (Ptr x) (Ptr y) (Ptr zC) (Ptr zA)
                          ++ fail_report P (2 ^ 20) p1 p2 p3 p4 ++ e2 ++ e3 ++ closing)
                    c3 (m + 12)),
      (verify_report P (Ptr x) (Ptr y) (Ptr zC) (Ptr zA)), (e2 ++ e3 ++ closing),
      p1, p2, p3, p4.
    split; [exact E |]. split; [reflexivity |]. split; [reflexivity |].
    split; [exact SV |].
    rewrite !sizes_started_app, S2, S3. reflexivity.
  - replace (m + 4 * 1)%nat with (m + 4)%nat in Hfail by lia.
    unfold bench_outcome in O2. rewrite Hfail in O2.
    destruct O2 as (p1 & p2 & p3 & p4 & -> & _).
    exists (mkState h (tr ++ verify_report P (Ptr x) (Ptr y) (Ptr zC) (Ptr zA)
                          ++ e1 ++ fail_report P (2 ^ 24) p1 p2 p3 p4 ++ e3 ++ closing)
                    c3 (m + 12)),
      (verify_report P (Ptr x) (Ptr y) (Ptr zC) (Ptr zA) ++ e1), (e3 ++ closing),
      p1, p2, p3, p4.
    split; [exact E |]. split; [reflexivity |].
    split; [cbn [trace]; now rewrite <- !app_assoc |].
    split; [rewrite sizes_started_app, SV, S1; reflexivity |].
    rewrite !sizes_started_app, S3. reflexivity.
  - replace (m + 4 * 2)%nat with (m + 8)%nat in Hfail by lia.
    unfold bench_outcome in O3. rewrite Hfail in O3.
    destruct O3 as (p1 & p2 & p3 & p4 & -> & _).
    exists (mkState h (tr ++ verify_report P (Ptr x) (Ptr y) (Ptr zC) (Ptr zA)
                          ++ e1 ++ e2 ++ fail_report P (2 ^ 28) p1 p2 p3 p4 ++ closing)
                    c3 (m + 12)),
      (verify_report P (Ptr x) (Ptr y) (Ptr zC) (Ptr zA) ++ e1 ++ e2), closing,
      p1, p2, p3, p4.
    split; [exact E |]. split; [reflexivity |].
    split; [cbn [trace]; now rewrite <- !app_assoc |].
    split; [rewrite !sizes_started_app, SV, S1, S2; reflexivity |].
    reflexivity.
Qed.

Lemma alloc_failure_is_local_witness :
  (forall H t c0, exists q1 q2 q3 q4,
     run_test short_platform (2 ^ 20) (mkState H t c0 (0 + 4 * 0))
     = Some (tt, mkState H (t ++ fail_report short_platform (2 ^ 20) q1 q2 q3 q4)
                         c0 (0 + 4 * 0 + 4)))
  /\ exists s' pre post p1 p2 p3 p4,
       main short_platform (mkState ∅ [] 0 0) = Some (0, s')
       /\ heap s' = ∅
       /\ trace s' = [] ++ pre ++ fail_report short_platform (2 ^ 20) p1 p2 p3 p4 ++ post
       /\ sizes_started pre = take 0 bench_sizes
       /\ sizes_started post = drop 1 bench_sizes.
Proof.
  apply (alloc_failure_is_local short_platform ∅ [] 0%nat 0%nat 0%nat (2 ^ 20));
    reflexivity.
Defined.

(** ** The timing harness inside [run_test] *)

Lemma no_timing_first_ten label zs n : no_timing (first_ten_lines label zs n).
Proof.
  unfold no_timing, first_ten_lines. constructor; [reflexivity |].
  apply Forall_fmap, Forall_true. reflexivity.
Qed.

Lemma no_timing_check_lines rs ts n : no_timing (check_lines rs ts n).
Proof.
  unfold no_timing, check_lines.
  destruct (find_exceed _ _ _ _); repeat constructor.
Qed.

Lemma length_durations P k : forall c, length (durations P c k) = k.
Proof. induction k as [|k IH]; intros c; cbn; [reflexivity | now rewrite IH]. Qed.

(** The [i]-th duration is measured between the two clock readings around
    the [i]-th invocation. *)
Lemma durations_lookup P k : forall c i,
  (i < k)%nat ->
  durations P c k !! i
  = Some (duration P (clock_at P (c + 2 * i)) (clock_at P (c + 2 * i + 1))).
Proof.
  induction k as [|k IH]; intros c i Hi; [lia |].
  destruct i as [|i]; cbn [durations].
  - replace (c + 2 * 0)%nat with c by lia. replace (c + 1)%nat with (S c) by lia.
    reflexivity.
  - change ((?d :: ?l) !! S i) with (l !! i). rewrite IH by lia.
    replace (S (S c) + 2 * i)%nat with (c + 2 * S i)%nat by lia. reflexivity.
Qed.

Lemma timed_runs_lookup P ev k : forall c i,
  (i < k)%nat ->
  timed_runs P ev c k !! (3 * i)%nat = Some (Clock (clock_at P (c + 2 * i)))
  /\ timed_runs P ev c k !! (3 * i + 1)%nat = Some ev
  /\ timed_runs P ev c k !! (3 * i + 2)%nat = Some (Clock (clock_at P (c + 2 * i + 1))).
Proof.
  induction k as [|k IH]; intros c i Hi; [lia |].
  destruct i as [|i]; cbn [timed_runs].
  - replace (c + 2 * 0)%nat with c by lia. replace (c + 1)%nat with (S c) by lia.
    repeat split.
  - replace (3 * S i)%nat with (S (S (S (3 * i)))) by lia.
    replace (S (S (S (3 * i))) + 1)%nat with (S (S (S (3 * i + 1)))) by lia.
    replace (S (S (S (3 * i))) + 2)%nat with (S (S (S (3 * i + 2)))) by lia.
    change ((?a :: ?b :: ?d :: ?l) !! S (S (S ?j))) with (l !! j).
    destruct (IH (S (S c)) i ltac:(lia)) as (H1 & H2 & H3).
    rewrite H1, H2, H3.
    replace (S (S c) + 2 * i)%nat with (c + 2 * S i)%nat by lia.
    repeat split.
Qed.

(** C5. When the four buffers of a size are allocated, [run_test] enters
    each kernel exactly 30 times, the C kernel first: every entry lies
    between two readings of the clock of its own ([timed_runs]), on the
    same buffers as the entries before it, and there is no other entry and
    no other clock reading.  The duration of a run is the difference of
    its two readings, as a [double], divided by [CLOCKS_PER_SEC]; the
    average printed for a kernel is the sum of its 30 durations, added up
    in order from 0, divided by 30. *)
Theorem run_test_timing P n h tr c m :
  0 <= n < 2 ^ 61 ->
  alloc_fails P m n = false ->
  exists x y zC zA pre mid post,
    run_test P n (mkState h tr c m)
    = Some (tt, mkState h
        (tr ++ pre
            ++ timed_runs P (Call KernelC zC x y 2 n) c 30
            ++ timed_runs P (Call KernelAsm zA x y 2 n) (c + 60) 30
            ++ mid
            ++ [Printf "\nAverage kernel execution time (%d runs):\n" [ArgZ 30];
                Printf "  C kernel       : %.6f sec\n"
                  [ArgF (fold_left PrimFloat.add (durations P c 30) 0 / 30)%float];
                Printf "  x86-64 kernel  : %.6f sec\n"
                  [ArgF (fold_left PrimFloat.add (durations P (c + 60) 30) 0 / 30)%float]]
            ++ post)
        (c + 120) (m + 4))
    /\ no_timing pre /\ no_timing mid /\ no_timing post
    /\ (forall c0, length (durations P c0 30) = 30%nat)
    /\ (forall c0 i, (i < 30)%nat ->
          durations P c0 30 !! i
          = Some (double_of_Z (clock_at P (c0 + 2 * i + 1) - clock_at P (c0 + 2 * i))
                  / double_of_Z (CLOCKS_PER_SEC P))%float
          /\ forall ev,
               timed_runs P ev c0 30 !! (3 * i)%nat
               = Some (Clock (clock_at P (c0 + 2 * i)))
               /\ timed_runs P ev c0 30 !! (3 * i + 1)%nat = Some ev
               /\ timed_runs P ev c0 30 !! (3 * i + 2)%nat
                  = Some (Clock (clock_at P (c0 + 2 * i + 1)))).
Proof.
  intros Hn Hok.
  destruct (run_test_run P n h tr c m Hn) as (evs & c' & E & O).
  unfold bench_outcome in O. rewrite Hok in O.
  destruct O as (x & y & zC & zA & -> & ->).
  exists (Ptr x), (Ptr y), (Ptr zC), (Ptr zA),
    (size_header P n ++
     [Malloc (size_wrap (n * sizeof_double)) (Ptr x);
      Malloc (size_wrap (n * sizeof_double)) (Ptr y);
      Malloc (size_wrap (n * sizeof_double)) (Ptr zC);
      Malloc (size_wrap (n * sizeof_double)) (Ptr zA)]),
    (check_lines (c_result n) (asm_result P n) n ++
     [Printf "Correctness check: %s\n"
        [verdict (check_value (c_result n) (asm_result P n) n)
                 "PASSED - x86-64 kernel output is correct"]] ++
     first_ten_lines "C version result" (c_result n) n ++
     first_ten_lines "x86-64 ASM version result" (asm_result P n) n),
    [Free (Ptr x); Free (Ptr y); Free (Ptr zC); Free (Ptr zA)].
  split; [| split; [| split; [| split; [| split]]]].
  - rewrite E. f_equal. f_equal. f_equal.
    unfold ok_report. rewrite <- ?app_assoc. reflexivity.
  - repeat constructor.
  - unfold no_timing. rewrite !Forall_app.
    split; [apply no_timing_check_lines |].
    split; [repeat constructor |].
    split; apply no_timing_first_ten.
  - repeat constructor.
  - intros c0. apply length_durations.
  - intros c0 i Hi. split.
    + now rewrite durations_lookup.
    + intros ev. now apply timed_runs_lookup.
Qed.

Lemma run_test_timing_witness :
  exists x y zC zA pre mid post,
    run_test steady_platform 4 (mkState ∅ [] 0 0)
    = Some (tt, mkState ∅
        ([] ++ pre
            ++ timed_runs steady_platform (Call KernelC zC x y 2 4) 0 30
            ++ timed_runs steady_platform (Call KernelAsm zA x y 2 4) (0 + 60) 30
            ++ mid
            ++ [Printf "\nAverage kernel execution time (%d runs):\n" [ArgZ 30];
                Printf "  C kernel       : %.6f sec\n"
                  [ArgF (fold_left PrimFloat.add (durations steady_platform 0 30) 0
                         / 30)%float];
                Printf "  x86-64 kernel  : %.6f sec\n"
                  [ArgF (fold_left PrimFloat.add (durations steady_platform (0 + 60) 30) 0
                         / 30)%float]]
            ++ post)
        (0 + 120) (0 + 4))
    /\ no_timing pre /\ no_timing mid /\ no_timing post
    /\ (forall c0, length (durations steady_platform c0 30) = 30%nat)
    /\ (forall c0 i, (i < 30)%nat ->
          durations steady_platform c0 30 !! i
          = Some (double_of_Z (clock_at steady_platform (c0 + 2 * i + 1)
                               - clock_at steady_platform (c0 + 2 * i))
                  / double_of_Z (CLOCKS_PER_SEC steady_platform))%float
          /\ forall ev,
               timed_runs steady_platform ev c0 30 !! (3 * i)%nat
               = Some (Clock (clock_at steady_platform (c0 + 2 * i)))
               /\ timed_runs steady_platform ev c0 30 !! (3 * i + 1)%nat = Some ev
               /\ timed_runs steady_platform ev c0 30 !! (3 * i + 2)%nat
                  = Some (Clock (clock_at steady_platform (c0 + 2 * i + 1)))).
Proof.
  apply (run_test_timing steady_platform 4 ∅ [] 0%nat 0%nat); [lia | reflexivity].
Defined.

(** ** The literal example *)

(** C6, as stated, fails: on the arrays of the example ([x] in block 0,
    [y] in block 1, the output in block 2) [daxpy_c] does not leave
    [15; 16; 17] in the output. *)
Lemma example_15_16_17_counterexample :
  ~ exists s',
      daxpy_c (Ptr 2%nat) (Ptr 0%nat) (Ptr 1%nat) 2 3 (mkState example_heap [] 0 0)
      = Some (tt, s')
      /\ heap s' !! 2%nat = Some [15; 16; 17]%float.
Proof.
  intros (s' & E & Hz).
  rewrite (daxpy_c_run example_heap [] 0 0 2 0 1 [0; 0; 0]%float [1; 2; 3]%float
             [11; 12; 13]%float 2 3) in E; try reflexivity; try (cbn; lia).
  injection E as E. subst s'. cbn [heap] in Hz.
  rewrite lookup_insert_eq in Hz.
  apply (f_equal (fun o => match o with
                           | Some (a :: _) => PrimFloat.eqb a 15
                           | _ => true
                           end)) in Hz.
  vm_compute in Hz. discriminate.
Qed.

(** C6, amended. On [A = 2], [X = [1; 2; 3]], [Y = [11; 12; 13]] the
    reference kernel leaves exactly [13; 16; 19] in the output, and so does
    the assembly kernel when it meets the DAXPY contract; then the check
    passes without a message.  [verify_with_example] prints these values
    ([verify_report]) and leaves the heap as it found it. *)
Theorem example_output P h tr c m :
  (exists x y zC zA,
     verify_with_example P (mkState h tr c m)
     = Some (tt, mkState h (tr ++ verify_report P (Ptr x) (Ptr y) (Ptr zC) (Ptr zA)) c m))
  /\ daxpy_c (Ptr 2%nat) (Ptr 0%nat) (Ptr 1%nat) 2 3 (mkState example_heap tr c m)
     = Some (tt, mkState (<[2%nat := [13; 16; 19]%float]> example_heap)
                         (tr ++ [Call KernelC (Ptr 2%nat) (Ptr 0%nat) (Ptr 1%nat) 2 3]) c m)
  /\ daxpy_asm (contract_platform P) (Ptr 3%nat) (Ptr 0%nat) (Ptr 1%nat) 2 3
               (mkState example_heap tr c m)
     = Some (tt, mkState (<[3%nat := [13; 16; 19]%float]> example_heap)
                         (tr ++ [Call KernelAsm (Ptr 3%nat) (Ptr 0%nat) (Ptr 1%nat) 2 3]) c m)
  /\ example_asm (contract_platform P) = [13; 16; 19]%float
  /\ check_lines [13; 16; 19]%float (example_asm (contract_platform P)) 3 = []
  /\ check_value [13; 16; 19]%float (example_asm (contract_platform P)) 3 = 1.
Proof.
  split; [apply verify_run |].
  split.
  { rewrite (daxpy_c_run example_heap tr c m 2 0 1 [0; 0; 0]%float [1; 2; 3]%float
               [11; 12; 13]%float 2 3); try reflexivity; cbn; lia. }
  split.
  { rewrite (daxpy_asm_run (contract_platform P) example_heap tr c m 3 0 1
               [0; 0; 0]%float [1; 2; 3]%float [11; 12; 13]%float 2 3);
      try reflexivity; cbn; lia. }
  split; [reflexivity |].
  split; vm_compute; reflexivity.
Qed.

(** ** Runs on concrete inputs *)

(** A deviation above [EPS] at the indices 5 and 6: index 5 is reported. *)
Example check_correctness_index_5 :
  check_correctness (Ptr 0%nat) (Ptr 1%nat) 7 (mkState deviation_heap [] 0 0)
  = Some (0, mkState deviation_heap
               [Printf "Mismatch at index %zu: ref=%.15f test=%.15f diff=%.3e\n"
                       [ArgZ 5; ArgF 0; ArgF 0.001; ArgF 0.001]] 0 0).
Proof. vm_compute. reflexivity. Qed.

(** [init_data] on arrays of three doubles. *)
Example init_data_3 :
  init_data (Ptr 2%nat) (Ptr 3%nat) 3 (mkState example_heap [] 0 0)
  = Some (tt, mkState (<[3%nat := [0 * 0.002; 7 * 0.002; 14 * 0.002]%float]>
                         (<[2%nat := [0 * 0.001; 1 * 0.001; 2 * 0.001]%float]>
                            example_heap)) [] 0 0).
Proof. vm_compute. reflexivity. Qed.

(** A benchmark of two elements whose third allocation fails. *)
Example run_test_short :
  run_test short_platform 2 (mkState ∅ [] 0 0)
  = Some (tt, mkState ∅
      [Printf rule [];
       Printf " Vector size n = %zu (2^%d)\n" [ArgZ 2; ArgZ 1];
       Printf rule_end [];
       Malloc 16 (Ptr 0%nat); Malloc 16 (Ptr 1%nat); Malloc 16 NULL; Malloc 16 (Ptr 2%nat);
       Printf "Memory allocation failed.\n" [];
       Free (Ptr 0%nat); Free (Ptr 1%nat); Free NULL; Free (Ptr 2%nat)] 0 4).
Proof. vm_compute. reflexivity. Qed.

(** The verification example with an assembly kernel that stores 0: the
    first mismatch is reported and the verdict is FAILED. *)
Example verify_broken_kernel :
  verify_with_example broken_platform (mkState ∅ [] 0 0)
  = Some (tt, mkState ∅
      ([Printf rule []; Printf " PROCESS VERIFICATION\n" []; Printf rule_end [];
        Printf "Input:\n" [];
        Printf "  A --> %.1f\n" [ArgF 2];
        Printf "  x --> %.1f, %.1f, %.1f\n" [ArgF 1; ArgF 2; ArgF 3];
        Printf "  y --> %.1f, %.1f, %.1f\n" [ArgF 11; ArgF 12; ArgF 13];
        Printf "\nProcess (DAXPY: Z = A*X + Y):\n" [];
        Printf "  z[%zu] = %.1f * %.1f + %.1f = %.1f\n"
               [ArgZ 0; ArgF 2; ArgF 1; ArgF 11; ArgF 13];
        Printf "  z[%zu] = %.1f * %.1f + %.1f = %.1f\n"
               [ArgZ 1; ArgF 2; ArgF 2; ArgF 12; ArgF 16];
        Printf "  z[%zu] = %.1f * %.1f + %.1f = %.1f\n"
               [ArgZ 2; ArgF 2; ArgF 3; ArgF 13; ArgF 19];
        Call KernelC (Ptr 2%nat) (Ptr 0%nat) (Ptr 1%nat) 2 3;
        Call KernelAsm (Ptr 3%nat) (Ptr 0%nat) (Ptr 1%nat) 2 3;
        Printf "\nOutput (C kernel):\n" [];
        Printf "  z --> %.1f, %.1f, %.1f\n" [ArgF 13; ArgF 16; ArgF 19];
        Printf "\nOutput (x86-64 ASM kernel):\n" [];
        Printf "  z --> %.1f, %.1f, %.1f\n" [ArgF 0; ArgF 0; ArgF 0];
        Printf "Mismatch at index %zu: ref=%.15f test=%.15f diff=%.3e\n"
               [ArgZ 0; ArgF 13; ArgF 0; ArgF 13];
        Printf "\nCorrectness: %s\n" [ArgS "FAILED"]]) 0 0).
Proof. vm_compute. reflexivity. Qed.

(** One timed run on the steady platform lasts 5 ticks of 1/1000 s. *)
Example time_c_steady :
  fst <$> time_c steady_platform (Ptr 2%nat) (Ptr 0%nat) (Ptr 1%nat) 2 3
                 (mkState example_heap [] 0 0)
  = Some 0.005%float.
Proof. vm_compute. reflexivity. Qed.

(** * Further properties of the code *)

(** ** Loops that run out of their arrays *)

Lemma bind_ext {A B} (m : M A) (k1 k2 : A -> M B) s :
  (forall a s', k1 a s' = k2 a s') -> bind m k1 s = bind m k2 s.
Proof. intros H. unfold bind. destruct (m s) as [[a s']|]; [apply H | reflexivity]. Qed.

Lemma for_loop_app body a : forall b i s,
  for_loop (a + b) i body s
  = bind (for_loop a i body) (fun _ => for_loop b (i + Z.of_nat a) body) s.
Proof.
  induction a as [|a IH]; intros b i s.
  - cbn [Nat.add for_loop]. rewrite bind_ret. now rewrite Z.add_0_r.
  - cbn [Nat.add for_loop]. rewrite bind_assoc. apply bind_ext. intros _ s'.
    rewrite IH. replace (i + 1 + Z.of_nat a) with (i + Z.of_nat (S a)) by lia.
    reflexivity.
Qed.

Lemma load_fail h tr c m b l i :
  h !! b = Some l -> (length l <= Z.to_nat i)%nat ->
  load (Ptr b) i (mkState h tr c m) = None.
Proof.
  intros Hb Hi. unfold load. cbn. rewrite Hb.
  now rewrite (proj2 (lookup_ge_None l (Z.to_nat i)) Hi).
Qed.

Lemma store_fail h tr c m b l i v :
  h !! b = Some l -> (length l <= Z.to_nat i)%nat ->
  store (Ptr b) i v (mkState h tr c m) = None.
Proof.
  intros Hb Hi. unfold store. cbn. rewrite Hb.
  destruct (decide (Z.to_nat i < length l)%nat); [lia | reflexivity].
Qed.

(** X1. [print_first_ten] prints the label line and then one line for each
    of the first [min 10 n] elements, in order, and changes nothing else.
    It reads no other element: it is defined exactly when the array has
    [min 10 n] elements, however large [n] is. *)
Theorem print_first_ten_bounded label h tr c m bz zs n :
  h !! bz = Some zs ->
  ((Z.to_nat (Z.min 10 n) <= length zs)%nat ->
     print_first_ten label (Ptr bz) n (mkState h tr c m)
     = Some (tt, mkState h (tr ++ first_ten_lines label zs n) c m))
  /\ ((length zs < Z.to_nat (Z.min 10 n))%nat ->
      print_first_ten label (Ptr bz) n (mkState h tr c m) = None)
  /\ length (first_ten_lines label zs n) = S (Z.to_nat (Z.min 10 n))
  /\ (forall (i : nat) zi, (i < Z.to_nat (Z.min 10 n))%nat -> zs !! i = Some zi ->
        first_ten_lines label zs n !! S i
        = Some (Printf "  Z[%2zu] = %.6f\n" [ArgZ (Z.of_nat i); ArgF zi])).
Proof.
  intros Hz. split; [| split; [| split]].
  - intros L. now apply print_first_ten_run.
  - intros L.
    pose proof (print_first_ten_run label h tr c m bz zs (Z.of_nat (length zs)) Hz
                  ltac:(lia)) as Hpre.
    unfold print_first_ten in *.
    rewrite (bind_run _ _ _ tt (mkState h (tr ++ [Printf "%s (first 10):\n" [ArgS label]]) c m))
      in Hpre by reflexivity.
    rewrite (bind_run _ _ _ tt (mkState h (tr ++ [Printf "%s (first 10):\n" [ArgS label]]) c m))
      by reflexivity.
    replace (Z.to_nat (Z.min 10 (Z.of_nat (length zs)))) with (length zs) in Hpre by lia.
    replace (Z.to_nat (Z.min 10 n))
      with (length zs + S (Z.to_nat (Z.min 10 n) - S (length zs)))%nat by lia.
    rewrite for_loop_app, (bind_run _ _ _ _ _ Hpre).
    cbn [for_loop]. unfold bind.
    rewrite (load_fail h _ c m bz zs (0 + Z.of_nat (length zs)) Hz) by lia.
    reflexivity.
  - unfold first_ten_lines. cbn [length]. now rewrite length_fmap, length_seq.
  - intros i zi Hi Hzi. unfold first_ten_lines.
    change ((?e :: ?l) !! S i) with (l !! i).
    rewrite list_lookup_fmap.
    assert (Hs : seq 0 (Z.to_nat (Z.min 10 n)) !! i = Some i) by (apply lookup_seq; lia).
    rewrite Hs. cbn [fmap option_fmap option_map].
    now rewrite (nth_lookup_Some _ _ 0%float _ Hzi).
Qed.

Lemma print_first_ten_bounded_witness :
  ((Z.to_nat (Z.min 10 1000) <= length [1; 2; 3]%float)%nat ->
     print_first_ten "x" (Ptr 0%nat) 1000 (mkState example_heap [] 0 0)
     = Some (tt, mkState example_heap
                   ([] ++ first_ten_lines "x" [1; 2; 3]%float 1000) 0 0))
  /\ ((length [1; 2; 3]%float < Z.to_nat (Z.min 10 1000))%nat ->
      print_first_ten "x" (Ptr 0%nat) 1000 (mkState example_heap [] 0 0) = None)
  /\ length (first_ten_lines "x" [1; 2; 3]%float 1000) = S (Z.to_nat (Z.min 10 1000))
  /\ (forall (i : nat) zi, (i < Z.to_nat (Z.min 10 1000))%nat ->
        [1; 2; 3]%float !! i = Some zi ->
        first_ten_lines "x" [1; 2; 3]%float 1000 !! S i
        = Some (Printf "  Z[%2zu] = %.6f\n" [ArgZ (Z.of_nat i); ArgF zi])).
Proof.
  apply (print_first_ten_bounded "x" example_heap [] 0%nat 0%nat 0%nat
           [1; 2; 3]%float 1000).
  reflexivity.
Defined.

(** ** More on [check_correctness] *)

Lemma check_loop_stop h tr c m br bt rs ts j :
  h !! br = Some rs -> h !! bt = Some ts ->
  (j < length rs)%nat -> (j < length ts)%nat ->
  forall k i, find_exceed k i rs ts = Some j ->
  check_loop k (Z.of_nat i) (Ptr br) (Ptr bt) (mkState h tr c m)
  = Some (0, mkState h (tr ++ [mismatch_line j (nth j rs 0%float) (nth j ts 0%float)]) c m).
Proof.
  intros Hr Ht Lr Lt. induction k as [|k IH]; intros i E; [discriminate |].
  destruct (find_exceed_Some _ _ _ _ _ E) as (Hij & _ & _).
  cbn [check_loop find_exceed] in *.
  destruct (lookup_lt_is_Some_2 rs i ltac:(lia)) as [r Hri].
  destruct (lookup_lt_is_Some_2 ts i ltac:(lia)) as [t Hti].
  rewrite (bind_run _ _ _ r (mkState h tr c m))
    by (apply load_run with rs; [assumption | now rewrite Nat2Z.id]).
  rewrite (bind_run _ _ _ t (mkState h tr c m))
    by (apply load_run with ts; [assumption | now rewrite Nat2Z.id]).
  rewrite (nth_lookup_Some _ _ 0%float _ Hri), (nth_lookup_Some _ _ 0%float _ Hti) in E.
  change (EPS <? abs (r - t))%float with (exceeds r t).
  destruct (exceeds r t).
  - injection E as <-.
    rewrite (bind_run _ _ _ r (mkState h tr c m))
      by (apply load_run with rs; [assumption | now rewrite Nat2Z.id]).
    rewrite (bind_run _ _ _ t (mkState h tr c m))
      by (apply load_run with ts; [assumption | now rewrite Nat2Z.id]).
    rewrite (nth_lookup_Some _ _ 0%float _ Hri), (nth_lookup_Some _ _ 0%float _ Hti).
    reflexivity.
  - replace (Z.of_nat i + 1) with (Z.of_nat (S i)) by lia. now apply IH.
Qed.

Lemma find_exceed_first k : forall i rs ts j,
  (i <= j < i + k)%nat ->
  exceeds (nth j rs 0%float) (nth j ts 0%float) = true ->
  (forall j', (i <= j' < j)%nat ->
     exceeds (nth j' rs 0%float) (nth j' ts 0%float) = false) ->
  find_exceed k i rs ts = Some j.
Proof.
  induction k as [|k IH]; intros i rs ts j Hj Hex Hmin; [lia |].
  cbn [find_exceed]. destruct (decide (i = j)) as [->|Hne].
  - now rewrite Hex.
  - rewrite Hmin by lia. apply IH; [lia | assumption |]. intros j' Hj'. apply Hmin. lia.
Qed.

(** X2. [check_correctness] returns at the first mismatch without looking
    further: when the difference at index [j < n] exceeds [EPS] and none
    before it does, the result is 0 with one line for index [j], whatever
    follows index [j], even when the arrays end there. *)
Theorem check_correctness_stops_at_first h tr c m br bt rs ts n (j : nat) r t :
  h !! br = Some rs -> h !! bt = Some ts ->
  rs !! j = Some r -> ts !! j = Some t ->
  Z.of_nat j < n ->
  exceeds r t = true ->
  (forall (i : nat) r' t', (i < j)%nat ->
     rs !! i = Some r' -> ts !! i = Some t' -> exceeds r' t' = false) ->
  check_correctness (Ptr br) (Ptr bt) n (mkState h tr c m)
  = Some (0, mkState h (tr ++ [mismatch_line j r t]) c m).
Proof.
  intros Hr Ht Hrj Htj Hjn Hex Hmin.
  pose proof (lookup_lt_Some _ _ _ Hrj) as Lr. pose proof (lookup_lt_Some _ _ _ Htj) as Lt.
  unfold check_correctness. change 0 with (Z.of_nat 0) at 1.
  rewrite (check_loop_stop h tr c m br bt rs ts j Hr Ht Lr Lt (Z.to_nat n) 0%nat).
  - now rewrite (nth_lookup_Some _ _ 0%float _ Hrj), (nth_lookup_Some _ _ 0%float _ Htj).
  - apply find_exceed_first; [lia | |].
    + now rewrite (nth_lookup_Some _ _ 0%float _ Hrj), (nth_lookup_Some _ _ 0%float _ Htj).
    + intros i Hi.
      destruct (lookup_lt_is_Some_2 rs i ltac:(lia)) as [r' Hr'].
      destruct (lookup_lt_is_Some_2 ts i ltac:(lia)) as [t' Ht'].
      rewrite (nth_lookup_Some _ _ 0%float _ Hr'), (nth_lookup_Some _ _ 0%float _ Ht').
      apply (Hmin i); (assumption || lia).
Qed.

(** Arrays of two doubles, checked as if they had a million. *)
Lemma check_correctness_stops_at_first_witness :
  check_correctness (Ptr 0%nat) (Ptr 1%nat) 1000000 (mkState short_heap [] 0 0)
  = Some (0, mkState short_heap ([] ++ [mismatch_line 1 1 3]) 0 0).
Proof.
  apply (check_correctness_stops_at_first short_heap
           [] 0%nat 0%nat 0%nat 1%nat [nan; 1]%float [0; 3]%float 1000000 1%nat 1%float 3%float);
    try reflexivity.
  intros [|i] r' t' Hi Hr' Ht'; [| lia].
  injection Hr' as <-. injection Ht' as <-. reflexivity.
Defined.

(** *** The check does not depend on which array is the reference *)

Lemma SFabs_round_aux_sign prec emax s mx ex lx :
  SFabs (binary_round_aux prec emax s mx ex lx)
  = SFabs (binary_round_aux prec emax (negb s) mx ex lx).
Proof.
  unfold binary_round_aux.
  destruct (shr_fexp prec emax mx ex lx) as [mrs' e'].
  destruct (shr_fexp prec emax _ e' loc_Exact) as [mrs'' e''].
  destruct (shr_m mrs''); try reflexivity.
  destruct (e'' <=? emax - prec); reflexivity.
Qed.

Lemma SFabs_normalize_opp prec emax m e :
  SFabs (binary_normalize prec emax (- m) e false)
  = SFabs (binary_normalize prec emax m e false).
Proof.
  destruct m as [|p|p]; unfold Z.opp; cbn [binary_normalize]; try reflexivity;
    unfold binary_round;
    destruct (shl_align _ _ _) as [mz ez];
    [apply (SFabs_round_aux_sign prec emax true)
    | apply (SFabs_round_aux_sign prec emax false)].
Qed.

Lemma SFabs_sub_comm prec emax x y :
  SFabs (SFsub prec emax x y) = SFabs (SFsub prec emax y x).
Proof.
  destruct x as [sx | sx | | sx mx ex], y as [sy | sy | | sy my ey];
    try reflexivity; try (destruct sx, sy; reflexivity).
  unfold SFsub. rewrite (Z.min_comm ey ex).
  rewrite <- SFabs_normalize_opp. f_equal. f_equal. lia.
Qed.

(** [fabs(r - t)] and [fabs(t - r)] are the same double. *)
Lemma abs_sub_comm r t : abs (r - t) = abs (t - r).
Proof.
  rewrite <- (FloatAxioms.SF2Prim_Prim2SF (abs (r - t))),
    <- (FloatAxioms.SF2Prim_Prim2SF (abs (t - r))).
  f_equal. rewrite !FloatAxioms.abs_spec, !FloatAxioms.sub_spec.
  apply SFabs_sub_comm.
Qed.

Lemma exceeds_comm r t : exceeds r t = exceeds t r.
Proof. unfold exceeds. now rewrite abs_sub_comm. Qed.

Lemma find_exceed_comm k : forall i rs ts,
  find_exceed k i rs ts = find_exceed k i ts rs.
Proof.
  induction k as [|k IH]; intros i rs ts; [reflexivity |].
  cbn [find_exceed]. now rewrite exceeds_comm, IH.
Qed.

(** X3. Exchanging the reference and the tested array changes neither the
    result of [check_correctness] nor the index it reports nor the
    difference it prints ([fabs(r - t)] and [fabs(t - r)] are the same
    double); only the two printed values change places. *)
Theorem check_correctness_symmetric h tr c m br bt rs ts n :
  h !! br = Some rs -> h !! bt = Some ts ->
  (Z.to_nat n <= length rs)%nat -> (Z.to_nat n <= length ts)%nat ->
  exists ok,
    check_correctness (Ptr br) (Ptr bt) n (mkState h tr c m)
    = Some (ok, mkState h (tr ++ check_lines rs ts n) c m)
    /\ check_correctness (Ptr bt) (Ptr br) n (mkState h tr c m)
      = Some (ok, mkState h (tr ++ check_lines ts rs n) c m)
    /\ (check_lines rs ts n = [] /\ check_lines ts rs n = []
        \/ exists (j : nat) r t,
             rs !! j = Some r /\ ts !! j = Some t
             /\ check_lines rs ts n = [mismatch_line j r t]
             /\ check_lines ts rs n = [mismatch_line j t r]
             /\ abs (r - t) = abs (t - r)).
Proof.
  intros Hr Ht Lr Lt. exists (check_value rs ts n).
  split; [now apply check_correctness_run' |].
  split.
  - rewrite (check_correctness_run' h tr c m bt br ts rs n) by assumption.
    unfold check_value. now rewrite find_exceed_comm.
  - unfold check_lines. rewrite (find_exceed_comm _ _ ts rs).
    destruct (find_exceed (Z.to_nat n) 0 rs ts) as [j|] eqn:E; [right | now left].
    destruct (find_exceed_Some _ _ _ _ _ E) as (Hj & _ & _).
    destruct (lookup_lt_is_Some_2 rs j ltac:(lia)) as [r Hrj].
    destruct (lookup_lt_is_Some_2 ts j ltac:(lia)) as [t Htj].
    exists j, r, t.
    rewrite (nth_lookup_Some _ _ 0%float _ Hrj), (nth_lookup_Some _ _ 0%float _ Htj).
    repeat split; try assumption. apply abs_sub_comm.
Qed.

Lemma check_correctness_symmetric_witness :
  exists ok,
    check_correctness (Ptr 0%nat) (Ptr 1%nat) 2 (mkState short_heap [] 0 0)
    = Some (ok, mkState short_heap ([] ++ check_lines [nan; 1]%float [0; 3]%float 2) 0 0)
    /\ check_correctness (Ptr 1%nat) (Ptr 0%nat) 2 (mkState short_heap [] 0 0)
      = Some (ok, mkState short_heap ([] ++ check_lines [0; 3]%float [nan; 1]%float 2) 0 0)
    /\ (check_lines [nan; 1]%float [0; 3]%float 2 = []
        /\ check_lines [0; 3]%float [nan; 1]%float 2 = []
        \/ exists (j : nat) r t,
             [nan; 1]%float !! j = Some r /\ [0; 3]%float !! j = Some t
             /\ check_lines [nan; 1]%float [0; 3]%float 2 = [mismatch_line j r t]
             /\ check_lines [0; 3]%float [nan; 1]%float 2 = [mismatch_line j t r]
             /\ abs (r - t) = abs (t - r)).
Proof.
  apply (check_correctness_symmetric short_heap [] 0%nat 0%nat 0%nat 1%nat
           [nan; 1]%float [0; 3]%float 2); try reflexivity; simpl; lia.
Defined.

(** ** The memory the kernel needs *)

(** The first [k] iterations of the loop of [daxpy_c]. *)
Lemma daxpy_loop_run h tr c m bz bx by_ zs xs ys A k :
  h !! bz = Some zs -> h !! bx = Some xs -> h !! by_ = Some ys ->
  (k <= length zs)%nat -> (k <= length xs)%nat -> (k <= length ys)%nat ->
  for_loop k 0 (fun i => let* xi := load (Ptr bx) i in
                         let* yi := load (Ptr by_) i in
                         store (Ptr bz) i (A * xi + yi)%float) (mkState h tr c m)
  = Some (tt, mkState (<[bz := daxpy_block A xs ys zs k]> h) tr c m).
Proof.
  intros Hz Hx Hy Lz Lx Ly.
  destruct (for_loop_inv
    (fun i => let* xi := load (Ptr bx) i in
              let* yi := load (Ptr by_) i in
              store (Ptr bz) i (A * xi + yi)%float)
    k
    (fun j s => s = mkState (<[bz := daxpy_block A xs ys zs j]> h) tr c m)
    0 (mkState h tr c m)) as (s' & Hrun & ->).
  - rewrite daxpy_block_0, insert_id by assumption. reflexivity.
  - intros j s1 Hj ->. rewrite Z.add_0_l.
    destruct (lookup_lt_is_Some_2 xs j ltac:(lia)) as [xj Hxj].
    destruct (lookup_lt_is_Some_2 ys j ltac:(lia)) as [yj Hyj].
    eexists. split; [| reflexivity].
    assert (Hin : forall b l, h !! b = Some l -> (b = bz -> l = zs) ->
              exists l', (<[bz := daxpy_block A xs ys zs j]> h) !! b = Some l'
                         /\ l' !! j = l !! j).
    { intros b l Hb Heq. destruct (decide (b = bz)) as [->|Hne].
      - rewrite lookup_insert_eq. eexists. split; [reflexivity |].
        rewrite (Heq eq_refl). apply daxpy_block_lookup_ge; lia.
      - rewrite lookup_insert_ne by congruence. eauto. }
    destruct (Hin bx xs Hx) as (lx & Hlx & Hlxj); [intros ->; congruence |].
    destruct (Hin by_ ys Hy) as (ly & Hly & Hlyj); [intros ->; congruence |].
    rewrite (bind_run _ _ _ xj (mkState (<[bz := daxpy_block A xs ys zs j]> h) tr c m)).
    2:{ apply load_run with lx; [assumption |]. rewrite Nat2Z.id. congruence. }
    rewrite (bind_run _ _ _ yj (mkState (<[bz := daxpy_block A xs ys zs j]> h) tr c m)).
    2:{ apply load_run with ly; [assumption |]. rewrite Nat2Z.id. congruence. }
    rewrite (store_run _ _ _ _ bz (daxpy_block A xs ys zs j)).
    + rewrite Nat2Z.id, insert_insert_eq, (daxpy_block_step A xs ys zs j xj yj)
        by (assumption || lia).
      reflexivity.
    + apply lookup_insert_eq.
    + rewrite Nat2Z.id, daxpy_block_length by lia. lia.
  - assumption.
Qed.

(** X4. [daxpy_c] reads [x[i]] and [y[i]] and writes [z[i]] for every
    [i < n], and nothing checks [n] against the arrays: on three live
    arrays (which may be the same one) the call has a defined result
    exactly when each of them holds at least [n] elements.  With one array
    shorter than [n] the loop runs into its end. *)
Theorem daxpy_c_defined_iff h tr c m bz bx by_ zs xs ys A n :
  h !! bz = Some zs -> h !! bx = Some xs -> h !! by_ = Some ys ->
  is_Some (daxpy_c (Ptr bz) (Ptr bx) (Ptr by_) A n (mkState h tr c m))
  <-> (Z.to_nat n <= length zs)%nat /\ (Z.to_nat n <= length xs)%nat
      /\ (Z.to_nat n <= length ys)%nat.
Proof.
  intros Hz Hx Hy. split.
  2:{ intros (Lz & Lx & Ly). rewrite (daxpy_c_run h tr c m bz bx by_ zs xs ys A n)
        by assumption. eauto. }
  intros Hsome.
  destruct (decide ((Z.to_nat n <= length zs)%nat /\ (Z.to_nat n <= length xs)%nat
                    /\ (Z.to_nat n <= length ys)%nat)) as [|Hshort]; [assumption |].
  exfalso. revert Hsome.
  set (k := (length zs `min` (length xs `min` length ys))%nat).
  assert (Hk : (k < Z.to_nat n)%nat) by lia.
  unfold daxpy_c.
  rewrite (bind_run _ _ _ tt
             (mkState h (tr ++ [Call KernelC (Ptr bz) (Ptr bx) (Ptr by_) A n]) c m))
    by reflexivity.
  set (tr' := tr ++ _).
  replace (Z.to_nat n) with (k + S (Z.to_nat n - S k))%nat by lia.
  rewrite for_loop_app.
  rewrite (bind_run _ _ _ _ _
             (daxpy_loop_run h tr' c m bz bx by_ zs xs ys A k Hz Hx Hy
                ltac:(lia) ltac:(lia) ltac:(lia))).
  cbn [for_loop]. rewrite Z.add_0_l.
  set (D := daxpy_block A xs ys zs k).
  assert (LD : length D = length zs) by (apply daxpy_block_length; lia).
  assert (Hin : forall b l, h !! b = Some l -> (b = bz -> l = zs) ->
            exists l', (<[bz := D]> h) !! b = Some l' /\ length l' = length l).
  { intros b l Hb Heq. destruct (decide (b = bz)) as [->|Hne].
    - rewrite lookup_insert_eq. eexists. split; [reflexivity |].
      now rewrite (Heq eq_refl).
    - rewrite lookup_insert_ne by congruence. eauto. }
  destruct (Hin bx xs Hx) as (lx & Hlx & Llx); [intros ->; congruence |].
  destruct (Hin by_ ys Hy) as (ly & Hly & Lly); [intros ->; congruence |].
  intros [r Hr]. revert Hr. unfold bind at 1. unfold bind at 1.
  destruct (decide (length xs <= k)%nat) as [Sx|Sx].
  { rewrite (load_fail _ _ _ _ bx lx (Z.of_nat k) Hlx) by (rewrite Nat2Z.id; lia).
    discriminate. }
  destruct (lookup_lt_is_Some_2 lx k ltac:(lia)) as [xk Hxk].
  rewrite (load_run _ _ _ _ bx lx (Z.of_nat k) xk Hlx) by (now rewrite Nat2Z.id).
  unfold bind at 1.
  destruct (decide (length ys <= k)%nat) as [Sy|Sy].
  { rewrite (load_fail _ _ _ _ by_ ly (Z.of_nat k) Hly) by (rewrite Nat2Z.id; lia).
    discriminate. }
  destruct (lookup_lt_is_Some_2 ly k ltac:(lia)) as [yk Hyk].
  rewrite (load_run _ _ _ _ by_ ly (Z.of_nat k) yk Hly) by (now rewrite Nat2Z.id).
  rewrite (store_fail _ _ _ _ bz D (Z.of_nat k)) by
    (first [apply lookup_insert_eq | rewrite Nat2Z.id; lia]).
  discriminate.
Qed.

(** Arrays of three doubles, with the length 5. *)
Lemma daxpy_c_defined_iff_witness :
  is_Some (daxpy_c (Ptr 2%nat) (Ptr 0%nat) (Ptr 1%nat) 2 5 (mkState example_heap [] 0 0))
  <-> (Z.to_nat 5 <= length [0; 0; 0]%float)%nat
      /\ (Z.to_nat 5 <= length [1; 2; 3]%float)%nat
      /\ (Z.to_nat 5 <= length [11; 12; 13]%float)%nat.
Proof.
  apply (daxpy_c_defined_iff example_heap [] 0%nat 0%nat 2%nat 0%nat 1%nat
           [0; 0; 0]%float [1; 2; 3]%float [11; 12; 13]%float 2%float 5);
    reflexivity.
Defined.

(** ** The size of the buffers of [run_test] *)

Lemma wrapped_size n :
  0 <= n -> size_wrap (n * sizeof_double) / sizeof_double = n mod 2 ^ 61.
Proof.
  intros Hn. unfold size_wrap, sizeof_double.
  change (2 ^ 64) with (8 * 2 ^ 61).
  rewrite (Z.mul_comm n 8), Z.mul_mod_distr_l by lia.
  rewrite (Z.mul_comm 8), Z.div_mul by lia. reflexivity.
Qed.

(** X5. [run_test] asks [malloc] for [n * sizeof(double)] bytes, a product
    of two [size_t] that wraps: from [n = 2^61] on the four buffers hold
    only [n mod 2^61] doubles, fewer than [n], and when the allocations
    succeed [init_data] writes past the end of [x].  The run has no defined
    result (the sizes [main] uses are far below). *)
Theorem run_test_size_overflow P n h tr c m :
  2 ^ 61 <= n < 2 ^ 64 ->
  alloc_fails P m n = false ->
  size_wrap (n * sizeof_double) / sizeof_double = n mod 2 ^ 61
  /\ n mod 2 ^ 61 < n
  /\ run_test P n (mkState h tr c m) = None.
Proof.
  intros Hn Hok.
  pose proof (wrapped_size n ltac:(lia)) as Hw.
  assert (Hlt : n mod 2 ^ 61 < n).
  { pose proof (Z.mod_pos_bound n (2 ^ 61) ltac:(lia)). lia. }
  split; [assumption |]. split; [assumption |].
  unfold run_test.
  set (bytes := size_wrap (n * sizeof_double)) in *.
  set (N := Z.to_nat (bytes / sizeof_double)).
  assert (HN : (N < Z.to_nat n)%nat).
  { unfold N. rewrite Hw. pose proof (Z.mod_pos_bound n (2 ^ 61) ltac:(lia)). lia. }
  do 3 step_printf.
  rewrite <- ?app_assoc. cbn [app]. fold (size_header P n).
  destruct (malloc_run P h h N [] bytes (tr ++ size_header P n) c m
              (buffers_nil h N) eq_refl) as (p1 & H1 & E1 & B1 & N1).
  rewrite (bind_run _ _ _ _ _ E1).
  destruct (malloc_run P h H1 N [p1] bytes
              ((tr ++ size_header P n) ++ [Malloc bytes p1]) c (S m) B1 eq_refl)
    as (p2 & H2 & E2 & B2 & N2).
  rewrite (bind_run _ _ _ _ _ E2).
  destruct (malloc_run P h H2 N [p2; p1] bytes
              (((tr ++ size_header P n) ++ [Malloc bytes p1]) ++ [Malloc bytes p2])
              c (S (S m)) B2 eq_refl)
    as (p3 & H3 & E3 & B3 & N3).
  rewrite (bind_run _ _ _ _ _ E3).
  destruct (malloc_run P h H3 N [p3; p2; p1] bytes
              ((((tr ++ size_header P n) ++ [Malloc bytes p1]) ++ [Malloc bytes p2])
                 ++ [Malloc bytes p3])
              c (S (S (S m))) B3 eq_refl)
    as (p4 & H4 & E4 & B4 & N4).
  rewrite (bind_run _ _ _ _ _ E4).
  clear E1 E2 E3 E4 B1 B2 B3.
  unfold alloc_fails in Hok. fold bytes in Hok.
  apply negb_false_iff in Hok.
  apply andb_prop in Hok as [Hok O4]. apply andb_prop in Hok as [Hok O3].
  apply andb_prop in Hok as [O1 O2].
  rewrite O1 in N1. rewrite O2 in N2. rewrite O3 in N3. rewrite O4 in N4.
  destruct (is_null_false _ N1) as [b1 ->]. destruct (is_null_false _ N2) as [b2 ->].
  destruct (is_null_false _ N3) as [b3 ->]. destruct (is_null_false _ N4) as [b4 ->].
  cbn [is_null orb].
  pose proof (buffers_distinct _ _ _ _ 3%nat 2%nat _ _ B4 eq_refl eq_refl ltac:(lia)) as D12.
  cbn in D12.
  destruct (proj1 B4 b1 ltac:(rewrite !elem_of_cons; tauto)) as (_ & l1 & L1 & Len1).
  destruct (proj1 B4 b2 ltac:(rewrite !elem_of_cons; tauto)) as (_ & l2 & L2 & Len2).
  unfold bind at 1. unfold init_data.
  replace (Z.to_nat n) with (N + S (Z.to_nat n - S N))%nat by lia.
  rewrite for_loop_app.
  pose proof (init_data_run H4
                (((((tr ++ size_header P n) ++ [Malloc bytes (Ptr b1)])
                    ++ [Malloc bytes (Ptr b2)]) ++ [Malloc bytes (Ptr b3)])
                   ++ [Malloc bytes (Ptr b4)])
                c (S (S (S (S m)))) b1 b2 l1 l2 (Z.of_nat N)
                ltac:(congruence) L1 L2 ltac:(lia) ltac:(lia)) as Hpre.
  unfold init_data in Hpre. rewrite Nat2Z.id in Hpre.
  rewrite (bind_run _ _ _ _ _ Hpre).
  cbn [for_loop]. unfold bind at 1. unfold bind at 1.
  rewrite (store_fail _ _ _ _ b1 (filled (fun i => init_x (Z.of_nat i)) l1 N)).
  - reflexivity.
  - rewrite lookup_insert_ne, lookup_insert_eq by congruence. reflexivity.
  - rewrite filled_length by lia. lia.
Qed.

Lemma run_test_size_overflow_witness :
  size_wrap ((2 ^ 61 + 3) * sizeof_double) / sizeof_double = (2 ^ 61 + 3) mod 2 ^ 61
  /\ (2 ^ 61 + 3) mod 2 ^ 61 < 2 ^ 61 + 3
  /\ run_test steady_platform (2 ^ 61 + 3) (mkState ∅ [] 0 0) = None.
Proof.
  apply (run_test_size_overflow steady_platform (2 ^ 61 + 3) ∅ [] 0%nat 0%nat);
    [lia | reflexivity].
Defined.

(** ** Allocation and release *)

Lemma allocated_app a b : allocated (a ++ b) = allocated a ++ allocated b.
Proof. apply omap_app. Qed.

Lemma freed_app a b : freed (a ++ b) = freed a ++ freed b.
Proof. apply omap_app. Qed.

Lemma no_alloc_nil l :
  Forall (fun e => is_alloc e = false) l -> allocated l = [] /\ freed l = [].
Proof.
  induction 1 as [|e l He _ [IHa IHf]]; [split; reflexivity |].
  unfold allocated, freed in *. cbn [omap list_omap].
  destruct e; try discriminate; cbn; rewrite ?IHa, ?IHf; split; reflexivity.
Qed.

Lemma no_alloc_timed_runs P k z x y A n j : forall c,
  Forall (fun e => is_alloc e = false) (timed_runs P (Call k z x y A n) c j).
Proof.
  induction j as [|j IH]; intros c; cbn [timed_runs]; [constructor |].
  repeat (constructor; [reflexivity |]). apply IH.
Qed.

Lemma no_alloc_first_ten label zs n :
  Forall (fun e => is_alloc e = false) (first_ten_lines label zs n).
Proof.
  unfold first_ten_lines. constructor; [reflexivity |].
  apply Forall_fmap, Forall_true. reflexivity.
Qed.

Lemma no_alloc_check_lines rs ts n :
  Forall (fun e => is_alloc e = false) (check_lines rs ts n).
Proof. unfold check_lines. destruct (find_exceed _ _ _ _); repeat constructor. Qed.

Lemma no_alloc_verify_report P x y zC zA :
  Forall (fun e => is_alloc e = false) (verify_report P x y zC zA).
Proof.
  unfold verify_report. rewrite !Forall_app.
  split; [repeat constructor |].
  split; [apply no_alloc_check_lines | repeat constructor].
Qed.

Lemma ok_report_balanced P n x y zC zA c :
  allocated (ok_report P n x y zC zA c) = [x; y; zC; zA]
  /\ freed (ok_report P n x y zC zA c) = [x; y; zC; zA].
Proof.
  unfold ok_report. rewrite !allocated_app, !freed_app.
  destruct (no_alloc_nil _ (no_alloc_timed_runs P KernelC zC x y 2 n (Z.to_nat RUNS) c))
    as [-> ->].
  destruct (no_alloc_nil _ (no_alloc_timed_runs P KernelAsm zA x y 2 n (Z.to_nat RUNS)
                              (c + 2 * Z.to_nat RUNS))) as [-> ->].
  destruct (no_alloc_nil _ (no_alloc_check_lines (c_result n) (asm_result P n) n))
    as [-> ->].
  destruct (no_alloc_nil _ (no_alloc_first_ten "C version result" (c_result n) n))
    as [-> ->].
  destruct (no_alloc_nil _ (no_alloc_first_ten "x86-64 ASM version result"
                              (asm_result P n) n)) as [-> ->].
  split; reflexivity.
Qed.

Lemma bench_balanced P n c m evs c' :
  bench_outcome P n c m evs c' ->
  exists p1 p2 p3 p4,
    allocated evs = [p1; p2; p3; p4] /\ freed evs = [p1; p2; p3; p4]
    /\ c' = (c + clock_reads P m n)%nat.
Proof.
  unfold bench_outcome, clock_reads. destruct (alloc_fails P m n).
  - intros (p1 & p2 & p3 & p4 & -> & ->). exists p1, p2, p3, p4.
    split; [reflexivity |]. split; [reflexivity | lia].
  - intros (x & y & zC & zA & -> & ->).
    exists (Ptr x), (Ptr y), (Ptr zC), (Ptr zA).
    destruct (ok_report_balanced P n (Ptr x) (Ptr y) (Ptr zC) (Ptr zA) c) as [-> ->].
    split; [reflexivity |]. split; reflexivity.
Qed.

(** X6. For every size below [2^61], on every platform and whichever
    allocations fail, [run_test] returns with the heap it was entered with;
    it calls [malloc] four times and [free] four times, on the four pointers
    [malloc] returned and in the same order, and reads the clock 120 times
    when the buffers exist and never otherwise. *)
Theorem run_test_frees_what_it_allocates P n h tr c m :
  0 <= n < 2 ^ 61 ->
  exists evs p1 p2 p3 p4,
    run_test P n (mkState h tr c m)
    = Some (tt, mkState h (tr ++ evs) (c + clock_reads P m n) (m + 4))
    /\ allocated evs = [p1; p2; p3; p4]
    /\ freed evs = [p1; p2; p3; p4].
Proof.
  intros Hn.
  destruct (run_test_run P n h tr c m Hn) as (evs & c' & E & O).
  destruct (bench_balanced _ _ _ _ _ _ O) as (p1 & p2 & p3 & p4 & Ha & Hf & ->).
  exists evs, p1, p2, p3, p4. auto.
Qed.

Lemma run_test_frees_what_it_allocates_witness :
  exists evs p1 p2 p3 p4,
    run_test short_platform 2 (mkState ∅ [] 0 0)
    = Some (tt, mkState ∅ ([] ++ evs) (0 + clock_reads short_platform 0 2) (0 + 4))
    /\ allocated evs = [p1; p2; p3; p4]
    /\ freed evs = [p1; p2; p3; p4].
Proof.
  apply (run_test_frees_what_it_allocates short_platform 2 ∅ [] 0%nat 0%nat). lia.
Defined.

(** X7. On every platform [main] ends with the heap it started with: the
    arrays of the example are gone, [malloc] was called twelve times and
    [free] twelve times, on the pointers [malloc] returned in the same
    order, and nothing else was ever released.  The clock was read 120
    times for each size whose buffers could be allocated. *)
Theorem main_balanced P h tr c m :
  exists s' evs,
    main P (mkState h tr c m) = Some (0, s')
    /\ heap s' = h
    /\ trace s' = tr ++ evs
    /\ freed evs = allocated evs
    /\ length (allocated evs) = 12%nat
    /\ nmalloc s' = (m + 12)%nat
    /\ nclock s' = (c + clock_reads P m (2 ^ 20) + clock_reads P (m + 4) (2 ^ 24)
                    + clock_reads P (m + 8) (2 ^ 28))%nat.
Proof.
  destruct (main_run P h tr c m)
    as (x & y & zC & zA & e1 & c1 & e2 & c2 & e3 & c3 & E & O1 & O2 & O3).
  destruct (bench_balanced _ _ _ _ _ _ O1) as (p1 & p2 & p3 & p4 & A1 & F1 & ->).
  destruct (bench_balanced _ _ _ _ _ _ O2) as (q1 & q2 & q3 & q4 & A2 & F2 & ->).
  destruct (bench_balanced _ _ _ _ _ _ O3) as (r1 & r2 & r3 & r4 & A3 & F3 & ->).
  destruct (no_alloc_nil _ (no_alloc_verify_report P (Ptr x) (Ptr y) (Ptr zC) (Ptr zA)))
    as [AV FV].
  eexists _, _. split; [exact E |]. cbn [heap trace nclock nmalloc].
  split; [reflexivity |]. split; [reflexivity |].
  rewrite !allocated_app, !freed_app, AV, FV, A1, F1, A2, F2, A3, F3.
  split; [reflexivity |]. split; [reflexivity |]. split; reflexivity.
Qed.

(** ** The verdict of [run_test] *)

(** A value never deviates from itself: the difference is 0 or a NaN. *)
Lemma exceeds_refl v : exceeds v v = false.
Proof.
  unfold exceeds.
  rewrite FloatAxioms.ltb_spec, FloatAxioms.abs_spec, FloatAxioms.sub_spec.
  assert (HE : Prim2SF EPS = S754_finite false 4835703278458517%positive (-82))
    by (vm_compute; reflexivity).
  rewrite HE.
  destruct (Prim2SF v) as [s | s | | s m e].
  - destruct s; reflexivity.
  - destruct s; reflexivity.
  - reflexivity.
  - cbv beta iota zeta delta [SF64sub SFsub]. rewrite Z.sub_diag. reflexivity.
Qed.

Lemma c_result_nth n (i : nat) :
  (i < Z.to_nat n)%nat ->
  nth i (c_result n) 0%float = (2 * init_x (Z.of_nat i) + init_y (Z.of_nat i))%float.
Proof.
  intros Hi. apply nth_lookup_Some. unfold c_result, init_xs, init_ys.
  rewrite lookup_zip_with, !list_lookup_fmap.
  assert (Hs : seq 0 (Z.to_nat n) !! i = Some i) by (apply lookup_seq; lia).
  rewrite Hs. reflexivity.
Qed.

Lemma asm_result_nth P n (i : nat) :
  (i < Z.to_nat n)%nat ->
  nth i (asm_result P n) 0%float = asm_out P 2 (init_xs n) (init_ys n) i.
Proof.
  intros Hi. apply nth_lookup_Some. unfold asm_result.
  rewrite list_lookup_fmap.
  assert (Hs : seq 0 (Z.to_nat n) !! i = Some i) by (apply lookup_seq; lia).
  rewrite Hs. reflexivity.
Qed.

(** X8. When the buffers exist, [run_test] reports PASSED exactly when no
    element the assembly kernel stored deviates by more than [EPS] from
    [2 * x[i] + y[i]] on the generated inputs, and FAILED otherwise; in
    either case it goes on to print both results and both averages and to
    release the buffers.  A kernel that stores exactly what the C kernel
    stores passes, for every size, without a mismatch line. *)
Theorem run_test_verdict P n h tr c m :
  0 <= n < 2 ^ 61 ->
  alloc_fails P m n = false ->
  exists x y zC zA,
    run_test P n (mkState h tr c m)
    = Some (tt, mkState h (tr ++ ok_report P n x y zC zA c) (c + 120) (m + 4))
    /\ (check_value (c_result n) (asm_result P n) n = 1
        \/ check_value (c_result n) (asm_result P n) n = 0)
    /\ (check_value (c_result n) (asm_result P n) n = 1 <->
        forall i : nat, (i < Z.to_nat n)%nat ->
          exceeds (2 * init_x (Z.of_nat i) + init_y (Z.of_nat i))
                  (asm_out P 2 (init_xs n) (init_ys n) i) = false)
    /\ ((forall i : nat, (i < Z.to_nat n)%nat ->
           asm_out P 2 (init_xs n) (init_ys n) i
           = (2 * init_x (Z.of_nat i) + init_y (Z.of_nat i))%float) ->
        check_value (c_result n) (asm_result P n) n = 1
        /\ check_lines (c_result n) (asm_result P n) n = []).
Proof.
  intros Hn Hok.
  destruct (run_test_run P n h tr c m Hn) as (evs & c' & E & O).
  unfold bench_outcome in O. rewrite Hok in O.
  destruct O as (x & y & zC & zA & -> & ->).
  exists (Ptr x), (Ptr y), (Ptr zC), (Ptr zA).
  split; [exact E |].
  assert (Hiff : find_exceed (Z.to_nat n) 0 (c_result n) (asm_result P n) = None <->
            forall i : nat, (i < Z.to_nat n)%nat ->
              exceeds (2 * init_x (Z.of_nat i) + init_y (Z.of_nat i))
                      (asm_out P 2 (init_xs n) (init_ys n) i) = false).
  { rewrite find_exceed_None. split; intros H i Hi.
    - rewrite <- (c_result_nth n i), <- (asm_result_nth P n i) by assumption. apply H. lia.
    - rewrite (c_result_nth n i), (asm_result_nth P n i) by lia. apply H. lia. }
  unfold check_value, check_lines.
  destruct (find_exceed (Z.to_nat n) 0 (c_result n) (asm_result P n)) as [j|] eqn:Ef.
  - split; [now right |]. split.
    + split; [discriminate |]. intros H. apply Hiff in H. discriminate.
    + intros H. assert (Hn' : Some j = @None nat); [| discriminate].
      apply Hiff. intros i Hi. rewrite H by assumption. apply exceeds_refl.
  - split; [now left |]. split.
    + split; [intros _; now apply Hiff | reflexivity].
    + intros _. split; reflexivity.
Qed.

Lemma run_test_verdict_witness :
  exists x y zC zA,
    run_test steady_platform 4 (mkState ∅ [] 0 0)
    = Some (tt, mkState ∅ ([] ++ ok_report steady_platform 4 x y zC zA 0)
                        (0 + 120) (0 + 4))
    /\ (check_value (c_result 4) (asm_result steady_platform 4) 4 = 1
        \/ check_value (c_result 4) (asm_result steady_platform 4) 4 = 0)
    /\ (check_value (c_result 4) (asm_result steady_platform 4) 4 = 1 <->
        forall i : nat, (i < Z.to_nat 4)%nat ->
          exceeds (2 * init_x (Z.of_nat i) + init_y (Z.of_nat i))
                  (asm_out steady_platform 2 (init_xs 4) (init_ys 4) i) = false)
    /\ ((forall i : nat, (i < Z.to_nat 4)%nat ->
           asm_out steady_platform 2 (init_xs 4) (init_ys 4) i
           = (2 * init_x (Z.of_nat i) + init_y (Z.of_nat i))%float) ->
        check_value (c_result 4) (asm_result steady_platform 4) 4 = 1
        /\ check_lines (c_result 4) (asm_result steady_platform 4) 4 = []).
Proof.
  apply (run_test_verdict steady_platform 4 ∅ [] 0%nat 0%nat); [lia | reflexivity].
Defined.

(** ** The generated data *)

Lemma residues_in_range :
  all_in_range (map (scaled 0.001) (seq 0 1000)) (map (scaled 0.002) (seq 0 1000)) = true.
Proof. vm_compute. reflexivity. Qed.

Lemma in_scaled f r k : (r < k)%nat -> In (scaled f r) (map (scaled f) (seq 0 k)).
Proof. intros H. apply in_map. apply in_seq. lia. Qed.

Lemma all_in_range_spec xs ys x y :
  all_in_range xs ys = true -> In x xs -> In y ys -> in_range x y = true.
Proof.
  unfold all_in_range. rewrite forallb_forall. intros H Hx Hy.
  specialize (H x Hx). rewrite forallb_forall in H. now apply H.
Qed.

Lemma in_range_residues rx ry :
  0 <= rx < 1000 -> 0 <= ry < 1000 ->
  in_range (double_of_Z rx * 0.001) (double_of_Z ry * 0.002) = true.
Proof.
  intros Hx Hy.
  pose proof (all_in_range_spec _ _ _ _ residues_in_range
                (in_scaled 0.001 (Z.to_nat rx) 1000 ltac:(lia))
                (in_scaled 0.002 (Z.to_nat ry) 1000 ltac:(lia))) as H.
  unfold scaled in H. now rewrite !Z2Nat.id in H by lia.
Qed.

(** X9. Every pair [init_data] writes is a pair of finite numbers: [x[i]]
    lies in [0, 1), [y[i]] in [0, 2), and the reference result
    [2 * x[i] + y[i]] in [0, 4), for every index, also where [i * 7] has
    wrapped.  So the C kernel's output in [run_test] never holds a NaN or
    an infinity. *)
Theorem init_data_values_in_range i :
  (0 <=? init_x i)%float = true /\ (init_x i <? 1)%float = true
  /\ (0 <=? init_y i)%float = true /\ (init_y i <? 2)%float = true
  /\ (0 <=? 2 * init_x i + init_y i)%float = true
  /\ (2 * init_x i + init_y i <? 4)%float = true.
Proof.
  assert (H : in_range (init_x i) (init_y i) = true).
  { unfold init_x, init_y. apply in_range_residues; apply Z.mod_pos_bound; lia. }
  unfold in_range in H.
  apply andb_prop in H as [H H6]. apply andb_prop in H as [H H5].
  apply andb_prop in H as [H H4]. apply andb_prop in H as [H H3].
  apply andb_prop in H as [H1 H2]. auto 10.
Qed.

(** X10. The generated data repeats with period 1000 as long as [i * 7]
    does not wrap: [x[i + 1000] = x[i]] and [y[i + 1000] = y[i]], and
    [y[i]] depends on [i mod 1000] only. *)
Theorem init_data_period i :
  0 <= i -> (i + 1000) * 7 < 2 ^ 64 ->
  init_x (i + 1000) = init_x i
  /\ init_y (i + 1000) = init_y i
  /\ init_y i = (double_of_Z ((i mod 1000 * 7) mod 1000) * 0.002)%float.
Proof.
  intros Hi Hw. unfold init_x, init_y, size_wrap.
  rewrite (Z.mod_small ((i + 1000) * 7) (2 ^ 64)) by lia.
  rewrite (Z.mod_small (i * 7) (2 ^ 64)) by lia.
  replace (i + 1000) with (i + 1 * 1000) by lia.
  rewrite Z_mod_plus_full.
  replace ((i + 1 * 1000) * 7) with (i * 7 + 7 * 1000) by lia.
  rewrite Z_mod_plus_full.
  split; [reflexivity |]. split; [reflexivity |].
  now rewrite (Z.mul_mod_idemp_l i 7 1000) by lia.
Qed.

Lemma init_data_period_witness :
  init_x (5 + 1000) = init_x 5
  /\ init_y (5 + 1000) = init_y 5
  /\ init_y 5 = (double_of_Z ((5 mod 1000 * 7) mod 1000) * 0.002)%float.
Proof. apply (init_data_period 5); lia. Defined.

(** ** The memory the check and the initialisation need *)

(** Iterations of the check that find no mismatch. *)
Lemma check_loop_skip h tr c m br bt rs ts :
  h !! br = Some rs -> h !! bt = Some ts ->
  forall a b i, (i + a <= length rs)%nat -> (i + a <= length ts)%nat ->
  find_exceed a i rs ts = None ->
  check_loop (a + b) (Z.of_nat i) (Ptr br) (Ptr bt) (mkState h tr c m)
  = check_loop b (Z.of_nat (i + a)) (Ptr br) (Ptr bt) (mkState h tr c m).
Proof.
  intros Hr Ht. induction a as [|a IH]; intros b i Lr Lt E.
  - cbn [Nat.add]. now rewrite Nat.add_0_r.
  - cbn [Nat.add check_loop find_exceed] in *.
    destruct (lookup_lt_is_Some_2 rs i ltac:(lia)) as [r Hri].
    destruct (lookup_lt_is_Some_2 ts i ltac:(lia)) as [t Hti].
    rewrite (bind_run _ _ _ r (mkState h tr c m))
      by (apply load_run with rs; [assumption | now rewrite Nat2Z.id]).
    rewrite (bind_run _ _ _ t (mkState h tr c m))
      by (apply load_run with ts; [assumption | now rewrite Nat2Z.id]).
    rewrite (nth_lookup_Some _ _ 0%float _ Hri), (nth_lookup_Some _ _ 0%float _ Hti) in E.
    change (EPS <? abs (r - t))%float with (exceeds r t).
    destruct (exceeds r t); [discriminate |].
    replace (Z.of_nat i + 1) with (Z.of_nat (S i)) by lia.
    rewrite IH by (assumption || lia). f_equal. lia.
Qed.

(** X11. [check_correctness] has a defined result on two live arrays
    exactly when both hold [n] elements or a mismatch lies at an index
    below [n] that both arrays have: without a mismatch to stop it the loop
    reads up to index [n - 1]. *)
Theorem check_correctness_defined_iff h tr c m br bt rs ts n :
  h !! br = Some rs -> h !! bt = Some ts ->
  is_Some (check_correctness (Ptr br) (Ptr bt) n (mkState h tr c m))
  <-> ((Z.to_nat n <= length rs)%nat /\ (Z.to_nat n <= length ts)%nat)
      \/ exists (j : nat) r t,
           Z.of_nat j < n /\ rs !! j = Some r /\ ts !! j = Some t
           /\ exceeds r t = true.
Proof.
  intros Hr Ht. split.
  - intros Hsome.
    destruct (decide ((Z.to_nat n <= length rs)%nat /\ (Z.to_nat n <= length ts)%nat))
      as [|Hshort]; [now left |].
    right.
    set (k := (length rs `min` length ts)%nat).
    assert (Hk : (k < Z.to_nat n)%nat) by lia.
    destruct (find_exceed k 0 rs ts) as [j|] eqn:E.
    + destruct (find_exceed_Some _ _ _ _ _ E) as (Hj & Hex & _).
      destruct (lookup_lt_is_Some_2 rs j ltac:(lia)) as [r Hrj].
      destruct (lookup_lt_is_Some_2 ts j ltac:(lia)) as [t Htj].
      rewrite (nth_lookup_Some _ _ 0%float _ Hrj), (nth_lookup_Some _ _ 0%float _ Htj) in Hex.
      exists j, r, t. repeat split; (assumption || lia).
    + exfalso. revert Hsome. unfold check_correctness.
      replace (Z.to_nat n) with (k + S (Z.to_nat n - S k))%nat by lia.
      change 0 with (Z.of_nat 0) at 1.
      rewrite (check_loop_skip h tr c m br bt rs ts Hr Ht k _ 0%nat) by (assumption || lia).
      cbn [check_loop Nat.add]. intros [v Hv]. revert Hv. unfold bind at 1.
      destruct (decide (length rs <= k)%nat) as [Sr|Sr].
      { rewrite (load_fail _ _ _ _ br rs (Z.of_nat k) Hr) by (rewrite Nat2Z.id; lia).
        discriminate. }
      destruct (lookup_lt_is_Some_2 rs k ltac:(lia)) as [rk Hrk].
      rewrite (load_run _ _ _ _ br rs (Z.of_nat k) rk Hr) by (now rewrite Nat2Z.id).
      unfold bind at 1.
      rewrite (load_fail _ _ _ _ bt ts (Z.of_nat k) Ht) by (rewrite Nat2Z.id; lia).
      discriminate.
  - intros [[Lr Lt] | (j & r & t & Hj & Hrj & Htj & Hex)].
    + rewrite (check_correctness_run' h tr c m br bt rs ts n) by assumption. eauto.
    + pose proof (lookup_lt_Some _ _ _ Hrj) as Lr.
      pose proof (lookup_lt_Some _ _ _ Htj) as Lt.
      destruct (find_exceed (S j) 0 rs ts) as [j0|] eqn:E.
      2:{ rewrite find_exceed_None in E. specialize (E j ltac:(lia)).
          rewrite (nth_lookup_Some _ _ 0%float _ Hrj), (nth_lookup_Some _ _ 0%float _ Htj) in E.
          congruence. }
      destruct (find_exceed_Some _ _ _ _ _ E) as (Hj0 & Hex0 & Hmin0).
      unfold check_correctness. change 0 with (Z.of_nat 0) at 1.
      rewrite (check_loop_stop h tr c m br bt rs ts j0 Hr Ht ltac:(lia) ltac:(lia)
                 (Z.to_nat n) 0%nat).
      * eauto.
      * apply find_exceed_first; [lia | assumption | assumption].
Qed.

Lemma check_correctness_defined_iff_witness :
  is_Some (check_correctness (Ptr 0%nat) (Ptr 1%nat) 5 (mkState nan_heap [] 0 0))
  <-> ((Z.to_nat 5 <= length [nan; 1]%float)%nat /\ (Z.to_nat 5 <= length [0; 1]%float)%nat)
      \/ exists (j : nat) r t,
           Z.of_nat j < 5 /\ [nan; 1]%float !! j = Some r /\ [0; 1]%float !! j = Some t
           /\ exceeds r t = true.
Proof.
  apply (check_correctness_defined_iff nan_heap [] 0%nat 0%nat 0%nat 1%nat
           [nan; 1]%float [0; 1]%float 5); reflexivity.
Defined.

(** X12. [init_data] writes [x[i]] and [y[i]] for every [i < n]: on two
    distinct live arrays it has a defined result exactly when both hold at
    least [n] elements. *)
Theorem init_data_defined_iff h tr c m bx by_ xs ys n :
  bx <> by_ -> h !! bx = Some xs -> h !! by_ = Some ys ->
  is_Some (init_data (Ptr bx) (Ptr by_) n (mkState h tr c m))
  <-> (Z.to_nat n <= length xs)%nat /\ (Z.to_nat n <= length ys)%nat.
Proof.
  intros Hne Hx Hy. split.
  2:{ intros [Lx Ly]. rewrite (init_data_run h tr c m bx by_ xs ys n) by assumption.
      eauto. }
  intros Hsome.
  destruct (decide ((Z.to_nat n <= length xs)%nat /\ (Z.to_nat n <= length ys)%nat))
    as [|Hshort]; [assumption |].
  exfalso. revert Hsome.
  set (k := (length xs `min` length ys)%nat).
  assert (Hk : (k < Z.to_nat n)%nat) by lia.
  pose proof (init_data_run h tr c m bx by_ xs ys (Z.of_nat k) Hne Hx Hy
                ltac:(lia) ltac:(lia)) as Hpre.
  unfold init_data in *. rewrite Nat2Z.id in Hpre.
  replace (Z.to_nat n) with (k + S (Z.to_nat n - S k))%nat by lia.
  rewrite for_loop_app, (bind_run _ _ _ _ _ Hpre).
  cbn [for_loop]. rewrite Z.add_0_l.
  set (X := filled (fun i => init_x (Z.of_nat i)) xs k).
  set (Y := filled (fun i => init_y (Z.of_nat i)) ys k).
  assert (LX : length X = length xs) by (apply filled_length; lia).
  assert (LY : length Y = length ys) by (apply filled_length; lia).
  assert (HX : (<[by_ := Y]> (<[bx := X]> h)) !! bx = Some X)
    by (rewrite lookup_insert_ne, lookup_insert_eq by congruence; reflexivity).
  intros [v Hv]. revert Hv. unfold bind at 1. unfold bind at 1.
  destruct (decide (length xs <= k)%nat) as [Sx|Sx].
  { rewrite (store_fail _ _ _ _ bx X (Z.of_nat k) _ HX) by (rewrite Nat2Z.id; lia).
    discriminate. }
  rewrite (store_run _ _ _ _ bx X (Z.of_nat k) _ HX) by (rewrite Nat2Z.id; lia).
  rewrite (store_fail _ _ _ _ by_ Y (Z.of_nat k)).
  - discriminate.
  - rewrite lookup_insert_ne, lookup_insert_eq by congruence. reflexivity.
  - rewrite Nat2Z.id. lia.
Qed.

Lemma init_data_defined_iff_witness :
  is_Some (init_data (Ptr 0%nat) (Ptr 1%nat) 4 (mkState example_heap [] 0 0))
  <-> (Z.to_nat 4 <= length [1; 2; 3]%float)%nat
      /\ (Z.to_nat 4 <= length [11; 12; 13]%float)%nat.
Proof.
  apply (init_data_defined_iff example_heap [] 0%nat 0%nat 0%nat 1%nat
           [1; 2; 3]%float [11; 12; 13]%float 4); [discriminate | reflexivity | reflexivity].
Defined.

(** ** A clock that does not advance *)

Lemma zero_div d : (0 <? d)%float = true -> (0 / d)%float = 0%float.
Proof.
  intros H. rewrite FloatAxioms.ltb_spec in H.
  rewrite <- (FloatAxioms.SF2Prim_Prim2SF (0 / d)), FloatAxioms.div_spec.
  change (Prim2SF 0) with (S754_zero false) in *.
  destruct (Prim2SF d) as [s | s | | s md ed]; try discriminate;
    destruct s; try discriminate; reflexivity.
Qed.

Lemma durations_stalled P t k : forall c,
  (forall j, (c <= j < c + 2 * k)%nat -> clock_at P j = t) ->
  durations P c k = replicate k (duration P t t).
Proof.
  induction k as [|k IH]; intros c H; [reflexivity |].
  cbn [durations replicate].
  rewrite (H c), (H (S c)) by lia. f_equal.
  apply IH. intros j Hj. apply H. lia.
Qed.

(** X13. When the clock does not advance while the kernels are timed (a
    kernel faster than one tick of [clock()]), every duration is 0 and
    [run_test] reports an average of exactly 0 seconds for both kernels. *)
Theorem stalled_clock_reports_zero P n h tr c m :
  0 <= n < 2 ^ 61 ->
  alloc_fails P m n = false ->
  (0 <? double_of_Z (CLOCKS_PER_SEC P))%float = true ->
  (forall k, (c <= k < c + 120)%nat -> clock_at P k = clock_at P c) ->
  exists x y zC zA,
    run_test P n (mkState h tr c m)
    = Some (tt, mkState h (tr ++ ok_report P n x y zC zA c) (c + 120) (m + 4))
    /\ durations P c 30 = replicate 30 0%float
    /\ durations P (c + 60) 30 = replicate 30 0%float
    /\ mean_of_runs (durations P c (Z.to_nat RUNS)) = 0%float
    /\ mean_of_runs (durations P (c + 2 * Z.to_nat RUNS) (Z.to_nat RUNS)) = 0%float.
Proof.
  intros Hn Hok Hcps Hstall.
  destruct (run_test_run P n h tr c m Hn) as (evs & c' & E & O).
  unfold bench_outcome in O. rewrite Hok in O.
  destruct O as (x & y & zC & zA & -> & ->).
  exists (Ptr x), (Ptr y), (Ptr zC), (Ptr zA).
  split; [exact E |].
  assert (Hz : duration P (clock_at P c) (clock_at P c) = 0%float).
  { unfold duration. rewrite Z.sub_diag. change (double_of_Z 0) with 0%float.
    now apply zero_div. }
  assert (D1 : durations P c 30 = replicate 30 0%float).
  { rewrite (durations_stalled P (clock_at P c)), Hz; [reflexivity |].
    intros j Hj. apply Hstall. lia. }
  assert (D2 : durations P (c + 60) 30 = replicate 30 0%float).
  { rewrite (durations_stalled P (clock_at P c)), Hz; [reflexivity |].
    intros j Hj. apply Hstall. lia. }
  split; [exact D1 |]. split; [exact D2 |].
  change (Z.to_nat RUNS) with 30%nat. change (c + 2 * 30)%nat with (c + 60)%nat.
  rewrite D1, D2. split; vm_compute; reflexivity.
Qed.

Lemma stalled_clock_reports_zero_witness :
  exists x y zC zA,
    run_test stalled_platform 4 (mkState ∅ [] 0 0)
    = Some (tt, mkState ∅ ([] ++ ok_report stalled_platform 4 x y zC zA 0)
                        (0 + 120) (0 + 4))
    /\ durations stalled_platform 0 30 = replicate 30 0%float
    /\ durations stalled_platform (0 + 60) 30 = replicate 30 0%float
    /\ mean_of_runs (durations stalled_platform 0 (Z.to_nat RUNS)) = 0%float
    /\ mean_of_runs (durations stalled_platform (0 + 2 * Z.to_nat RUNS) (Z.to_nat RUNS))
       = 0%float.
Proof.
  apply (stalled_clock_reports_zero stalled_platform 4 ∅ [] 0%nat 0%nat);
    [lia | reflexivity | reflexivity | reflexivity].
Defined.
